(** * Autonomous deployer: a shallow embedding and its verified properties

    The development follows the Python sources of the deployment
    orchestrator ([autonomous_deployer.py]) and of its collaborators
    ([github_automation.py], [deployment_automation.py],
    [domain_management.py], [monitoring_integration.py],
    [cicd_automation.py], [email_integration.py],
    [business_operations.py]).

    - Python values that cross a dynamic boundary (JSON documents, result
      dictionaries) are [pyval]s; a dictionary is an association list in
      insertion order, and [d[k]] raises [KeyError] when [k] is missing.
    - Everything outside the process (HTTP exchanges, [git], the file
      system, the clock) is answered by a [World], a deterministic oracle
      that sees the whole history of effects so far, so that any sequence
      of answers is some world.
    - Code runs in the monad [M]: state passing with exceptions, where the
      state survives a raise as it does in Python. *)

From Stdlib Require Import ZArith String Ascii List Bool Lia DecimalString DecimalPos DecimalZ.
From stdpp Require Import base strings gmap.
Import ListNotations.

Local Open Scope string_scope.
Local Open Scope Z_scope.
#[local] Set Warnings "-register-all".

(** ** Python values *)

Module Py.

Inductive pyval : Type :=
| VNone
| VBool (b : bool)
| VInt (z : Z)
| VStr (s : string)
| VList (l : list pyval)
| VDict (d : list (string * pyval)).

Definition pydict : Type := list (string * pyval).

(** [str(int)] *)
Definition str_of_Z (z : Z) : string := NilZero.string_of_int (Z.to_int z).

(** *** Strings *)

Fixpoint join (sep : string) (l : list string) : string :=
  match l with
  | [] => ""
  | [x] => x
  | x :: rest => x ++ sep ++ join sep rest
  end.

Fixpoint contains_char (c : ascii) (s : string) : bool :=
  match s with
  | EmptyString => false
  | String d rest => Ascii.eqb c d || contains_char c rest
  end.

Definition hex_digit (n : N) : ascii :=
  ascii_of_N (if (n <? 10)%N then 48 + n else 87 + n)%N.

Definition backslash : ascii := ascii_of_N 92.
Definition dquote : ascii := ascii_of_N 34.
Definition squote : ascii := ascii_of_N 39.

(** One character of [repr(str)] with [q] the chosen quote.  Bytes above
    127 are the UTF-8 encoding of characters that [repr] leaves as they
    are when printable. *)
Definition repr_char (q : ascii) (c : ascii) : string :=
  let n := N_of_ascii c in
  if Ascii.eqb c backslash then String backslash (String backslash "")
  else if Ascii.eqb c q then String backslash (String q "")
  else if (n =? 10)%N then String backslash "n"
  else if (n =? 13)%N then String backslash "r"
  else if (n =? 9)%N then String backslash "t"
  else if ((n <? 32) || (n =? 127))%N
       then String backslash (String "x"%char
              (String (hex_digit (n / 16)) (String (hex_digit (n mod 16)) "")))
  else String c "".

Fixpoint repr_body (q : ascii) (s : string) : string :=
  match s with
  | EmptyString => ""
  | String c rest => repr_char q c ++ repr_body q rest
  end.

(** [repr(s)] for a [str]: single quotes, unless the string holds a
    single quote and no double quote. *)
Definition repr_str (s : string) : string :=
  let q := if contains_char squote s && negb (contains_char dquote s)
           then dquote else squote in
  String q (repr_body q s ++ String q "").

Fixpoint py_repr (v : pyval) : string :=
  match v with
  | VNone => "None"
  | VBool true => "True"
  | VBool false => "False"
  | VInt z => str_of_Z z
  | VStr s => repr_str s
  | VList l => "[" ++ join ", " (List.map py_repr l) ++ "]"
  | VDict d =>
      "{" ++ join ", " (List.map (fun kv => repr_str (fst kv) ++ ": " ++ py_repr (snd kv)) d) ++ "}"
  end.

(** [str(v)], which is what an f-string substitutes. *)
Definition py_str (v : pyval) : string :=
  match v with
  | VStr s => s
  | _ => py_repr v
  end.

(** Truth value of [v] in a condition. *)
Definition truthy (v : pyval) : bool :=
  match v with
  | VNone => false
  | VBool b => b
  | VInt z => negb (z =? 0)
  | VStr s => negb (String.eqb s "")
  | VList l => match l with [] => false | _ => true end
  | VDict d => match d with [] => false | _ => true end
  end.

Definition type_name (v : pyval) : string :=
  match v with
  | VNone => "NoneType"
  | VBool _ => "bool"
  | VInt _ => "int"
  | VStr _ => "str"
  | VList _ => "list"
  | VDict _ => "dict"
  end.

(** A credential or attribute of type [Optional[str]] as a value. *)
Definition of_opt (o : option string) : pyval :=
  match o with
  | Some s => VStr s
  | None => VNone
  end.

(** [if x:] on an [Optional[str]] *)
Definition opt_truthy (o : option string) : bool := truthy (of_opt o).

(** *** [str.title()] on ASCII text: the first letter of every run of
    letters in upper case, the other letters in lower case.  The letters
    of other alphabets are left as they are, where Python cases them
    too: a statement that shows a name in title case is made for ASCII
    names. *)

Definition is_upper (c : ascii) : bool :=
  let n := N_of_ascii c in ((65 <=? n) && (n <=? 90))%N.
Definition is_lower (c : ascii) : bool :=
  let n := N_of_ascii c in ((97 <=? n) && (n <=? 122))%N.
Definition to_upper (c : ascii) : ascii :=
  if is_lower c then ascii_of_N (N_of_ascii c - 32) else c.
Definition to_lower (c : ascii) : ascii :=
  if is_upper c then ascii_of_N (N_of_ascii c + 32) else c.

Fixpoint title_from (prev_cased : bool) (s : string) : string :=
  match s with
  | EmptyString => ""
  | String c rest =>
      let cased := is_upper c || is_lower c in
      String (if prev_cased then to_lower c else to_upper c) (title_from cased rest)
  end.

Definition title (s : string) : string := title_from false s.

(** *** [str.replace], [str.split], [in] on strings *)

Fixpoint is_prefix (p s : string) : bool :=
  match p, s with
  | EmptyString, _ => true
  | String a p', String b s' => Ascii.eqb a b && is_prefix p' s'
  | String _ _, EmptyString => false
  end.

Fixpoint is_substring (p s : string) : bool :=
  is_prefix p s ||
  match s with
  | EmptyString => false
  | String _ s' => is_substring p s'
  end.

(** [s.replace(old, new)] for a non-empty [old]: scan left to right; a
    match emits [new] and skips the matched characters. *)
Fixpoint replace_from (old new : string) (skip : nat) (s : string) : string :=
  match s with
  | EmptyString => ""
  | String c rest =>
      match skip with
      | S k => replace_from old new k rest
      | O =>
          if is_prefix old s
          then new ++ replace_from old new (Nat.pred (String.length old)) rest
          else String c (replace_from old new O rest)
      end
  end.

Definition replace (old new s : string) : string := replace_from old new O s.

(** [s.split(sep)] for a one-character separator. *)
Fixpoint split_on (sep : ascii) (cur : string) (s : string) : list string :=
  match s with
  | EmptyString => [cur]
  | String c rest =>
      if Ascii.eqb c sep then cur :: split_on sep "" rest
      else split_on sep (cur ++ String c "") rest
  end.

Definition split (sep : ascii) (s : string) : list string := split_on sep "" s.

(** *** Dictionaries *)

Fixpoint dict_get (k : string) (d : pydict) : option pyval :=
  match d with
  | [] => None
  | (k', v) :: rest => if String.eqb k k' then Some v else dict_get k rest
  end.

Definition dict_has (k : string) (d : pydict) : bool :=
  match dict_get k d with Some _ => true | None => false end.

(** [d.get(k, dflt)] *)
Definition dict_get_default (k : string) (dflt : pyval) (d : pydict) : pyval :=
  match dict_get k d with Some v => v | None => dflt end.

(** *** [os.path] *)

Fixpoint last_char (s : string) : option ascii :=
  match s with
  | EmptyString => None
  | String c EmptyString => Some c
  | String _ rest => last_char rest
  end.

(** [os.path.join(a, b)] on POSIX *)
Definition path_join (a b : string) : string :=
  if is_prefix "/" b then b
  else if String.eqb a "" then b
  else match last_char a with
       | Some "/"%char => a ++ b
       | _ => a ++ "/" ++ b
       end.

(** [os.path.basename(p)]: what follows the last slash. *)
Definition basename (p : string) : string := List.last (split "/"%char p) "".

(** [d[k] = v]: the entry of a key that is there is replaced where it
    stands; a new key goes to the end. *)
Fixpoint dict_set (k : string) (v : pyval) (d : pydict) : pydict :=
  match d with
  | [] => [(k, v)]
  | (k', v') :: rest =>
      if String.eqb k k' then (k, v) :: rest else (k', v') :: dict_set k v rest
  end.

(** [d.update(other)] *)
Definition dict_update (d other : pydict) : pydict :=
  fold_left (fun acc kv => dict_set (fst kv) (snd kv) acc) other d.

(** [x or dflt] for an [Optional[str]] *)
Definition or_else (x : option string) (dflt : string) : string :=
  match x with
  | Some s => if String.eqb s "" then dflt else s
  | None => dflt
  end.

End Py.

Import Py.

(** ** The world outside the process, and the monad of effects *)

Module Sys.

Inductive Method := GET | POST | PUT.

(** What the process does to the outside, in program order. *)
Inductive Event :=
| EvHttp (m : Method) (url : string) (timeout : option Z)
| EvRun (argv : list string)
| EvMakedirs (path : string)
| EvGlob (pattern : string)
| EvCopytree (src dst : string)
| EvCopy2 (src dst : string)
| EvChdir (path : string)
| EvPrint (line : string).

Record Response := {
  status_code : Z;
  text : string;
  json_doc : option pyval   (* [None]: the body is not JSON *)
}.

Inductive HttpReply :=
| HttpRaise (msg : string)          (* timeout, connection error, bad URL *)
| HttpResponse (r : Response).

Inductive RunReply :=
| RunOk
| RunNonZero (msg : string)         (* [check=True] raises CalledProcessError *)
| RunOSError (msg : string).        (* the program could not be started *)

(** Each answer may depend on the history of events so far. *)
Record World := {
  http_reply : list Event -> Method -> string -> option Z -> HttpReply;
  run_reply : list Event -> list string -> RunReply;
  fs_error : list Event -> Event -> option string;
  glob_reply : list Event -> string -> list string;
  time_us : list Event -> Z         (* [time.time()], in microseconds *)
}.

Inductive Exn :=
| KeyError (key : pyval)
| IndexError (msg : string)
| TypeError (msg : string)
| AttributeError (msg : string)
| RequestException (msg : string)
| JSONDecodeError (msg : string)
| CalledProcessError (msg : string)
| OSError (msg : string).

(** [str(e)] *)
Definition exn_str (e : Exn) : string :=
  match e with
  | KeyError k => py_repr k
  | IndexError m | TypeError m | AttributeError m | RequestException m
  | JSONDecodeError m | CalledProcessError m | OSError m => m
  end.

(** The process: the events so far, the working directory, the
    directories that exist, and the log that [deploy_mvp] is building. *)
Record St := {
  trace : list Event;
  cwd : string;
  dirs : gset string;
  log : list string
}.

Inductive Outcome (A : Type) :=
| Val (a : A)
| Raise (e : Exn).
Arguments Val {A} a.
Arguments Raise {A} e.

Definition M (A : Type) : Type := St -> Outcome A * St.

Definition ret {A} (a : A) : M A := fun s => (Val a, s).

Definition bind {A B} (m : M A) (k : A -> M B) : M B :=
  fun s => match m s with
           | (Val a, s') => k a s'
           | (Raise e, s') => (Raise e, s')
           end.

Definition raise {A} (e : Exn) : M A := fun s => (Raise e, s).

(** [try: body  except Exception as e: handler e] *)
Definition try_except {A} (body : M A) (handler : Exn -> M A) : M A :=
  fun s => match body s with
           | (Val a, s') => (Val a, s')
           | (Raise e, s') => handler e s'
           end.

(** [try: body  finally: fin] *)
Definition try_finally {A} (body : M A) (fin : M unit) : M A :=
  fun s => match body s with
           | (r, s') =>
               match fin s' with
               | (Val _, s'') => (r, s'')
               | (Raise e, s'') => (Raise e, s'')
               end
           end.

Declare Scope py_scope.
Delimit Scope py_scope with py.
Notation "x <- m ;; k" := (bind m (fun x => k))
  (at level 100, m at next level, right associativity) : py_scope.
Notation "m ;;; k" := (bind m (fun _ => k))
  (at level 100, right associativity) : py_scope.

Local Open Scope py_scope.

Definition with_trace (t : list Event) (s : St) : St :=
  {| trace := t; cwd := cwd s; dirs := dirs s; log := log s |}.

Definition emit (ev : Event) : M unit :=
  fun s => (Val tt, with_trace (trace s ++ [ev]) s).

Definition log_append (line : string) : M unit :=
  fun s => (Val tt, {| trace := trace s; cwd := cwd s; dirs := dirs s;
                       log := log s ++ [line] |}).

Section Primitives.
Variable w : World.

(** [requests.get/post/put(url, timeout=...)]; [requests] applies [str]
    to a URL that is not one. *)
Definition request (m : Method) (url : string) (timeout : option Z) : M Response :=
  fun s =>
    let s' := with_trace (trace s ++ [EvHttp m url timeout]) s in
    match http_reply w (trace s) m url timeout with
    | HttpRaise msg => (Raise (RequestException msg), s')
    | HttpResponse r => (Val r, s')
    end.

(** [response.json()] *)
Definition json (r : Response) : M pyval :=
  match json_doc r with
  | Some v => ret v
  | None => raise (JSONDecodeError "Expecting value: line 1 column 1 (char 0)")
  end.

(** [time.time()] and [int(time.time())] *)
Definition time_time : M Z := fun s => (Val (time_us w (trace s)), s).
Definition int_time : M Z := t <- time_time ;; ret (Z.quot t 1000000).

(** [subprocess.run(argv, check=True)]; an argument that is not a string
    is a [TypeError] before anything runs. *)
Fixpoint argv_strings (argv : list pyval) : Exn + list string :=
  match argv with
  | [] => inr []
  | VStr a :: rest =>
      match argv_strings rest with
      | inr l => inr (a :: l)
      | inl e => inl e
      end
  | v :: _ =>
      inl (TypeError ("expected str, bytes or os.PathLike object, not " ++ type_name v))
  end.

Definition subprocess_run (argv : list pyval) : M unit :=
  match argv_strings argv with
  | inl e => raise e
  | inr args =>
      fun s =>
        let s' := with_trace (trace s ++ [EvRun args]) s in
        match run_reply w (trace s) args with
        | RunOk => (Val tt, s')
        | RunNonZero msg => (Raise (CalledProcessError msg), s')
        | RunOSError msg => (Raise (OSError msg), s')
        end
  end.

(** A file-system action that the world may refuse. *)
Definition fs_action (ev : Event) : M unit :=
  fun s =>
    let s' := with_trace (trace s ++ [ev]) s in
    match fs_error w (trace s) ev with
    | Some msg => (Raise (OSError msg), s')
    | None => (Val tt, s')
    end.

(** [os.makedirs(path, exist_ok=True)] *)
Definition makedirs (path : string) : M unit :=
  fs_action (EvMakedirs path) ;;;
  fun s => (Val tt, {| trace := trace s; cwd := cwd s;
                       dirs := {[ path ]} ∪ dirs s; log := log s |}).

(** [glob.glob(pattern)] *)
Definition glob (pattern : string) : M (list string) :=
  fun s => (Val (glob_reply w (trace s) pattern),
            with_trace (trace s ++ [EvGlob pattern]) s).

(** [os.path.isdir(path)] *)
Definition isdir (path : string) : M bool :=
  fun s => (Val (bool_decide (path ∈ dirs s)), s).

(** [os.getcwd()] raises when the working directory no longer exists. *)
Definition getcwd : M string :=
  fun s => if bool_decide (cwd s ∈ dirs s) then (Val (cwd s), s)
           else (Raise (OSError "[Errno 2] No such file or directory"), s).

(** [os.chdir(path)] *)
Definition chdir (path : string) : M unit :=
  fun s =>
    let s' := with_trace (trace s ++ [EvChdir path]) s in
    if bool_decide (path ∈ dirs s)
    then (Val tt, {| trace := trace s'; cwd := path; dirs := dirs s; log := log s |})
    else (Raise (OSError ("[Errno 2] No such file or directory: " ++ repr_str path)), s').

(** [print(line)] *)
Definition print (line : string) : M unit := emit (EvPrint line).
End Primitives.

(** *** Operations of the language on dynamic values *)

(** [v[k]] with a string key *)
Definition getitem (v : pyval) (k : string) : M pyval :=
  match v with
  | VDict d =>
      match dict_get k d with
      | Some x => ret x
      | None => raise (KeyError (VStr k))
      end
  | VList _ => raise (TypeError "list indices must be integers or slices, not str")
  | VStr _ => raise (TypeError "string indices must be integers")
  | _ => raise (TypeError ("'" ++ type_name v ++ "' object is not subscriptable"))
  end.

(** [v[0]] *)
Definition getitem0 (v : pyval) : M pyval :=
  match v with
  | VList (x :: _) => ret x
  | VList [] => raise (IndexError "list index out of range")
  | VStr (String c _) => ret (VStr (String c ""))
  | VStr EmptyString => raise (IndexError "string index out of range")
  | VDict d => raise (KeyError (VInt 0))
  | _ => raise (TypeError ("'" ++ type_name v ++ "' object is not subscriptable"))
  end.

(** [k in v] for a string [k] *)
Definition contains (k : string) (v : pyval) : M bool :=
  match v with
  | VDict d => ret (dict_has k d)
  | VList l =>
      ret (existsb (fun x => match x with VStr t => String.eqb k t | _ => false end) l)
  | VStr s => ret (is_substring k s)
  | _ => raise (TypeError ("argument of type '" ++ type_name v ++ "' is not iterable"))
  end.

(** [v.get(k, dflt)] *)
Definition get_method (v : pyval) (k : string) (dflt : pyval) : M pyval :=
  match v with
  | VDict d => ret (dict_get_default k dflt d)
  | _ => raise (AttributeError ("'" ++ type_name v ++ "' object has no attribute 'get'"))
  end.

Fixpoint chars (s : string) : list pyval :=
  match s with
  | EmptyString => []
  | String c rest => VStr (String c "") :: chars rest
  end.

(** The items that [for x in v] visits. *)
Definition iterate (v : pyval) : M (list pyval) :=
  match v with
  | VList l => ret l
  | VDict d => ret (List.map (fun kv => VStr (fst kv)) d)
  | VStr s => ret (chars s)
  | _ => raise (TypeError ("'" ++ type_name v ++ "' object is not iterable"))
  end.

(** [v == s] for a string [s] *)
Definition eq_str (v : pyval) (s : string) : bool :=
  match v with
  | VStr t => String.eqb t s
  | _ => false
  end.

(** The dictionary that a collaborator returned, read at a key. *)
Definition field (d : pydict) (k : string) : M pyval := getitem (VDict d) k.

End Sys.

Import Sys.
Local Open Scope py_scope.

(** ** Credentials

    The mapping from secret names to [Optional[str]] values that every
    component reads with [credentials.get]. *)

Abbreviation creds := (gmap string (option string)).

(** [credentials.get(k)] *)
Definition cred_get (c : creds) (k : string) : option string :=
  match c !! k with
  | Some v => v
  | None => None
  end.

(** [credentials.get(k, dflt)]: a key that maps to [None] yields [None]. *)
Definition cred_get_default (c : creds) (k : string) (dflt : string) : option string :=
  match c !! k with
  | Some v => v
  | None => Some dflt
  end.

(** The dictionary every collaborator returns on failure. *)
Definition failure (msg : string) : pydict :=
  [("success", VBool false); ("error", VStr msg)].

(** Requests are recorded by method, URL and timeout; headers and bodies
    are not, and no definition below depends on them. *)

(** ** [credential_manager.py] *)

Module CredentialManager.

(** [os.getenv], once the three [load_dotenv] calls of [__init__] have
    filled the environment of the process. *)
Definition environ : Type := string -> option string.

(** [os.getenv(k, dflt)] *)
Definition getenv_default (env : environ) (k dflt : string) : option string :=
  match env k with
  | Some v => Some v
  | None => Some dflt
  end.

Record t := { credentials : creds }.

Definition init (env : environ) : t :=
  {| credentials :=
       list_to_map
         [("RAILWAY_TOKEN", Some "2e8e81e5-cb08-4ae9-8fe8-4fa94e942a62");
          ("VERCEL_TOKEN", Some "ZEo01Ou1koSSDWyFw0w9LGjX");
          ("RENDER_API_KEY", Some "rnd_gBzxTKBbvKl6VxHFnexzTS0i9jHZ");
          ("GITHUB_TOKEN", env "GITHUB_TOKEN");
          ("GITHUB_APP_ID", Some "1693043");
          ("GITHUB_PRIVATE_KEY", Some "SHA256:zUg3vVtYlXT6ENnhhVKvBu84WSYKWXgcvFWc9JE86uI=");
          ("GODADDY_API_KEY", Some "h2K7cZMm5MPB_6Daj9vMhKLqpx3c7ijGDgM");
          ("GODADDY_SECRET", Some "HqmPSzSHSgbboFYuWJK3NU");
          ("SENDGRID_API_KEY", None);
          ("MAILGUN_API_KEY", None);
          ("MAILCHIMP_API_KEY", Some "4f89ab137b38a9d6272e4512daeb1b60-us19");
          ("MAILCHIMP_SERVER", Some "us19");
          ("SENTRY_DSN", None);
          ("DATADOG_API_KEY", None);
          ("OPENAI_API_KEY", env "OPENAI_API_KEY");
          ("STRIPE_SECRET_KEY", env "STRIPE_SECRET_KEY");
          ("TELEGRAM_BOT_TOKEN", env "TELEGRAM_BOT_TOKEN");
          ("TELEGRAM_USER_ID", env "TELEGRAM_USER_ID");
          ("PRICE_ID", getenv_default env "PRICE_ID" "price_1RcdcyEfbTvI2h4o4PVLTykg")] |}.

Definition get_credential (self : t) (key : string) : option string :=
  cred_get (credentials self) key.

(** [self.credentials.copy()] *)
Definition get_all_credentials (self : t) : creds := credentials self.

(** [self.credentials.get(key) is not None] *)
Definition has_credential (self : t) (key : string) : bool :=
  match cred_get (credentials self) key with
  | Some _ => true
  | None => false
  end.

(** The dictionary of dictionaries that [validate_credentials] starts
    from, in the order of its literal. *)
Definition checks (self : t) : list (string * list (string * bool)) :=
  [("platform_deployment",
    [("railway", has_credential self "RAILWAY_TOKEN");
     ("vercel", has_credential self "VERCEL_TOKEN");
     ("render", has_credential self "RENDER_API_KEY")]);
   ("github_automation",
    [("token", has_credential self "GITHUB_TOKEN");
     ("app_id", has_credential self "GITHUB_APP_ID");
     ("private_key", has_credential self "GITHUB_PRIVATE_KEY")]);
   ("domain_management",
    [("godaddy", has_credential self "GODADDY_API_KEY"
                 && has_credential self "GODADDY_SECRET")]);
   ("email_services",
    [("sendgrid", has_credential self "SENDGRID_API_KEY");
     ("mailgun", has_credential self "MAILGUN_API_KEY");
     ("mailchimp", has_credential self "MAILCHIMP_API_KEY")]);
   ("core_services",
    [("openai", has_credential self "OPENAI_API_KEY");
     ("stripe", has_credential self "STRIPE_SECRET_KEY");
     ("telegram", has_credential self "TELEGRAM_BOT_TOKEN")])].

(** The two nested loops over the categories and their checks; the pair
    is [(passed_checks, total_checks)]. *)
Definition tally (validation : list (string * list (string * bool))) : Z * Z :=
  fold_left
    (fun counts category =>
       fold_left
         (fun counts check =>
            let total := snd counts + 1 in
            (if snd check : bool then fst counts + 1 else fst counts, total))
         (snd category) counts)
    validation (0, 0).

(** [round((passed / total) * 100, 1)], in tenths of a percent.  The
    Python value is a float; with the thirteen checks of [checks] no
    quotient lies half-way between two tenths, so that the float is
    rounded to the tenth that is nearest to the exact quotient. *)
Definition percentage_tenths (passed total : Z) : Z :=
  (2000 * passed + total) / (2 * total).

(** What [validate_credentials] returns: the categories, and the two
    entries that it adds to them. *)
Record validation := {
  categories : list (string * list (string * bool));
  readiness_score : string;
  percentage : Z                        (* in tenths of a percent *)
}.

Definition validate_credentials (self : t) : validation :=
  let validation := checks self in
  let counts := tally validation in
  let passed_checks := fst counts in
  let total_checks := snd counts in
  {| categories := validation;
     readiness_score := str_of_Z passed_checks ++ "/" ++ str_of_Z total_checks;
     percentage := percentage_tenths passed_checks total_checks |}.

Definition critical_credentials : list string :=
  ["RAILWAY_TOKEN"; "VERCEL_TOKEN"; "GITHUB_TOKEN"; "GODADDY_API_KEY"; "GODADDY_SECRET";
   "OPENAI_API_KEY"; "STRIPE_SECRET_KEY"].

(** [for cred in critical_credentials: if not self.has_credential(cred):
    missing.append(cred)] *)
Definition get_missing_credentials (self : t) : list string :=
  List.filter (fun cred => negb (has_credential self cred)) critical_credentials.

Definition export_for_deployment (self : t) (platform : string) : pydict :=
  let base_env :=
    [("OPENAI_API_KEY", VStr (or_else (get_credential self "OPENAI_API_KEY") ""));
     ("STRIPE_SECRET_KEY", VStr (or_else (get_credential self "STRIPE_SECRET_KEY") ""));
     ("SECRET_KEY", VStr "ai-content-optimizer-secret-key-2025");
     ("FLASK_ENV", VStr "production");
     ("PRICE_ID", VStr (or_else (get_credential self "PRICE_ID")
                                "price_1RcdcyEfbTvI2h4o4PVLTykg"))] in
  let base_env :=
    if String.eqb platform "railway" then
      dict_update base_env [("PORT", VStr "5000");
                            ("RAILWAY_ENVIRONMENT", VStr "production")]
    else if String.eqb platform "vercel" then
      dict_update base_env [("VERCEL_ENV", VStr "production")]
    else if String.eqb platform "render" then
      dict_update base_env [("RENDER_ENV", VStr "production")]
    else base_env in
  (* {k: v for k, v in base_env.items() if v is not None} *)
  List.filter (fun kv => match snd kv with VNone => false | _ => true end) base_env.

End CredentialManager.

(** ** [github_automation.py] *)

Module GitHubAutomation.
Section Methods.
Variable w : World.

Definition base_url : string := "https://api.github.com".

Definition create_repository (name description : string) (private : bool) : M pydict :=
  try_except
    (response <- request w POST (base_url ++ "/user/repos") None ;;
     if status_code response =? 201 then
       repo <- json response ;;
       html_url <- getitem repo "html_url" ;;
       clone_url <- getitem repo "clone_url" ;;
       ssh_url <- getitem repo "ssh_url" ;;
       id <- getitem repo "id" ;;
       full_name <- getitem repo "full_name" ;;
       ret [("success", VBool true); ("repo_url", html_url); ("clone_url", clone_url);
            ("ssh_url", ssh_url); ("repo_id", id); ("full_name", full_name)]
     else
       ret (failure ("GitHub API error: " ++ str_of_Z (status_code response)
                     ++ " - " ++ text response)))
    (fun e => ret (failure ("Repository creation failed: " ++ exn_str e))).

(** [for repo in repos: if repo["name"] == repo_name: target_repo = repo; break] *)
Fixpoint find_repo (repo_name : string) (repos : list pyval) : M pyval :=
  match repos with
  | [] => ret VNone
  | repo :: rest =>
      name <- getitem repo "name" ;;
      if eq_str name repo_name then ret repo else find_repo repo_name rest
  end.

(** [for key, value in env_vars.items(): requests.put(f"{secrets_url}/{key}", ...)] *)
Fixpoint put_secrets (secrets_url : string) (env_vars : pydict) : M unit :=
  match env_vars with
  | [] => ret tt
  | (key, _) :: rest =>
      request w PUT (secrets_url ++ "/" ++ key) None ;;;
      put_secrets secrets_url rest
  end.

Definition setup_environment_variables (repo_name : string) (env_vars : pydict) : M bool :=
  try_except
    (repo_response <- request w GET (base_url ++ "/user/repos") None ;;
     if negb (status_code repo_response =? 200) then ret false
     else
       repos <- json repo_response ;;
       items <- iterate repos ;;
       target_repo <- find_repo repo_name items ;;
       if negb (truthy target_repo) then ret false
       else
         full_name <- getitem target_repo "full_name" ;;
         let secrets_url :=
           base_url ++ "/repos/" ++ py_str full_name ++ "/actions/secrets" in
         put_secrets secrets_url env_vars ;;;
         ret true)
    (fun e =>
       print ("Environment variable setup failed: " ++ exn_str e) ;;;
       ret false).

Definition get_repository_info (repo_name : string) : M pydict :=
  try_except
    (response <- request w GET (base_url ++ "/repos/" ++ repo_name) None ;;
     if status_code response =? 200 then
       repo <- json response ;;
       ret [("success", VBool true); ("repo", repo)]
     else
       ret (failure ("Repository not found: " ++ str_of_Z (status_code response))))
    (fun e => ret (failure (exn_str e))).

(** [events] is part of the body of the request only. *)
Definition create_webhook (repo_name : string) (webhook_url : pyval)
           (events : option (list string)) : M pydict :=
  let events := match events with
                | None => ["push"; "pull_request"]
                | Some given => given
                end in
  try_except
    (response <- request w POST (base_url ++ "/repos/" ++ repo_name ++ "/hooks") None ;;
     if status_code response =? 201 then
       webhook <- json response ;;
       webhook_id <- getitem webhook "id" ;;
       config <- getitem webhook "config" ;;
       url <- getitem config "url" ;;
       ret [("success", VBool true); ("webhook_id", webhook_id); ("webhook_url", url)]
     else
       ret (failure ("Webhook creation failed: " ++ str_of_Z (status_code response)
                     ++ " - " ++ text response)))
    (fun e => ret (failure ("Webhook creation failed: " ++ exn_str e))).
End Methods.
End GitHubAutomation.

(** ** [deployment_automation.py] *)

(** [for key, value in env_vars.items(): requests.post(url, ...)] *)
Fixpoint post_each (w : World) (url : string) (env_vars : pydict) : M unit :=
  match env_vars with
  | [] => ret tt
  | _ :: rest => request w POST url None ;;; post_each w url rest
  end.

Module RenderDeployment.
Section Methods.
Variable w : World.

Definition base_url : string := "https://api.render.com/v1".

Definition create_service (repo_url : pyval) (env_vars : pydict) : M pydict :=
  try_except
    (user_response <- request w GET (base_url ++ "/users/me") None ;;
     if negb (status_code user_response =? 200) then
       ret (failure ("Failed to get user info: " ++ str_of_Z (status_code user_response)))
     else
       user_data <- json user_response ;;
       owner_id <- getitem user_data "id" ;;
       response <- request w POST (base_url ++ "/services") None ;;
       if status_code response =? 201 then
         service <- json response ;;
         svc <- getitem service "service" ;;
         service_id <- getitem svc "id" ;;
         svc' <- getitem service "service" ;;
         details <- getitem svc' "serviceDetails" ;;
         url <- getitem details "url" ;;
         ret [("success", VBool true); ("service_id", service_id); ("url", url);
              ("status", VStr "deploying")]
       else
         ret (failure ("Render API error: " ++ str_of_Z (status_code response)
                       ++ " - " ++ text response)))
    (fun e => ret (failure ("Render deployment failed: " ++ exn_str e))).
End Methods.
End RenderDeployment.

Module RailwayDeployment.
Section Methods.
Variable w : World.

Definition base_url : string := "https://backboard.railway.app/graphql".

Definition deploy_project (repo_url : pyval) (env_vars : pydict) : M pydict :=
  try_except
    (now <- int_time w ;;
     let project_name := "ai-content-optimizer-" ++ str_of_Z now in
     response <- request w POST base_url None ;;
     if status_code response =? 200 then
       data <- json response ;;
       (* "errors" not in data and "data" in data and data["data"]["projectCreate"] *)
       has_errors <- contains "errors" data ;;
       created <- (if negb has_errors then
                     has_data <- contains "data" data ;;
                     if has_data then
                       d <- getitem data "data" ;;
                       pc <- getitem d "projectCreate" ;;
                       ret (truthy pc)
                     else ret false
                   else ret false) ;;
       if created then
         d <- getitem data "data" ;;
         pc <- getitem d "projectCreate" ;;
         project_id <- getitem pc "id" ;;
         service_response <- request w POST base_url None ;;
         if status_code service_response =? 200 then
           service_data <- json service_response ;;
           has_errors' <- contains "errors" service_data ;;
           ok <- (if negb has_errors' then contains "data" service_data else ret false) ;;
           if ok then
             sd <- getitem service_data "data" ;;
             sc <- getitem sd "serviceCreate" ;;
             service_id <- getitem sc "id" ;;
             post_each w base_url env_vars ;;;
             ret [("success", VBool true); ("project_id", project_id);
                  ("service_id", service_id);
                  ("url", VStr ("https://" ++ project_name ++ ".up.railway.app"));
                  ("status", VStr "deploying")]
           else
             errs <- get_method service_data "errors" (VStr "Unknown error") ;;
             ret (failure ("Railway service creation failed: " ++ py_str errs))
         else
           ret (failure ("Railway service API error: "
                         ++ str_of_Z (status_code service_response)))
       else
         errs <- get_method data "errors"
                   (VList [VDict [("message", VStr "Unknown GraphQL error")]]) ;;
         first <- getitem0 errs ;;
         error_msg <- getitem first "message" ;;
         ret (failure ("Railway project creation failed: " ++ py_str error_msg))
     else
       ret (failure ("Railway API error: " ++ str_of_Z (status_code response)
                     ++ " - " ++ text response)))
    (fun e => ret (failure ("Railway deployment failed: " ++ exn_str e))).
End Methods.
End RailwayDeployment.

Module VercelDeployment.
Section Methods.
Variable w : World.

Definition base_url : string := "https://api.vercel.com/v2".

(** [v.replace(...)]: only a [str] has the method. *)
Definition as_str_for_replace (v : pyval) : M string :=
  match v with
  | VStr s => ret s
  | _ => raise (AttributeError ("'" ++ type_name v ++ "' object has no attribute 'replace'"))
  end.

Definition create_deployment (repo_url : pyval) (env_vars : pydict) : M pydict :=
  try_except
    (url <- as_str_for_replace repo_url ;;
     let repo_parts := split "/"%char (replace "https://github.com/" "" url) in
     repo_name <- match repo_parts with
                  | _ :: name :: _ => ret (replace ".git" "" name)
                  | _ => raise (IndexError "list index out of range")
                  end ;;
     response <- request w POST (base_url ++ "/deployments") None ;;
     if (status_code response =? 200) || (status_code response =? 201) then
       deployment <- json response ;;
       deployment_id <- getitem deployment "id" ;;
       deployment_url <- getitem deployment "url" ;;
       ret [("success", VBool true); ("deployment_id", deployment_id);
            ("url", VStr ("https://" ++ py_str deployment_url));
            ("status", VStr "deploying")]
     else
       ret (failure ("Vercel API error: " ++ str_of_Z (status_code response)
                     ++ " - " ++ text response)))
    (fun e => ret (failure ("Vercel deployment failed: " ++ exn_str e))).
End Methods.
End VercelDeployment.

(** ** [domain_management.py] *)

Module DomainManager.

(** The attributes that [__init__] reads from the credentials. *)
Record t := {
  godaddy_api_key : option string;
  godaddy_secret : option string
}.

Definition init (credentials : creds) : t :=
  {| godaddy_api_key := cred_get credentials "GODADDY_API_KEY";
     godaddy_secret := cred_get credentials "GODADDY_SECRET" |}.

Section Methods.
Variable w : World.
Variable self : t.

(** [self.godaddy_base_url] is set only when both credentials are. *)
Definition godaddy_base_url : M string :=
  if opt_truthy (godaddy_api_key self) && opt_truthy (godaddy_secret self)
  then ret "https://api.godaddy.com/v1"
  else raise (AttributeError "'DomainManager' object has no attribute 'godaddy_base_url'").

Definition check_domain_availability (domain : string) : M pydict :=
  try_except
    (base <- godaddy_base_url ;;
     response <- request w GET (base ++ "/domains/available?domain=" ++ domain) None ;;
     if status_code response =? 200 then
       data <- json response ;;
       available <- get_method data "available" (VBool false) ;;
       price <- get_method data "price" (VInt 0) ;;
       currency <- get_method data "currency" (VStr "USD") ;;
       ret [("success", VBool true); ("available", available); ("price", price);
            ("currency", currency)]
     else
       ret (failure ("Domain availability check failed: "
                     ++ str_of_Z (status_code response))))
    (fun e => ret (failure ("Availability check failed: " ++ exn_str e))).

Definition register_domain (domain : string) : M pydict :=
  try_except
    (base <- godaddy_base_url ;;
     response <- request w POST (base ++ "/domains/purchase") None ;;
     if (status_code response =? 200) || (status_code response =? 201) then
       ret [("success", VBool true); ("message", VStr "Domain registered successfully")]
     else
       ret (failure ("Domain registration failed: " ++ str_of_Z (status_code response)
                     ++ " - " ++ text response)))
    (fun e => ret (failure ("Domain registration failed: " ++ exn_str e))).

Definition configure_dns (domain : string) (target_url : pyval) : M pydict :=
  try_except
    (* target_host = target_url.replace(...).replace(...).split("/")[0] *)
    (VercelDeployment.as_str_for_replace target_url ;;;
     base <- godaddy_base_url ;;
     response <- request w PUT (base ++ "/domains/" ++ domain ++ "/records") None ;;
     if status_code response =? 200 then
       ret [("success", VBool true); ("message", VStr "DNS configured successfully")]
     else
       ret (failure ("DNS configuration failed: " ++ str_of_Z (status_code response)
                     ++ " - " ++ text response)))
    (fun e => ret (failure ("DNS configuration failed: " ++ exn_str e))).

Definition setup_domain (domain : string) (target_url : pyval) : M pydict :=
  try_except
    (if negb (opt_truthy (godaddy_api_key self)) then
       ret (failure "GoDaddy credentials not available")
     else
       availability <- check_domain_availability domain ;;
       ok <- field availability "success" ;;
       if negb (truthy ok) then ret availability
       else
         available <- field availability "available" ;;
         if truthy available then
           registration <- register_domain domain ;;
           ok' <- field registration "success" ;;
           if negb (truthy ok') then ret registration
           else configure_dns domain target_url
         else configure_dns domain target_url)
    (fun e => ret (failure ("Domain setup failed: " ++ exn_str e))).

Definition get_domain_info (domain : string) : M pydict :=
  try_except
    (base <- godaddy_base_url ;;
     response <- request w GET (base ++ "/domains/" ++ domain) None ;;
     if status_code response =? 200 then
       info <- json response ;;
       ret [("success", VBool true); ("domain_info", info)]
     else
       ret (failure ("Domain info retrieval failed: " ++ str_of_Z (status_code response))))
    (fun e => ret (failure ("Domain info failed: " ++ exn_str e))).

(** The request carries [params={"limit": 5}], which [requests] puts
    into the URL. *)
Definition test_connection : M pydict :=
  try_except
    (if negb (opt_truthy (godaddy_api_key self)) || negb (opt_truthy (godaddy_secret self))
     then ret (failure "GoDaddy credentials not available")
     else
       base <- godaddy_base_url ;;
       response <- request w GET (base ++ "/domains/tlds?limit=5") None ;;
       if status_code response =? 200 then
         ret [("success", VBool true); ("service", VStr "godaddy");
              ("message", VStr "GoDaddy API connection successful")]
       else
         ret (failure ("GoDaddy API connection failed: "
                       ++ str_of_Z (status_code response))))
    (fun e => ret (failure ("Connection test failed: " ++ exn_str e))).
End Methods.
End DomainManager.

(** ** [email_integration.py] *)

Module EmailService.

Record t := {
  sendgrid_api_key : option string;
  mailgun_api_key : option string;
  mailgun_domain : option string;
  mailchimp_api_key : option string;
  mailchimp_server : option string
}.

Definition init (credentials : creds) : t :=
  {| sendgrid_api_key := cred_get credentials "SENDGRID_API_KEY";
     mailgun_api_key := cred_get credentials "MAILGUN_API_KEY";
     mailgun_domain := cred_get_default credentials "MAILGUN_DOMAIN" "sandbox.mailgun.org";
     mailchimp_api_key := cred_get credentials "MAILCHIMP_API_KEY";
     mailchimp_server := cred_get_default credentials "MAILCHIMP_SERVER" "us19" |}.

Section Methods.
Variable w : World.
Variable self : t.

Definition missing_attribute {A} (name : string) : M A :=
  raise (AttributeError ("'EmailService' object has no attribute '" ++ name ++ "'")).

Definition sendgrid_base_url : M string :=
  if opt_truthy (sendgrid_api_key self) then ret "https://api.sendgrid.com/v3"
  else missing_attribute "sendgrid_base_url".

Definition mailgun_base_url : M string :=
  if opt_truthy (mailgun_api_key self)
  then ret ("https://api.mailgun.net/v3/" ++ py_str (of_opt (mailgun_domain self)))
  else missing_attribute "mailgun_base_url".

Definition mailchimp_base_url : M string :=
  if opt_truthy (mailchimp_api_key self)
  then ret ("https://" ++ py_str (of_opt (mailchimp_server self)) ++ ".api.mailchimp.com/3.0")
  else missing_attribute "mailchimp_base_url".

Definition _setup_sendgrid_notifications (app_url : pyval) (repo_name : string) : M pydict :=
  try_except
    (base <- sendgrid_base_url ;;
     response <- request w POST (base ++ "/templates") None ;;
     if status_code response =? 201 then
       template <- json response ;;
       template_id <- getitem template "id" ;;
       ret [("success", VBool true); ("service", VStr "sendgrid");
            ("template_id", template_id);
            ("message", VStr "SendGrid notifications configured")]
     else
       ret (failure ("SendGrid template creation failed: "
                     ++ str_of_Z (status_code response) ++ " - " ++ text response)))
    (fun e => ret (failure ("SendGrid setup failed: " ++ exn_str e))).

Definition _setup_mailgun_notifications (app_url : pyval) (repo_name : string) : M pydict :=
  try_except
    (base <- mailgun_base_url ;;
     response <- request w GET (base ++ "/stats/total") None ;;
     if status_code response =? 200 then
       ret [("success", VBool true); ("service", VStr "mailgun");
            ("domain", of_opt (mailgun_domain self));
            ("message", VStr "Mailgun notifications configured")]
     else
       ret (failure ("Mailgun connection failed: " ++ str_of_Z (status_code response))))
    (fun e => ret (failure ("Mailgun setup failed: " ++ exn_str e))).

Definition _setup_mailchimp_notifications (app_url : pyval) (repo_name : string) : M pydict :=
  try_except
    (base <- mailchimp_base_url ;;
     response <- request w POST (base ++ "/campaigns") None ;;
     if (status_code response =? 200) || (status_code response =? 201) then
       ret [("success", VBool true); ("service", VStr "mailchimp");
            ("server", of_opt (mailchimp_server self));
            ("message", VStr "Mailchimp notifications configured")]
     else
       ret (failure ("Mailchimp setup failed: " ++ str_of_Z (status_code response)
                     ++ " - " ++ text response)))
    (fun e => ret (failure ("Mailchimp setup failed: " ++ exn_str e))).

Definition setup_notifications (app_url : pyval) (repo_name : string) : M pydict :=
  try_except
    (if opt_truthy (mailchimp_api_key self) then
       _setup_mailchimp_notifications app_url repo_name
     else if opt_truthy (sendgrid_api_key self) then
       _setup_sendgrid_notifications app_url repo_name
     else if opt_truthy (mailgun_api_key self) then
       _setup_mailgun_notifications app_url repo_name
     else
       ret (failure "No email service credentials available"))
    (fun e => ret (failure ("Email setup failed: " ++ exn_str e))).

Definition _send_sendgrid_email (recipient_email app_url : pyval) (repo_name : string)
  : M pydict :=
  try_except
    (base <- sendgrid_base_url ;;
     response <- request w POST (base ++ "/mail/send") None ;;
     if status_code response =? 202 then
       ret [("success", VBool true);
            ("message", VStr "Deployment notification sent via SendGrid")]
     else
       ret (failure ("SendGrid email failed: " ++ str_of_Z (status_code response))))
    (fun e => ret (failure ("SendGrid email failed: " ++ exn_str e))).

Definition _send_mailgun_email (recipient_email app_url : pyval) (repo_name : string)
  : M pydict :=
  try_except
    (base <- mailgun_base_url ;;
     response <- request w POST (base ++ "/messages") None ;;
     if status_code response =? 200 then
       ret [("success", VBool true);
            ("message", VStr "Deployment notification sent via Mailgun")]
     else
       ret (failure ("Mailgun email failed: " ++ str_of_Z (status_code response))))
    (fun e => ret (failure ("Mailgun email failed: " ++ exn_str e))).

Definition _send_mailchimp_email (recipient_email app_url : pyval) (repo_name : string)
  : M pydict :=
  try_except
    (base <- mailchimp_base_url ;;
     response <- request w GET (base ++ "/ping") None ;;
     if status_code response =? 200 then
       ret [("success", VBool true);
            ("message", VStr "Deployment notification would be sent via Mailchimp")]
     else
       ret (failure ("Mailchimp email failed: " ++ str_of_Z (status_code response))))
    (fun e => ret (failure ("Mailchimp email failed: " ++ exn_str e))).

Definition send_deployment_notification (recipient_email app_url : pyval)
           (repo_name : string) : M pydict :=
  try_except
    (if opt_truthy (mailchimp_api_key self) then
       _send_mailchimp_email recipient_email app_url repo_name
     else if opt_truthy (sendgrid_api_key self) then
       _send_sendgrid_email recipient_email app_url repo_name
     else if opt_truthy (mailgun_api_key self) then
       _send_mailgun_email recipient_email app_url repo_name
     else
       ret (failure "No email service available"))
    (fun e => ret (failure ("Email sending failed: " ++ exn_str e))).

Definition test_connection : M pydict :=
  try_except
    (if opt_truthy (mailchimp_api_key self) then
       base <- mailchimp_base_url ;;
       response <- request w GET (base ++ "/ping") None ;;
       if status_code response =? 200 then
         ret [("success", VBool true); ("service", VStr "mailchimp");
              ("server", of_opt (mailchimp_server self))]
       else
         ret (failure ("Mailchimp connection failed: " ++ str_of_Z (status_code response)))
     else if opt_truthy (sendgrid_api_key self) then
       base <- sendgrid_base_url ;;
       response <- request w GET (base ++ "/user/profile") None ;;
       if status_code response =? 200 then
         profile <- json response ;;
         email <- get_method profile "email" (VStr "Unknown") ;;
         ret [("success", VBool true); ("service", VStr "sendgrid"); ("email", email)]
       else
         ret (failure ("SendGrid connection failed: " ++ str_of_Z (status_code response)))
     else if opt_truthy (mailgun_api_key self) then
       base <- mailgun_base_url ;;
       response <- request w GET (base ++ "/stats/total") None ;;
       if status_code response =? 200 then
         ret [("success", VBool true); ("service", VStr "mailgun");
              ("domain", of_opt (mailgun_domain self))]
       else
         ret (failure ("Mailgun connection failed: " ++ str_of_Z (status_code response)))
     else
       ret (failure "No email service credentials available"))
    (fun e => ret (failure ("Connection test failed: " ++ exn_str e))).
End Methods.
End EmailService.

(** ** [monitoring_integration.py] *)

Module MonitoringSetup.

Record t := {
  sentry_dsn : option string;
  datadog_api_key : option string;
  datadog_app_key : option string
}.

Definition init (credentials : creds) : t :=
  {| sentry_dsn := cred_get credentials "SENTRY_DSN";
     datadog_api_key := cred_get credentials "DATADOG_API_KEY";
     datadog_app_key := cred_get credentials "DATADOG_APP_KEY" |}.

Section Methods.
Variable w : World.
Variable self : t.

Definition datadog_base_url : M string :=
  if opt_truthy (datadog_api_key self) then ret "https://api.datadoghq.com/api/v1"
  else raise (AttributeError "'MonitoringSetup' object has no attribute 'datadog_base_url'").

Definition service_failure (service msg : string) : pydict :=
  [("success", VBool false); ("service", VStr service); ("error", VStr msg)].

Definition _setup_sentry_monitoring (app_url : pyval) (repo_name : string) : M pydict :=
  try_except
    (ret [("success", VBool true); ("service", VStr "sentry");
          ("dsn", of_opt (sentry_dsn self));
          ("message", VStr "Sentry error tracking configured")])
    (fun e => ret (service_failure "sentry" (exn_str e))).

Definition _setup_datadog_monitoring (app_url : pyval) (repo_name : string) : M pydict :=
  try_except
    (base <- datadog_base_url ;;
     response <- request w POST (base ++ "/dashboard") None ;;
     if (status_code response =? 200) || (status_code response =? 201) then
       dashboard <- json response ;;
       dashboard_id <- get_method dashboard "id" VNone ;;
       dashboard_url <- get_method dashboard "url" VNone ;;
       ret [("success", VBool true); ("service", VStr "datadog");
            ("dashboard_id", dashboard_id); ("dashboard_url", dashboard_url);
            ("message", VStr "DataDog monitoring dashboard created")]
     else
       ret (service_failure "datadog"
              ("DataDog API error: " ++ str_of_Z (status_code response))))
    (fun e => ret (service_failure "datadog" (exn_str e))).

Definition _setup_health_check_monitoring (app_url : pyval) (repo_name : string) : M pydict :=
  try_except
    (let health_url := py_str app_url ++ "/api/health" in
     response <- request w GET health_url (Some 30) ;;
     if status_code response =? 200 then
       ret [("success", VBool true); ("service", VStr "health_check");
            ("endpoint", VStr health_url); ("status", VStr "healthy");
            ("message", VStr "Health check monitoring configured")]
     else
       ret (service_failure "health_check"
              ("Health check failed: " ++ str_of_Z (status_code response))))
    (fun e => ret (service_failure "health_check" (exn_str e))).

(** The [response_time] entry, a float read off the response, is left
    out of the dictionary; nothing reads it. *)
Definition _setup_uptime_monitoring (app_url : pyval) (repo_name : string) : M pydict :=
  try_except
    (response <- request w GET (py_str app_url) (Some 30) ;;
     if status_code response =? 200 then
       ret [("success", VBool true); ("service", VStr "uptime_monitoring");
            ("url", app_url); ("status", VStr "online");
            ("message", VStr "Uptime monitoring configured")]
     else
       ret (service_failure "uptime_monitoring"
              ("Uptime check failed: " ++ str_of_Z (status_code response))))
    (fun e => ret (service_failure "uptime_monitoring" (exn_str e))).

(** [[r for r in results if r.get('success', False)]] *)
Definition successful (results : list pydict) : list pydict :=
  List.filter (fun r => truthy (dict_get_default "success" (VBool false) r)) results.

Definition len {A} (l : list A) : Z := Z.of_nat (List.length l).

Definition setup_monitoring (app_url : pyval) (repo_name : string) : M pydict :=
  try_except
    (let monitoring_results : list pydict := [] in
     monitoring_results <-
       (if opt_truthy (sentry_dsn self) then
          sentry_result <- _setup_sentry_monitoring app_url repo_name ;;
          ret (monitoring_results ++ [sentry_result])%list
        else ret monitoring_results) ;;
     monitoring_results <-
       (if opt_truthy (datadog_api_key self) then
          datadog_result <- _setup_datadog_monitoring app_url repo_name ;;
          ret (monitoring_results ++ [datadog_result])%list
        else ret monitoring_results) ;;
     health_check_result <- _setup_health_check_monitoring app_url repo_name ;;
     let monitoring_results := (monitoring_results ++ [health_check_result])%list in
     uptime_result <- _setup_uptime_monitoring app_url repo_name ;;
     let monitoring_results := (monitoring_results ++ [uptime_result])%list in
     let successful_setups := successful monitoring_results in
     ret [("success", VBool (0 <? len successful_setups));
          ("monitoring_services", VList (List.map VDict successful_setups));
          ("total_services", VInt (len monitoring_results));
          ("message", VStr ("Monitoring setup complete: "
                            ++ str_of_Z (len successful_setups) ++ "/"
                            ++ str_of_Z (len monitoring_results)
                            ++ " services configured"))])
    (fun e => ret (failure ("Monitoring setup failed: " ++ exn_str e))).

Definition test_monitoring_connection : M pydict :=
  try_except
    (let results : pydict := [] in
     let results :=
       if opt_truthy (sentry_dsn self)
       then dict_set "sentry"
              (VDict [("available", VBool true); ("dsn_configured", VBool true)]) results
       else dict_set "sentry"
              (VDict [("available", VBool false); ("dsn_configured", VBool false)]) results in
     results <-
       (if opt_truthy (datadog_api_key self) then
          (* try: ... except: ... *)
          try_except
            (base <- datadog_base_url ;;
             response <- request w GET (base ++ "/validate") (Some 10) ;;
             ret (dict_set "datadog"
                    (VDict [("available", VBool (status_code response =? 200));
                            ("api_key_valid", VBool (status_code response =? 200))])
                    results))
            (fun _ =>
               ret (dict_set "datadog"
                      (VDict [("available", VBool false); ("api_key_valid", VBool false)])
                      results))
        else
          ret (dict_set "datadog"
                 (VDict [("available", VBool false); ("api_key_valid", VBool false)])
                 results)) ;;
     ret [("success", VBool true); ("services", VDict results)])
    (fun e => ret (failure (exn_str e))).
End Methods.
End MonitoringSetup.

(** ** [cicd_automation.py] *)

Module CICDPipeline.

Record t := { github_token : option string }.

Definition init (credentials : creds) : t :=
  {| github_token := cred_get credentials "GITHUB_TOKEN" |}.

Section Methods.
Variable w : World.
Variable self : t.

Definition github_base_url : M string :=
  if opt_truthy (github_token self) then ret "https://api.github.com"
  else raise (AttributeError "'CICDPipeline' object has no attribute 'github_base_url'").

(** [_generate_workflow_yaml] builds the request body from constants for
    each of its three branches and cannot raise. *)
Definition _create_github_actions_workflow (repo_name platform : string) : M pydict :=
  try_except
    (base <- github_base_url ;;
     response <- request w PUT
                   (base ++ "/repos/" ++ repo_name ++ "/.github/workflows/deploy.yml") None ;;
     if (status_code response =? 200) || (status_code response =? 201) then
       ret [("success", VBool true);
            ("workflow_file", VStr ".github/workflows/deploy.yml");
            ("message", VStr "GitHub Actions workflow created")]
     else
       ret (failure ("Workflow creation failed: " ++ str_of_Z (status_code response)
                     ++ " - " ++ text response)))
    (fun e => ret (failure ("Workflow creation failed: " ++ exn_str e))).

Definition _setup_branch_protection (repo_name : string) : M pydict :=
  try_except
    (base <- github_base_url ;;
     response <- request w PUT
                   (base ++ "/repos/" ++ repo_name ++ "/branches/main/protection") None ;;
     if status_code response =? 200 then
       ret [("success", VBool true); ("message", VStr "Branch protection configured")]
     else
       ret (failure ("Branch protection failed: " ++ str_of_Z (status_code response))))
    (fun e => ret (failure ("Branch protection failed: " ++ exn_str e))).

(** [for env in environments: ... if response.status_code in [200, 201]:
    created_envs.append(env)] *)
Fixpoint create_environments (repo_name : string) (environments created : list string)
  : M (list string) :=
  match environments with
  | [] => ret created
  | env :: rest =>
      base <- github_base_url ;;
      response <- request w PUT
                    (base ++ "/repos/" ++ repo_name ++ "/environments/" ++ env) None ;;
      create_environments repo_name rest
        (if (status_code response =? 200) || (status_code response =? 201)
         then (created ++ [env])%list else created)
  end.

Definition _create_deployment_environments (repo_name platform : string) : M pydict :=
  try_except
    (created_envs <- create_environments repo_name ["staging"; "production"] [] ;;
     ret [("success", VBool (0 <? MonitoringSetup.len created_envs));
          ("environments", VList (List.map VStr created_envs));
          ("message", VStr ("Created " ++ str_of_Z (MonitoringSetup.len created_envs)
                            ++ " deployment environments"))])
    (fun e => ret (failure ("Environment creation failed: " ++ exn_str e))).

Definition setup_pipeline (repo_name platform : string) : M pydict :=
  try_except
    (if negb (opt_truthy (github_token self)) then
       ret (failure "GitHub token not available")
     else
       workflow_result <- _create_github_actions_workflow repo_name platform ;;
       created <- field workflow_result "success" ;;
       if truthy created then
         protection_result <- _setup_branch_protection repo_name ;;
         env_result <- _create_deployment_environments repo_name platform ;;
         workflow_created <- field workflow_result "success" ;;
         branch_protection <- field protection_result "success" ;;
         environments <- field env_result "success" ;;
         ret [("success", VBool true); ("workflow_created", workflow_created);
              ("branch_protection", branch_protection);
              ("environments", environments);
              ("message", VStr "CI/CD pipeline configured successfully")]
       else ret workflow_result)
    (fun e => ret (failure ("CI/CD setup failed: " ++ exn_str e))).

(** [for secret_name, secret_value in secrets.items(): ... if
    response.status_code in [201, 204]: created_secrets.append(secret_name)] *)
Fixpoint put_deployment_secrets (repo_name : string) (public_key_data : pyval)
         (secrets : pydict) (created : list string) : M (list string) :=
  match secrets with
  | [] => ret created
  | (secret_name, _) :: rest =>
      getitem public_key_data "key_id" ;;;
      base <- github_base_url ;;
      response <- request w PUT
                    (base ++ "/repos/" ++ repo_name ++ "/actions/secrets/" ++ secret_name)
                    None ;;
      put_deployment_secrets repo_name public_key_data rest
        (if (status_code response =? 201) || (status_code response =? 204)
         then (created ++ [secret_name])%list else created)
  end.

Definition create_deployment_secrets (repo_name : string) (secrets : pydict) : M pydict :=
  try_except
    (base <- github_base_url ;;
     key_response <- request w GET
                       (base ++ "/repos/" ++ repo_name ++ "/actions/secrets/public-key")
                       None ;;
     if negb (status_code key_response =? 200) then
       ret (failure "Failed to get repository public key")
     else
       public_key_data <- json key_response ;;
       created_secrets <- put_deployment_secrets repo_name public_key_data secrets [] ;;
       ret [("success", VBool (0 <? MonitoringSetup.len created_secrets));
            ("secrets_created", VList (List.map VStr created_secrets));
            ("message", VStr ("Created " ++ str_of_Z (MonitoringSetup.len created_secrets)
                              ++ " deployment secrets"))])
    (fun e => ret (failure ("Secret creation failed: " ++ exn_str e))).
End Methods.
End CICDPipeline.

(** ** [business_operations.py]

    The five set-up steps make no request: they build documents and
    configuration from constants and from their two arguments.  The
    generated payloads are left out of the dictionaries; the entries that
    callers read ([success], [operation], [message], [error]) are kept. *)

Module BusinessOperations.

Record t := { stripe_secret_key : option string }.

Definition init (credentials : creds) : t :=
  {| stripe_secret_key := cred_get credentials "STRIPE_SECRET_KEY" |}.

Section Methods.
Variable self : t.

Definition configured (operation message : string) : pydict :=
  [("success", VBool true); ("operation", VStr operation); ("message", VStr message)].

Definition operation_failure (operation msg : string) : pydict :=
  [("success", VBool false); ("operation", VStr operation); ("error", VStr msg)].

Definition _setup_legal_compliance (app_url : pyval) (repo_name : string) : M pydict :=
  try_except
    (ret (configured "legal_compliance" "Legal compliance documents generated"))
    (fun e => ret (operation_failure "legal_compliance" (exn_str e))).

Definition _setup_customer_support (app_url : pyval) (repo_name : string) : M pydict :=
  try_except
    (ret (configured "customer_support" "Customer support system configured"))
    (fun e => ret (operation_failure "customer_support" (exn_str e))).

Definition _setup_analytics_tracking (app_url : pyval) (repo_name : string) : M pydict :=
  try_except
    (ret (configured "analytics_tracking" "Analytics tracking configured"))
    (fun e => ret (operation_failure "analytics_tracking" (exn_str e))).

Definition _setup_billing_management (app_url : pyval) (repo_name : string) : M pydict :=
  try_except
    (if negb (opt_truthy (stripe_secret_key self)) then
       ret (operation_failure "billing_management" "Stripe credentials not available")
     else
       ret (configured "billing_management" "Billing management system configured"))
    (fun e => ret (operation_failure "billing_management" (exn_str e))).

Definition _setup_automated_marketing (app_url : pyval) (repo_name : string) : M pydict :=
  try_except
    (ret (configured "automated_marketing" "Automated marketing system configured"))
    (fun e => ret (operation_failure "automated_marketing" (exn_str e))).

Definition setup_operations (app_url : pyval) (repo_name : string) : M pydict :=
  try_except
    (legal_result <- _setup_legal_compliance app_url repo_name ;;
     support_result <- _setup_customer_support app_url repo_name ;;
     analytics_result <- _setup_analytics_tracking app_url repo_name ;;
     billing_result <- _setup_billing_management app_url repo_name ;;
     marketing_result <- _setup_automated_marketing app_url repo_name ;;
     let operations_results :=
       [legal_result; support_result; analytics_result; billing_result; marketing_result] in
     let successful_setups := MonitoringSetup.successful operations_results in
     ret [("success", VBool (0 <? MonitoringSetup.len successful_setups));
          ("operations_configured", VList (List.map VDict successful_setups));
          ("total_operations", VInt (MonitoringSetup.len operations_results));
          ("message", VStr ("Business operations setup: "
                            ++ str_of_Z (MonitoringSetup.len successful_setups) ++ "/"
                            ++ str_of_Z (MonitoringSetup.len operations_results)
                            ++ " configured"))])
    (fun e => ret (failure ("Business operations setup failed: " ++ exn_str e))).
End Methods.
End BusinessOperations.

(** ** [autonomous_deployer.py] *)

Module AutonomousDeployer.

(** The class of the object registered for a platform. *)
Inductive adapter := RenderAdapter | RailwayAdapter | VercelAdapter.

Definition class_name (a : adapter) : string :=
  match a with
  | RenderAdapter => "RenderDeployment"
  | RailwayAdapter => "RailwayDeployment"
  | VercelAdapter => "VercelDeployment"
  end.

Record t := {
  credentials : creds;
  platforms : list (string * adapter);      (* a dict, in insertion order *)
  domain_manager : DomainManager.t;
  email_service : EmailService.t;
  monitoring : MonitoringSetup.t;
  cicd : CICDPipeline.t;
  business_ops : BusinessOperations.t
}.

(** [__init__(credentials)]; [resolved] is what
    [CredentialManager().get_all_credentials()] yields, used when no
    credentials, or an empty dictionary, are given. *)
Definition init (given : option creds) (resolved : creds) : t :=
  let credentials :=
    match given with
    | Some c => if bool_decide (c = ∅) then resolved else c
    | None => resolved
    end in
  let platforms : list (string * adapter) := [] in
  let platforms :=
    if opt_truthy (cred_get credentials "RENDER_API_KEY")
    then (platforms ++ [("render", RenderAdapter)])%list else platforms in
  let platforms :=
    if opt_truthy (cred_get credentials "RAILWAY_TOKEN")
    then (platforms ++ [("railway", RailwayAdapter)])%list else platforms in
  let platforms :=
    if opt_truthy (cred_get credentials "VERCEL_TOKEN")
    then (platforms ++ [("vercel", VercelAdapter)])%list else platforms in
  {| credentials := credentials;
     platforms := platforms;
     domain_manager := DomainManager.init credentials;
     email_service := EmailService.init credentials;
     monitoring := MonitoringSetup.init credentials;
     cicd := CICDPipeline.init credentials;
     business_ops := BusinessOperations.init credentials |}.

(** What [deploy_mvp] returns: one of its two dictionary shapes. *)
Inductive DeployResult :=
| Failed (error : string) (log : list string)
| Deployed (app_url repo_url : pyval) (platform : string) (deployment_id : pyval)
           (verification : pydict) (log : list string) (timestamp : Z).

Definition success (r : DeployResult) : bool :=
  match r with
  | Failed _ _ => false
  | Deployed _ _ _ _ _ _ _ => true
  end.

Definition result_log (r : DeployResult) : list string :=
  match r with
  | Failed _ l => l
  | Deployed _ _ _ _ _ l _ => l
  end.

Definition result_error (r : DeployResult) : option string :=
  match r with
  | Failed e _ => Some e
  | Deployed _ _ _ _ _ _ _ => None
  end.

Definition result_app_url (r : DeployResult) : option pyval :=
  match r with
  | Failed _ _ => None
  | Deployed u _ _ _ _ _ _ => Some u
  end.

Definition result_verification (r : DeployResult) : option pydict :=
  match r with
  | Failed _ _ => None
  | Deployed _ _ _ _ v _ _ => Some v
  end.

Fixpoint lookup_platform (platform : string) (ps : list (string * adapter)) : option adapter :=
  match ps with
  | [] => None
  | (k, a) :: rest => if String.eqb platform k then Some a else lookup_platform platform rest
  end.

(** [list(self.platforms.keys())] *)
Definition platform_keys (ps : list (string * adapter)) : pyval :=
  VList (List.map (fun ka => VStr (fst ka)) ps).

(** [AutonomousDeployer(credentials)] in a process whose environment is
    [env]: without credentials, those of the [CredentialManager]. *)
Definition construct (env : CredentialManager.environ) (given : option creds) : t :=
  init given (CredentialManager.get_all_credentials (CredentialManager.init env)).

Definition get_deployment_status (self : t) : pydict :=
  let c := credentials self in
  [("platforms_available", platform_keys (platforms self));
   ("github_ready", VBool (opt_truthy (cred_get c "GITHUB_TOKEN")));
   ("domain_management", VBool (opt_truthy (cred_get c "GODADDY_API_KEY")));
   ("email_services", VBool (opt_truthy (cred_get c "SENDGRID_API_KEY")));
   ("monitoring_ready", VBool (opt_truthy (cred_get c "SENTRY_DSN")));
   (* len([k for k, v in self.credentials.items() if v]) *)
   ("credentials_loaded",
    VInt (MonitoringSetup.len
            (List.filter (fun kv => opt_truthy (snd kv)) (map_to_list c))));
   ("total_credentials", VInt (MonitoringSetup.len (map_to_list c)))].

Section Methods.
Variable w : World.
Variable self : t.

Definition _prepare_environment_variables : pydict :=
  let c := credentials self in
  [("OPENAI_API_KEY", of_opt (cred_get_default c "OPENAI_API_KEY" ""));
   ("STRIPE_SECRET_KEY", of_opt (cred_get_default c "STRIPE_SECRET_KEY" ""));
   ("SECRET_KEY", VStr "ai-content-optimizer-secret-key-2025");
   ("FLASK_ENV", VStr "production");
   ("PRICE_ID", of_opt (cred_get_default c "PRICE_ID" "price_1RcdcyEfbTvI2h4o4PVLTykg"));
   ("TELEGRAM_BOT_TOKEN", of_opt (cred_get_default c "TELEGRAM_BOT_TOKEN" ""));
   ("TELEGRAM_USER_ID", of_opt (cred_get_default c "TELEGRAM_USER_ID" ""))].

(** [shutil.copytree(src, dst, dirs_exist_ok=True)] leaves [dst] a directory. *)
Definition copytree (src dst : string) : M unit :=
  fs_action w (EvCopytree src dst) ;;;
  fun s => (Val tt, {| trace := trace s; cwd := cwd s;
                       dirs := {[ dst ]} ∪ dirs s; log := log s |}).

(** The loop over [source_items]. *)
Fixpoint copy_items (temp_dir : string) (source_items : list string) : M unit :=
  match source_items with
  | [] => ret tt
  | item :: rest =>
      let item_name := basename item in
      let dest_path := path_join temp_dir item_name in
      is_dir <- isdir item ;;
      (if is_dir then copytree item dest_path
       else fs_action w (EvCopy2 item dest_path)) ;;;
      copy_items temp_dir rest
  end.

(** The workspace of a push that starts at clock reading [now]. *)
Definition temp_dir_at (now : Z) : string := "/tmp/deploy_" ++ str_of_Z now.

Definition _push_mvp_files (mvp_path : string) (clone_url : pyval) : M pydict :=
  try_except
    (now <- int_time w ;;
     let temp_dir := temp_dir_at now in
     makedirs w temp_dir ;;;
     subprocess_run w [VStr "git"; VStr "clone"; clone_url; VStr temp_dir] ;;;
     source_items <- glob w (path_join mvp_path "*") ;;
     copy_items temp_dir source_items ;;;
     original_cwd <- getcwd ;;
     chdir temp_dir ;;;
     try_finally
       (subprocess_run w [VStr "git"; VStr "add"; VStr "."] ;;;
        subprocess_run w [VStr "git"; VStr "commit"; VStr "-m";
                          VStr "Initial MVP deployment"] ;;;
        subprocess_run w [VStr "git"; VStr "push"; VStr "origin"; VStr "main"])
       (chdir original_cwd) ;;;
     ret [("success", VBool true)])
    (fun e =>
       match e with
       | CalledProcessError _ => ret (failure ("Git operation failed: " ++ exn_str e))
       | _ => ret (failure (exn_str e))
       end).

(** The dictionary of the [except] clause of [_verify_deployment]. *)
Definition verification_error (msg : string) : pydict :=
  [("health_check", VBool false); ("main_page", VBool false);
   ("overall_status", VBool false); ("error", VStr msg)].

Definition _verify_deployment (app_url : pyval) : M pydict :=
  try_except
    (health_response <- request w GET (py_str app_url ++ "/api/health") (Some 30) ;;
     let health_ok := status_code health_response =? 200 in
     main_response <- request w GET (py_str app_url) (Some 30) ;;
     let main_ok := status_code main_response =? 200 in
     ret [("health_check", VBool health_ok); ("main_page", VBool main_ok);
          ("overall_status", VBool (health_ok && main_ok))])
    (fun e => ret (verification_error (exn_str e))).

(** A block of [deploy_mvp] either returns from the function or falls
    through to the next line with what it has established. *)
Inductive step (A : Type) :=
| Return (r : DeployResult)
| Next (a : A).
Arguments Return {A} r.
Arguments Next {A} a.

(** [return {'success': False, 'error': msg, 'log': deployment_log}] *)
Definition failed {A} (msg : string) : M (step A) :=
  fun s => (Val (Return (Failed msg (log s))), s).

(** The call through [self.platforms[platform]], chosen by the name of
    the platform. *)
Definition no_method {A} (a : adapter) (method : string) : M A :=
  raise (AttributeError ("'" ++ class_name a ++ "' object has no attribute '"
                         ++ method ++ "'")).

Definition provision (a : adapter) (platform : string) (repo_url : pyval)
           (env_vars : pydict) : M pydict :=
  if String.eqb platform "render" then
    match a with
    | RenderAdapter => RenderDeployment.create_service w repo_url env_vars
    | _ => no_method a "create_service"
    end
  else if String.eqb platform "railway" then
    match a with
    | RailwayAdapter => RailwayDeployment.deploy_project w repo_url env_vars
    | _ => no_method a "deploy_project"
    end
  else
    match a with
    | VercelAdapter => VercelDeployment.create_deployment w repo_url env_vars
    | _ => no_method a "create_deployment"
    end.

(** Lines 122-129: the optional domain step; yields the [app_url] that
    the rest of the pipeline uses. *)
Definition domain_block (custom_domain : option string) (app_url : pyval) : M pyval :=
  match custom_domain with
  | Some domain =>
      if negb (String.eqb domain "") then
        log_append ("🌐 Setting up custom domain: " ++ domain) ;;;
        domain_result <- DomainManager.setup_domain w (domain_manager self) domain app_url ;;
        ok <- field domain_result "success" ;;
        if truthy ok then
          log_append ("✅ Custom domain configured: https://" ++ domain) ;;;
          ret (VStr ("https://" ++ domain))
        else
          err <- field domain_result "error" ;;
          log_append ("⚠️ Domain setup failed: " ++ py_str err) ;;;
          ret app_url
      else ret app_url
  | None => ret app_url
  end.

(** Lines 131-136. *)
Definition monitoring_block (app_url : pyval) (repo_name : string) : M unit :=
  log_append "📊 Setting up monitoring..." ;;;
  monitoring_result <- MonitoringSetup.setup_monitoring w (monitoring self) app_url repo_name ;;
  ok <- field monitoring_result "success" ;;
  if truthy ok then log_append "✅ Monitoring configured"
  else
    err <- field monitoring_result "error" ;;
    log_append ("⚠️ Monitoring setup failed: " ++ py_str err).

(** Lines 138-143. *)
Definition cicd_block (repo_name platform : string) : M unit :=
  log_append "⚙️ Setting up CI/CD pipeline..." ;;;
  cicd_result <- CICDPipeline.setup_pipeline w (cicd self) repo_name platform ;;
  ok <- field cicd_result "success" ;;
  if truthy ok then log_append "✅ CI/CD pipeline configured"
  else
    err <- field cicd_result "error" ;;
    log_append ("⚠️ CI/CD setup failed: " ++ py_str err).

(** Lines 145-150. *)
Definition email_block (app_url : pyval) (repo_name : string) : M unit :=
  log_append "📧 Setting up email services..." ;;;
  email_result <- EmailService.setup_notifications w (email_service self) app_url repo_name ;;
  ok <- field email_result "success" ;;
  if truthy ok then log_append "✅ Email services configured"
  else
    err <- field email_result "error" ;;
    log_append ("⚠️ Email setup failed: " ++ py_str err).

(** Lines 152-157. *)
Definition business_block (app_url : pyval) (repo_name : string) : M unit :=
  log_append "📋 Setting up business operations..." ;;;
  business_result <- BusinessOperations.setup_operations (business_ops self) app_url repo_name ;;
  ok <- field business_result "success" ;;
  if truthy ok then log_append "✅ Business operations configured"
  else
    err <- field business_result "error" ;;
    log_append ("⚠️ Business operations setup failed: " ++ py_str err).

(** Lines 159-171: verification and the result of a completed run. *)
Definition verify_block (app_url repo_url : pyval) (platform : string)
           (deploy_result : pydict) : M DeployResult :=
  log_append "🔍 Running final verification..." ;;;
  verification_result <- _verify_deployment app_url ;;
  let service_id := dict_get_default "service_id" VNone deploy_result in
  let deployment_id :=
    if truthy service_id then service_id
    else dict_get_default "deployment_id" VNone deploy_result in
  now <- time_time w ;;
  fun s => (Val (Deployed app_url repo_url platform deployment_id
                          verification_result (log s) now), s).

(** Lines 131-171: everything after the domain step. *)
Definition after_domain (app_url repo_url : pyval) (repo_name platform : string)
           (deploy_result : pydict) : M DeployResult :=
  monitoring_block app_url repo_name ;;;
  cicd_block repo_name platform ;;;
  email_block app_url repo_name ;;;
  business_block app_url repo_name ;;;
  verify_block app_url repo_url platform deploy_result.

(** What lines 58-97 establish for the rest of the function. *)
Record context := {
  repo_name : string;
  repo_url : pyval;
  env_vars : pydict
}.

(** Lines 58-97: repository, source push, secrets. *)
Definition to_selection (mvp_path : string) : M (step context) :=
  log_append "🐙 Creating GitHub repository..." ;;;
  now <- int_time w ;;
  let repo_name := "ai-content-optimizer-" ++ str_of_Z now in
  repo_result <- GitHubAutomation.create_repository w repo_name
                   "AI-Powered Content Optimizer MVP - Autonomous SaaS Factory" false ;;
  ok <- field repo_result "success" ;;
  if negb (truthy ok) then
    err <- field repo_result "error" ;;
    failed ("GitHub repository creation failed: " ++ py_str err)
  else
    repo_url <- field repo_result "repo_url" ;;
    clone_url <- field repo_result "clone_url" ;;
    log_append ("✅ Repository created: " ++ py_str repo_url) ;;;
    log_append "📁 Pushing MVP files to repository..." ;;;
    push_result <- _push_mvp_files mvp_path clone_url ;;
    ok <- field push_result "success" ;;
    if negb (truthy ok) then
      err <- field push_result "error" ;;
      failed ("File push failed: " ++ py_str err)
    else
      log_append "✅ MVP files pushed successfully" ;;;
      log_append "🔐 Setting up environment variables..." ;;;
      let env_vars := _prepare_environment_variables in
      env_result <- GitHubAutomation.setup_environment_variables w repo_name env_vars ;;
      log_append (if env_result : bool then "✅ Environment variables configured"
                  else "⚠️ Environment variable setup had issues") ;;;
      ret (Next {| repo_name := repo_name; repo_url := repo_url; env_vars := env_vars |}).

(** Lines 99-117: platform selection and provisioning. *)
Definition select_and_provision (c : context) (platform : string) : M (step pydict) :=
  log_append ("🚀 Deploying to " ++ title platform ++ "...") ;;;
  match lookup_platform platform (platforms self) with
  | None =>
      failed ("Platform " ++ platform ++ " not available. Available: "
              ++ py_repr (platform_keys (platforms self)))
  | Some a =>
      deploy_result <- provision a platform (repo_url c) (env_vars c) ;;
      ok <- field deploy_result "success" ;;
      if negb (truthy ok) then
        err <- field deploy_result "error" ;;
        failed (title platform ++ " deployment failed: " ++ py_str err)
      else ret (Next deploy_result)
  end.

(** Lines 58-120: the run up to the deployed application, whose URL the
    platform provided. *)
Definition to_provisioned (mvp_path platform : string)
  : M (step (context * pydict * pyval)) :=
  x <- to_selection mvp_path ;;
  match x with
  | Return r => ret (Return r)
  | Next c =>
      y <- select_and_provision c platform ;;
      match y with
      | Return r => ret (Return r)
      | Next deploy_result =>
          app_url <- field deploy_result "url" ;;
          log_append ("✅ Deployed successfully to: " ++ py_str app_url) ;;;
          ret (Next (c, deploy_result, app_url))
      end
  end.

(** The body of the [try] of [deploy_mvp], lines 58-171. *)
Definition deploy_body (mvp_path platform : string) (custom_domain : option string)
  : M DeployResult :=
  x <- to_provisioned mvp_path platform ;;
  match x with
  | Return r => ret r
  | Next (c, deploy_result, app_url) =>
      app_url <- domain_block custom_domain app_url ;;
      after_domain app_url (repo_url c) (repo_name c) platform deploy_result
  end.

(** [deployment_log = []] *)
Definition new_log : M unit :=
  fun s => (Val tt, {| trace := trace s; cwd := cwd s; dirs := dirs s; log := [] |}).

(** The [except Exception as e] clause of [deploy_mvp], lines 173-179. *)
Definition on_exception (e : Exn) : M DeployResult :=
  log_append ("❌ Deployment failed: " ++ exn_str e) ;;;
  fun s => (Val (Failed (exn_str e) (log s)), s).

Definition deploy_mvp (mvp_path platform : string) (custom_domain : option string)
  : M DeployResult :=
  new_log ;;;
  try_except (deploy_body mvp_path platform custom_domain) on_exception.
End Methods.

Arguments Return {A} r.
Arguments Next {A} a.
End AutonomousDeployer.

(** ** [deploy_mvp_to_railway.py] *)

Module DeployMvpToRailway.
Import AutonomousDeployer.

Definition newline : string := String (ascii_of_N 10) "".

(** [s * n] *)
Fixpoint times (s : string) (n : nat) : string :=
  match n with
  | O => ""
  | S k => s ++ times s k
  end.

(** ['✅' if v else '❌'] *)
Definition mark (v : pyval) : string := if truthy v then "✅" else "❌".

Section Main.
Variable w : World.
Variable env : CredentialManager.environ.

(** [for log_entry in deployment_result.get('log', []): print(f"   {log_entry}")] *)
Fixpoint print_log (entries : list string) : M unit :=
  match entries with
  | [] => ret tt
  | log_entry :: rest => print ("   " ++ log_entry) ;;; print_log rest
  end.

Definition main : M bool :=
  print "🚀 Deploying AI Content Optimizer MVP to Railway..." ;;;
  print (times "=" 60) ;;;
  let deployer := construct env None in
  let status := get_deployment_status deployer in
  print "📊 Deployment System Status:" ;;;
  platforms_available <- field status "platforms_available" ;;
  print ("   Platforms: " ++ py_str platforms_available) ;;;
  github_ready <- field status "github_ready" ;;
  print ("   GitHub: " ++ mark github_ready) ;;;
  domain_management <- field status "domain_management" ;;
  print ("   Domain Management: " ++ mark domain_management) ;;;
  credentials_loaded <- field status "credentials_loaded" ;;
  total_credentials <- field status "total_credentials" ;;
  print ("   Credentials: " ++ py_str credentials_loaded ++ "/"
         ++ py_str total_credentials) ;;;
  platforms_available <- field status "platforms_available" ;;
  has_railway <- contains "railway" platforms_available ;;
  if negb has_railway then
    print "❌ Railway platform not available. Missing RAILWAY_TOKEN." ;;;
    ret false
  else
    print (newline ++ "🚂 Starting Railway deployment...") ;;;
    let mvp_path := "/tmp/test_skill_output" in
    deployment_result <- deploy_mvp w deployer mvp_path "railway" None ;;
    print (newline ++ times "=" 60) ;;;
    print "📋 Deployment Log:" ;;;
    print_log (result_log deployment_result) ;;;
    match deployment_result with
    | Deployed app_url repo_url platform deployment_id verification _ _ =>
        print (newline ++ "🎉 DEPLOYMENT SUCCESSFUL!") ;;;
        print ("   Live URL: " ++ py_str app_url) ;;;
        print ("   Repository: " ++ py_str repo_url) ;;;
        print ("   Platform: " ++ title platform) ;;;
        print ("   Deployment ID: " ++ py_str deployment_id) ;;;
        print (newline ++ "🔍 Testing deployed application...") ;;;
        (if truthy (dict_get_default "overall_status" (VBool false) verification) then
           print "   ✅ Application is responding correctly" ;;;
           print "   ✅ Health check passed" ;;;
           print "   ✅ Main page accessible"
         else
           print "   ⚠️ Application verification had issues" ;;;
           if dict_has "error" verification then
             err <- field verification "error" ;;
             print ("   Error: " ++ py_str err)
           else ret tt) ;;;
        print (newline ++ "🌟 Your AI-Powered Content Optimizer is now live!") ;;;
        print ("🔗 Access it at: " ++ py_str app_url) ;;;
        ret true
    | Failed error _ =>
        print (newline ++ "❌ DEPLOYMENT FAILED!") ;;;
        print ("   Error: " ++ error) ;;;
        ret false
    end.
End Main.
End DeployMvpToRailway.

(** * Vocabulary of the statements *)

Import AutonomousDeployer.

(** The state [s] after the events [evs]. *)
Definition after (s : St) (evs : list Event) : St := with_trace (trace s ++ evs) s.

(** The state [s] with one more line in the log. *)
Definition logged (s : St) (line : string) : St :=
  {| trace := trace s; cwd := cwd s; dirs := dirs s; log := log s ++ [line] |}.

(** [quiet m Q]: from every state, [m] only adds events to the trace, and
    its outcome satisfies [Q]. *)
Definition quiet {A} (m : M A) (Q : Outcome A -> Prop) : Prop :=
  forall s, exists o evs, m s = (o, after s evs) /\ Q o.

(** The outcome is a value that satisfies [R]: nothing is raised. *)
Definition returns {A} (R : A -> Prop) (o : Outcome A) : Prop :=
  match o with
  | Val a => R a
  | Raise _ => False
  end.

(** [wp m s Phi]: the run of [m] from [s] ends in an outcome and a state
    that satisfy [Phi]. *)
Definition wp {A} (m : M A) (s : St) (Phi : Outcome A -> St -> Prop) : Prop :=
  Phi (fst (m s)) (snd (m s)).

(** A collaborator's dictionary either reports success or is
    [{"success": False, "error": msg}]. *)
Definition reported (d : pydict) : Prop :=
  dict_get "success" d = Some (VBool true) \/ exists m, d = failure m.

(** What a platform adapter returns: on success the dictionary has the
    URL of the service. *)
Definition provisioned_ok (d : pydict) : Prop :=
  (dict_get "success" d = Some (VBool true) /\ exists u, dict_get "url" d = Some u)
  \/ exists m, d = failure m.

(** What [create_repository] returns. *)
Definition repo_ok (d : pydict) : Prop :=
  (dict_get "success" d = Some (VBool true)
   /\ exists u c, dict_get "repo_url" d = Some u /\ dict_get "clone_url" d = Some c)
  \/ exists m, d = failure m.

(** What [check_domain_availability] returns. *)
Definition availability_ok (d : pydict) : Prop :=
  (dict_get "success" d = Some (VBool true) /\ exists a, dict_get "available" d = Some a)
  \/ exists m, d = failure m.

(** A dictionary with a Boolean [success] and no [error]. *)
Definition tallied (d : pydict) : Prop :=
  (exists b, dict_get "success" d = Some (VBool b)) /\ dict_get "error" d = None.

(** The request that creates the repository, and the push of the sources. *)
Definition create_repo_request : Event :=
  EvHttp POST (GitHubAutomation.base_url ++ "/user/repos") None.
Definition git_push : Event := EvRun ["git"; "push"; "origin"; "main"].

(** The two probes of the verifier. *)
Definition health_probe (app_url : pyval) : Event :=
  EvHttp GET (py_str app_url ++ "/api/health") (Some 30).
Definition root_probe (app_url : pyval) : Event :=
  EvHttp GET (py_str app_url) (Some 30).

(** [s'] is [s] with more events and possibly more directories; the log
    and the working directory are those of [s]. *)
Definition grown (s s' : St) : Prop :=
  log s' = log s /\ cwd s' = cwd s /\ dirs s ⊆ dirs s' /\
  exists evs, trace s' = (trace s ++ evs)%list.

(** Every run of [m] leaves the state [grown]. *)
Definition tame {A} (m : M A) : Prop :=
  forall s, exists o s', m s = (o, s') /\ grown s s'.

(** The three [git] commands that [_push_mvp_files] runs in the workspace. *)
Definition git_steps (w : World) : M unit :=
  (subprocess_run w [VStr "git"; VStr "add"; VStr "."] ;;;
   subprocess_run w [VStr "git"; VStr "commit"; VStr "-m"; VStr "Initial MVP deployment"] ;;;
   subprocess_run w [VStr "git"; VStr "push"; VStr "origin"; VStr "main"])%py.

(** The second of [int(time.time())] at state [s]. *)
Definition second_at (w : World) (s : St) : Z := Z.quot (time_us w (trace s)) 1000000.

(** What [_push_mvp_files] returns. *)
Definition push_ok (d : pydict) : Prop :=
  d = [("success", VBool true)] \/ exists m, d = failure m.

(** The state once [os.makedirs(temp)] has succeeded, and once
    [os.chdir(path)] has. *)
Definition made (s : St) (temp : string) : St :=
  {| trace := trace s ++ [EvMakedirs temp]; cwd := cwd s;
     dirs := {[ temp ]} ∪ dirs s; log := log s |}.
Definition entered (s : St) (path : string) : St :=
  {| trace := trace s ++ [EvChdir path]; cwd := path; dirs := dirs s; log := log s |}.

(** A push that started in state [s] with workspace [temp] has ended in
    state [s'] with the dictionary [d]. *)
Definition pushed (w : World) (s : St) (temp : string) (d : pydict) (s' : St) : Prop :=
  log s' = log s /\ cwd s' = cwd s /\ dirs s ⊆ dirs s' /\
  (exists evs, trace s' = (trace s ++ EvMakedirs temp :: evs)%list
               /\ (d = [("success", VBool true)] -> In git_push evs)) /\
  push_ok d /\
  (fs_error w (trace s) (EvMakedirs temp) = None -> temp ∈ dirs s').

(** The state in which the [try] of [deploy_mvp] starts: an empty log. *)
Definition fresh (s : St) : St :=
  {| trace := trace s; cwd := cwd s; dirs := dirs s; log := [] |}.

(** The name that [deploy_mvp], started in [s], gives the repository, and
    the call by which it creates it. *)
Definition repo_name_at (w : World) (s : St) : string :=
  "ai-content-optimizer-" ++ str_of_Z (second_at w s).

Definition repo_attempt (w : World) (s : St) : Outcome pydict * St :=
  GitHubAutomation.create_repository w (repo_name_at w s)
    "AI-Powered Content Optimizer MVP - Autonomous SaaS Factory" false
    (logged (fresh s) "🐙 Creating GitHub repository...").

(** The lines that the stages before platform selection leave in the log
    when they all pass; [configured] tells whether the secrets were set. *)
Definition lines_to_selection (repo_url : pyval) (configured : bool) : list string :=
  ["🐙 Creating GitHub repository...";
   "✅ Repository created: " ++ py_str repo_url;
   "📁 Pushing MVP files to repository...";
   "✅ MVP files pushed successfully";
   "🔐 Setting up environment variables...";
   if configured then "✅ Environment variables configured"
   else "⚠️ Environment variable setup had issues"].

(** The text is ASCII; on such text [title] is [str.title()]. *)
Definition is_ascii (s : string) : bool :=
  forallb (fun c => (N_of_ascii c <? 128)%N) (list_ascii_of_string s).

(** The error of an unregistered platform. *)
Definition not_available (self : AutonomousDeployer.t) (platform : string) : string :=
  "Platform " ++ platform ++ " not available. Available: "
  ++ py_repr (platform_keys (platforms self)).

(** The three requests of the domain configurator. *)
Definition availability_check (domain : string) : Event :=
  EvHttp GET ("https://api.godaddy.com/v1/domains/available?domain=" ++ domain) None.
Definition registration : Event :=
  EvHttp POST "https://api.godaddy.com/v1/domains/purchase" None.
Definition dns_update (domain : string) : Event :=
  EvHttp PUT ("https://api.godaddy.com/v1/domains/" ++ domain ++ "/records") None.

(** From the words of the specification: the one request that the email
    configurator makes, by the first credential present in the order
    Mailchimp, SendGrid, Mailgun; none when no credential is present. *)
Definition spec_email_attempt (self : EmailService.t) : list Event :=
  if opt_truthy (EmailService.mailchimp_api_key self) then
    [EvHttp POST (("https://" ++ py_str (of_opt (EmailService.mailchimp_server self))
                   ++ ".api.mailchimp.com/3.0") ++ "/campaigns") None]
  else if opt_truthy (EmailService.sendgrid_api_key self) then
    [EvHttp POST "https://api.sendgrid.com/v3/templates" None]
  else if opt_truthy (EmailService.mailgun_api_key self) then
    [EvHttp GET (("https://api.mailgun.net/v3/"
                  ++ py_str (of_opt (EmailService.mailgun_domain self))) ++ "/stats/total") None]
  else [].

(** How the stages before platform selection, started in [s], can end in
    [s1]: with a failure of the repository creation, with a failure of
    the push, or with the repository created and the sources pushed. *)
Definition at_selection (w : World) (self : AutonomousDeployer.t) (s : St)
           (x : step context) (s1 : St) : Prop :=
  cwd s1 = cwd s /\
  match x with
  | Return r =>
      (exists m, r = Failed ("GitHub repository creation failed: " ++ m)
                            (log s ++ ["🐙 Creating GitHub repository..."])
                 /\ trace s1 = (trace s ++ [create_repo_request])%list)
      \/ (exists m u evs,
            r = Failed ("File push failed: " ++ m)
                       (log s ++ ["🐙 Creating GitHub repository...";
                                  "✅ Repository created: " ++ py_str u;
                                  "📁 Pushing MVP files to repository..."])
            /\ trace s1 = (trace s ++ create_repo_request :: evs)%list)
  | Next c =>
      exists b evs,
        log s1 = (log s ++ lines_to_selection (repo_url c) b)%list
        /\ trace s1 = (trace s ++ create_repo_request :: evs)%list
        /\ In git_push evs
        /\ repo_name c = "ai-content-optimizer-" ++ str_of_Z (second_at w s)
        /\ env_vars c = _prepare_environment_variables self
  end.

(** ** Worlds and inputs of the examples *)

(** A process in its home directory, before anything has happened. *)
Definition home : St :=
  {| trace := []; cwd := "/home/user"; dirs := {[ "/home/user" ]}; log := [] |}.

Definition reply (code : Z) (doc : option pyval) : HttpReply :=
  HttpResponse {| status_code := code; text := "body"; json_doc := doc |}.

(** A world whose HTTP answers depend on the method and the URL only;
    [git] and the file system work, the bundle holds one file, and the
    clock stands at one instant. *)
Definition world_with (http : Method -> string -> HttpReply) : World :=
  {| http_reply := fun _ m url _ => http m url;
     run_reply := fun _ _ => RunOk;
     fs_error := fun _ _ => None;
     glob_reply := fun _ _ => ["/app/main.py"];
     time_us := fun _ => 1753843786123456 |}.

Definition new_repo : pyval :=
  VDict [("html_url", VStr "https://github.com/acme/app");
         ("clone_url", VStr "https://github.com/acme/app.git");
         ("ssh_url", VStr "git@github.com:acme/app.git");
         ("id", VInt 7);
         ("full_name", VStr "acme/app")].

Definition railway_created : pyval :=
  VDict [("data", VDict [("projectCreate", VDict [("id", VStr "p1")]);
                         ("serviceCreate", VDict [("id", VStr "s1")])])].

Definition is_github_repos (url : string) : bool :=
  String.eqb url "https://api.github.com/user/repos".
Definition is_railway (url : string) : bool :=
  String.eqb url "https://backboard.railway.app/graphql".
Definition is_godaddy (url : string) : bool :=
  is_prefix "https://api.godaddy.com/" url.

(** Every service answers 503. *)
Definition outage : World := world_with (fun _ _ => reply 503 None).

(** GitHub and Railway work; nothing else answers, and the deployed
    application is not up yet. *)
Definition app_not_up : World :=
  world_with (fun m url =>
    if is_github_repos url then
      match m with
      | POST => reply 201 (Some new_repo)
      | _ => reply 200 (Some (VList []))
      end
    else if is_railway url then reply 200 (Some railway_created)
    else reply 503 None).

(** Every service works and the application is up; the registrar says
    that the domain is taken, so nothing is bought. *)
Definition all_up : World :=
  world_with (fun m url =>
    if is_github_repos url then
      match m with
      | POST => reply 201 (Some new_repo)
      | _ => reply 200 (Some (VList []))
      end
    else if is_railway url then reply 200 (Some railway_created)
    else reply 200 (Some (VDict [("available", VBool false)]))).

(** As [all_up], but the registrar says that the domain is free and
    sells it. *)
Definition domain_free : World :=
  world_with (fun m url =>
    if is_github_repos url then
      match m with
      | POST => reply 201 (Some new_repo)
      | _ => reply 200 (Some (VList []))
      end
    else if is_railway url then reply 200 (Some railway_created)
    else reply 200 (Some (VDict [("available", VBool true)]))).

(** As [all_up], but the registrar is down. *)
Definition registrar_down : World :=
  world_with (fun m url =>
    if is_github_repos url then
      match m with
      | POST => reply 201 (Some new_repo)
      | _ => reply 200 (Some (VList []))
      end
    else if is_railway url then reply 200 (Some railway_created)
    else if is_godaddy url then reply 503 None
    else reply 200 (Some (VDict []))).

(** No request gets an answer in time. *)
Definition timing_out : World :=
  world_with (fun _ _ => HttpRaise "Read timed out. (read timeout=30)").

(** Credentials for GitHub and Railway only. *)
Definition railway_only : creds :=
  <["RAILWAY_TOKEN" := Some "railway-token"]> (<["GITHUB_TOKEN" := Some "github-token"]> ∅).

(** Credentials for GitHub, Railway, the registrar, Mailchimp and Sentry. *)
Definition equipped : creds :=
  <["GODADDY_API_KEY" := Some "key"]>
    (<["GODADDY_SECRET" := Some "secret"]>
       (<["MAILCHIMP_API_KEY" := Some "mc-key"]>
          (<["SENTRY_DSN" := Some "https://sentry.example/1"]> railway_only))).

Definition on_railway : AutonomousDeployer.t := AutonomousDeployer.init (Some railway_only) ∅.
Definition full_deployer : AutonomousDeployer.t := AutonomousDeployer.init (Some equipped) ∅.


(** What the registrar answered to the availability check for [domain],
    made in state [s]: whether the domain is available, when the answer
    has status 200 and a JSON object. *)
Definition availability_answer (w : World) (s : St) (domain : string) : option bool :=
  match http_reply w (trace s) GET
          ("https://api.godaddy.com/v1/domains/available?domain=" ++ domain) None with
  | HttpResponse r =>
      if status_code r =? 200 then
        match json_doc r with
        | Some (VDict doc) => Some (truthy (dict_get_default "available" (VBool false) doc))
        | _ => None
        end
      else None
  | HttpRaise _ => None
  end.

(** The request [ev], made in state [s], is answered with one of the
    status codes [codes]. *)
Definition answered (w : World) (s : St) (ev : Event) (codes : list Z) : bool :=
  match ev with
  | EvHttp m url timeout =>
      match http_reply w (trace s) m url timeout with
      | HttpResponse r => existsb (Z.eqb (status_code r)) codes
      | HttpRaise _ => false
      end
  | _ => false
  end.

(** From the words of the specification: the availability check, then
    the registration only if the domain is reported available, then the
    DNS records; a step that fails ends the attempt.  The pair holds the
    requests of the attempt and whether it succeeds; a step has failed
    when its request is not answered with the status that the step
    accepts. *)
Definition spec_domain_attempt (w : World) (s : St) (domain : string)
  : list Event * bool :=
  let check := availability_check domain in
  match availability_answer w s domain with
  | None => ([check], false)
  | Some true =>
      if answered w (after s [check]) registration [200; 201] then
        ([check; registration; dns_update domain],
         answered w (after s [check; registration]) (dns_update domain) [200])
      else ([check; registration], false)
  | Some false =>
      ([check; dns_update domain],
       answered w (after s [check]) (dns_update domain) [200])
  end.


(** The requests of a trace that went to a URL starting with [prefix]. *)
Definition requests_to (prefix : string) (tr : list Event) : list Event :=
  List.filter (fun ev => match ev with
                         | EvHttp _ url _ => is_prefix prefix url
                         | _ => false
                         end) tr.


(** GitHub, Railway and the registrar work, and the registrar says that
    the domain is taken; the application does not answer at its URLs. *)
Definition domain_ready_app_down : World :=
  world_with (fun m url =>
    if is_github_repos url then
      match m with
      | POST => reply 201 (Some new_repo)
      | _ => reply 200 (Some (VList []))
      end
    else if is_railway url then reply 200 (Some railway_created)
    else if is_godaddy url then reply 200 (Some (VDict [("available", VBool false)]))
    else reply 503 None).

(** Credentials for GitHub, Railway and the registrar. *)
Definition with_registrar : creds :=
  <["GODADDY_API_KEY" := Some "key"]> (<["GODADDY_SECRET" := Some "secret"]> railway_only).

Definition with_domain : AutonomousDeployer.t := AutonomousDeployer.init (Some with_registrar) ∅.

(** ** Vocabulary of the further properties *)

(** [m] leaves the state as it is. *)
Definition still {A} (m : M A) : Prop := forall s, snd (m s) = s.

(** [m] makes no request. *)
Definition offline {A} (m : M A) : Prop :=
  forall s, requests_to "" (trace (snd (m s))) = requests_to "" (trace s).

(** What the process writes on its standard output. *)
Definition is_print (ev : Event) : Prop :=
  match ev with
  | EvPrint _ => True
  | _ => False
  end.

(** A dictionary with a Boolean [success]. *)
Definition flagged (d : pydict) : Prop := exists b, dict_get "success" d = Some (VBool b).

(** The requests of the collaborators. *)
Definition repos_listing : Event := EvHttp GET "https://api.github.com/user/repos" None.

Definition secret_url (full_name : pyval) (key : string) : string :=
  ("https://api.github.com/repos/" ++ py_str full_name ++ "/actions/secrets") ++ "/" ++ key.

Definition secret_puts (full_name : pyval) (env_vars : pydict) : list Event :=
  List.map (fun kv => EvHttp PUT (secret_url full_name (fst kv)) None) env_vars.

Definition hook_request (repo_name : string) : Event :=
  EvHttp POST ("https://api.github.com/repos/" ++ repo_name ++ "/hooks") None.

Definition render_user_request : Event :=
  EvHttp GET "https://api.render.com/v1/users/me" None.
Definition render_service_request : Event :=
  EvHttp POST "https://api.render.com/v1/services" None.

Definition graphql_post : Event := EvHttp POST RailwayDeployment.base_url None.

Definition dashboard_request : Event :=
  EvHttp POST "https://api.datadoghq.com/api/v1/dashboard" None.

Definition workflow_url (repo_name : string) : string :=
  "https://api.github.com/repos/" ++ repo_name ++ "/.github/workflows/deploy.yml".

(** The one request of [send_deployment_notification], by the first
    credential present. *)
Definition notification_attempt (self : EmailService.t) : list Event :=
  if opt_truthy (EmailService.mailchimp_api_key self) then
    [EvHttp GET (("https://" ++ py_str (of_opt (EmailService.mailchimp_server self))
                  ++ ".api.mailchimp.com/3.0") ++ "/ping") None]
  else if opt_truthy (EmailService.sendgrid_api_key self) then
    [EvHttp POST "https://api.sendgrid.com/v3/mail/send" None]
  else if opt_truthy (EmailService.mailgun_api_key self) then
    [EvHttp POST (("https://api.mailgun.net/v3/"
                   ++ py_str (of_opt (EmailService.mailgun_domain self))) ++ "/messages") None]
  else [].

(** The dictionary of [create_deployment_secrets] when it has gone
    through the secrets. *)
Definition secrets_report (created : list string) : pydict :=
  [("success", VBool (0 <? MonitoringSetup.len created));
   ("secrets_created", VList (List.map VStr created));
   ("message", VStr ("Created " ++ str_of_Z (MonitoringSetup.len created)
                     ++ " deployment secrets"))].

(** Whether a variable of the environment is set, as a number. *)
Definition set_in (env : CredentialManager.environ) (k : string) : Z :=
  match env k with Some _ => 1 | None => 0 end.

(** *** Further worlds and inputs of the examples *)

(** GitHub lists two repositories and refuses every secret. *)
Definition secrets_refused : World :=
  world_with (fun m url =>
    match m with
    | GET => reply 200 (Some (VList [VDict [("name", VStr "other");
                                            ("full_name", VStr "acme/other")];
                                     VDict [("name", VStr "app");
                                            ("full_name", VStr "acme/app")]]))
    | _ => reply 403 None
    end).

(** Every service works, and [git] does not. *)
Definition git_down : World :=
  {| http_reply := http_reply all_up;
     run_reply := fun _ _ =>
       RunNonZero "Command '['git', 'clone']' returned non-zero exit status 128.";
     fs_error := fs_error all_up;
     glob_reply := glob_reply all_up;
     time_us := time_us all_up |}.

(** An environment without any of the variables, and one in which the
    GitHub token is set to the empty string. *)
Definition bare_environment : CredentialManager.environ := fun _ => None.
Definition blank_token : CredentialManager.environ :=
  fun k => if String.eqb k "GITHUB_TOKEN" then Some "" else None.

(** The key of the registrar without its secret. *)
Definition key_without_secret : creds :=
  <["GODADDY_API_KEY" := Some "key"]> railway_only.

(** * Lemmas and theorems *)

(** ** States *)

Lemma after_after s e1 e2 : after (after s e1) e2 = after s (e1 ++ e2).
Proof. unfold after, with_trace. simpl. by rewrite app_assoc. Qed.

Lemma after_nil s : after s [] = s.
Proof. destruct s. unfold after, with_trace. simpl. by rewrite app_nil_r. Qed.

(** ** Computations that only add events *)

Section Quiet.
Context {A B : Type}.

Lemma quiet_ret (a : A) (Q : Outcome A -> Prop) : Q (Val a) -> quiet (ret a) Q.
Proof. intros H s. exists (Val a), []. by rewrite after_nil. Qed.

Lemma quiet_raise (e : Exn) (Q : Outcome A -> Prop) : Q (Raise e) -> quiet (raise e) Q.
Proof. intros H s. exists (Raise e), []. by rewrite after_nil. Qed.

Lemma quiet_conseq (m : M A) (Q Q' : Outcome A -> Prop) :
  quiet m Q -> (forall o, Q o -> Q' o) -> quiet m Q'.
Proof. intros H HQ s. destruct (H s) as (o & evs & E & Ho). eauto. Qed.

Lemma quiet_bind (m : M A) (k : A -> M B) (Q : Outcome B -> Prop) :
  quiet m (fun o => match o with
                    | Val a => quiet (k a) Q
                    | Raise e => Q (Raise e)
                    end) ->
  quiet (bind m k) Q.
Proof.
  intros H s. destruct (H s) as (o & evs & E & Ho). unfold bind. rewrite E.
  destruct o as [a|e].
  - destruct (Ho (after s evs)) as (o' & evs' & E' & Ho').
    rewrite E', after_after. eauto.
  - eauto.
Qed.

Lemma quiet_bind_returns (m : M A) (k : A -> M B) (R : A -> Prop)
      (Q : Outcome B -> Prop) :
  quiet m (returns R) -> (forall a, R a -> quiet (k a) Q) -> quiet (bind m k) Q.
Proof.
  intros H Hk. apply quiet_bind. eapply quiet_conseq; [exact H|].
  intros [a|e]; simpl; [auto | tauto].
Qed.

Lemma quiet_try_except (body : M A) (handler : Exn -> M A) (Q : Outcome A -> Prop) :
  quiet body (fun o => match o with
                       | Val a => Q (Val a)
                       | Raise e => quiet (handler e) Q
                       end) ->
  quiet (try_except body handler) Q.
Proof.
  intros H s. destruct (H s) as (o & evs & E & Ho). unfold try_except. rewrite E.
  destruct o as [a|e].
  - eauto.
  - destruct (Ho (after s evs)) as (o' & evs' & E' & Ho').
    rewrite E', after_after. eauto.
Qed.
End Quiet.

Lemma quiet_request w m url t (Q : Outcome Response -> Prop) :
  (forall r, Q (Val r)) -> (forall msg, Q (Raise (RequestException msg))) ->
  quiet (request w m url t) Q.
Proof.
  intros Hv Hr s. unfold request.
  destruct (http_reply w (trace s) m url t); eexists _, [_]; split; try reflexivity; auto.
Qed.

Lemma quiet_json r (Q : Outcome pyval -> Prop) : (forall o, Q o) -> quiet (json r) Q.
Proof.
  intros HQ. unfold json. destruct (json_doc r); [apply quiet_ret | apply quiet_raise]; auto.
Qed.

Lemma quiet_getitem v k (Q : Outcome pyval -> Prop) : (forall o, Q o) -> quiet (getitem v k) Q.
Proof.
  intros HQ. unfold getitem. destruct v; try (apply quiet_raise; auto).
  destruct (dict_get k d); [apply quiet_ret | apply quiet_raise]; auto.
Qed.

(** Reading a key of a known dictionary. *)
Lemma quiet_field d k (Q : Outcome pyval -> Prop) :
  match dict_get k d with
  | Some v => Q (Val v)
  | None => Q (Raise (KeyError (VStr k)))
  end ->
  quiet (field d k) Q.
Proof.
  unfold field, getitem. destruct (dict_get k d); [apply quiet_ret | apply quiet_raise].
Qed.

Lemma quiet_getitem0 v (Q : Outcome pyval -> Prop) : (forall o, Q o) -> quiet (getitem0 v) Q.
Proof.
  intros HQ. unfold getitem0. destruct v as [| | |s|l|d]; try (apply quiet_raise; auto).
  - destruct s; [apply quiet_raise | apply quiet_ret]; auto.
  - destruct l; [apply quiet_raise | apply quiet_ret]; auto.
Qed.

Lemma quiet_contains k v (Q : Outcome bool -> Prop) : (forall o, Q o) -> quiet (contains k v) Q.
Proof.
  intros HQ. unfold contains.
  destruct v; try (apply quiet_raise; auto); apply quiet_ret; auto.
Qed.

Lemma quiet_get_method v k d (Q : Outcome pyval -> Prop) :
  (forall o, Q o) -> quiet (get_method v k d) Q.
Proof.
  intros HQ. unfold get_method.
  destruct v; try (apply quiet_raise; auto); apply quiet_ret; auto.
Qed.

Lemma quiet_iterate v (Q : Outcome (list pyval) -> Prop) :
  (forall o, Q o) -> quiet (iterate v) Q.
Proof.
  intros HQ. unfold iterate.
  destruct v; try (apply quiet_raise; auto); apply quiet_ret; auto.
Qed.

Lemma quiet_print line (Q : Outcome unit -> Prop) : Q (Val tt) -> quiet (print line) Q.
Proof. intros HQ s. exists (Val tt), [EvPrint line]. split; [reflexivity | auto]. Qed.

Lemma quiet_int_time w (Q : Outcome Z -> Prop) : (forall z, Q (Val z)) -> quiet (int_time w) Q.
Proof. intros HQ s. eexists _, []. rewrite after_nil. split; [reflexivity | apply HQ]. Qed.

(** One step through a computation, with every outcome of a primitive
    taken into account. *)
Ltac quiet_step :=
  lazymatch goal with
  | |- quiet (bind (request _ _ _ _) _) _ =>
      apply quiet_bind, quiet_request; [intros ?r | intros ?msg]
  | |- quiet (bind (json _) _) _ => apply quiet_bind, quiet_json; intros [?v|?e]
  | |- quiet (bind (getitem _ _) _) _ => apply quiet_bind, quiet_getitem; intros [?v|?e]
  | |- quiet (bind (getitem0 _) _) _ => apply quiet_bind, quiet_getitem0; intros [?v|?e]
  | |- quiet (bind (contains _ _) _) _ => apply quiet_bind, quiet_contains; intros [?b|?e]
  | |- quiet (bind (get_method _ _ _) _) _ =>
      apply quiet_bind, quiet_get_method; intros [?v|?e]
  | |- quiet (bind (iterate _) _) _ => apply quiet_bind, quiet_iterate; intros [?l|?e]
  | |- quiet (bind (int_time _) _) _ => apply quiet_bind, quiet_int_time; intros ?now
  | |- quiet (bind (print _) _) _ => apply quiet_bind, quiet_print
  | |- quiet (bind (bind _ _) _) _ => apply quiet_bind
  | |- quiet (bind (ret _) _) _ => apply quiet_bind, quiet_ret
  | |- quiet (bind (raise _) _) _ => apply quiet_bind, quiet_raise
  | |- quiet (bind (if ?b then _ else _) _) _ => destruct b eqn:?
  | |- quiet (bind (match ?x with _ => _ end) _) _ => destruct x eqn:?
  | |- quiet (try_except _ _) _ => apply quiet_try_except
  | |- quiet (ret _) _ => apply quiet_ret
  | |- quiet (raise _) _ => apply quiet_raise
  | |- quiet (if ?b then _ else _) _ => destruct b eqn:?
  | |- quiet (match ?x with _ => _ end) _ => destruct x eqn:?
  | |- quiet (let _ := _ in _) _ => cbv zeta
  | |- quiet ((fun _ => _) _) _ => cbv beta
  | |- match ?o with Val _ => _ | Raise _ => _ end => cbv beta iota
  end.

Ltac quiet_steps := repeat first [ quiet_step | progress cbv beta iota ].

(** ** What the collaborators return *)

Lemma reported_failure m : reported (failure m).
Proof. right; eauto. Qed.

Lemma provisioned_failure m : provisioned_ok (failure m).
Proof. right; eauto. Qed.

Lemma repo_failure m : repo_ok (failure m).
Proof. right; eauto. Qed.

Lemma availability_failure m : availability_ok (failure m).
Proof. right; eauto. Qed.

Create HintDb shapes.
#[local] Hint Resolve reported_failure provisioned_failure repo_failure
  availability_failure : shapes.

(** A reported dictionary whose [success] is not truthy is a failure with
    its message. *)
Lemma reported_falsy d v :
  reported d -> dict_get "success" d = Some v -> truthy v = false ->
  exists m, d = failure m.
Proof.
  intros [H|H] Hv Ht; [|exact H]. rewrite H in Hv. injection Hv as <-. discriminate.
Qed.

Lemma post_each_quiet w url env (Q : Outcome unit -> Prop) :
  (forall o, Q o) -> quiet (post_each w url env) Q.
Proof.
  intros HQ. induction env as [|kv env IH]; simpl.
  - apply quiet_ret; auto.
  - apply quiet_bind, quiet_request; [intros r; exact IH | intros; apply HQ].
Qed.

Lemma create_service_quiet w repo_url env :
  quiet (RenderDeployment.create_service w repo_url env) (returns provisioned_ok).
Proof.
  unfold RenderDeployment.create_service. quiet_steps; simpl; auto with shapes.
  left; split; [reflexivity | eexists; reflexivity].
Qed.

Lemma deploy_project_quiet w repo_url env :
  quiet (RailwayDeployment.deploy_project w repo_url env) (returns provisioned_ok).
Proof.
  unfold RailwayDeployment.deploy_project.
  repeat first [ quiet_step
               | apply quiet_bind, post_each_quiet; intros [[]|?e]
               | progress cbv beta iota ];
    simpl; auto with shapes.
  all: left; split; [reflexivity | eexists; reflexivity].
Qed.

Lemma create_deployment_quiet w repo_url env :
  quiet (VercelDeployment.create_deployment w repo_url env) (returns provisioned_ok).
Proof.
  unfold VercelDeployment.create_deployment, VercelDeployment.as_str_for_replace.
  quiet_steps; simpl; auto with shapes.
  all: left; split; [reflexivity | eexists; reflexivity].
Qed.

(** [create_repository] sends one request, never raises, and returns a
    dictionary of one of its two shapes. *)
Lemma create_repository_run w name description private s :
  exists d, GitHubAutomation.create_repository w name description private s
            = (Val d, after s [create_repo_request])
            /\ repo_ok d.
Proof.
  unfold GitHubAutomation.create_repository, try_except, bind, request.
  fold create_repo_request.
  change (with_trace (trace s ++ [create_repo_request]) s) with (after s [create_repo_request]).
  destruct (http_reply w (trace s) POST _ None) as [msg|r].
  { eexists; split; [reflexivity | auto with shapes]. }
  destruct (status_code r =? 201); [| eexists; split; [reflexivity | auto with shapes]].
  unfold json. destruct (json_doc r) as [repo|];
    [| eexists; split; [reflexivity | auto with shapes]].
  unfold ret, raise, bind, getitem.
  destruct repo as [| | | | |d]; try (eexists; split; [reflexivity | auto with shapes]).
  destruct (dict_get "html_url" d); [| eexists; split; [reflexivity | auto with shapes]].
  destruct (dict_get "clone_url" d); [| eexists; split; [reflexivity | auto with shapes]].
  destruct (dict_get "ssh_url" d); [| eexists; split; [reflexivity | auto with shapes]].
  destruct (dict_get "id" d); [| eexists; split; [reflexivity | auto with shapes]].
  destruct (dict_get "full_name" d); [| eexists; split; [reflexivity | auto with shapes]].
  eexists; split; [reflexivity |].
  left; split; [reflexivity | eexists _, _; split; reflexivity].
Qed.

Lemma find_repo_quiet repo_name repos (Q : Outcome pyval -> Prop) :
  (forall o, Q o) -> quiet (GitHubAutomation.find_repo repo_name repos) Q.
Proof.
  intros HQ. induction repos as [|repo rest IH]; simpl.
  - apply quiet_ret; auto.
  - apply quiet_bind, quiet_getitem. intros [name|e]; [|apply HQ].
    destruct (eq_str name repo_name); [apply quiet_ret; auto | exact IH].
Qed.

Lemma put_secrets_quiet w url env (Q : Outcome unit -> Prop) :
  (forall o, Q o) -> quiet (GitHubAutomation.put_secrets w url env) Q.
Proof.
  intros HQ. induction env as [|[k v] env IH]; simpl.
  - apply quiet_ret; auto.
  - apply quiet_bind, quiet_request; [intros r; exact IH | intros; apply HQ].
Qed.

Lemma setup_environment_variables_quiet w repo_name env :
  quiet (GitHubAutomation.setup_environment_variables w repo_name env)
        (returns (fun _ => True)).
Proof.
  unfold GitHubAutomation.setup_environment_variables.
  repeat first [ quiet_step
               | apply quiet_bind, find_repo_quiet; intros [?v|?e]
               | apply quiet_bind, put_secrets_quiet; intros [[]|?e]
               | progress cbv beta iota ];
    simpl; auto.
Qed.

(** *** Domain *)

Lemma godaddy_base_url_quiet self (Q : Outcome string -> Prop) :
  (forall o, Q o) -> quiet (DomainManager.godaddy_base_url self) Q.
Proof.
  intros HQ. unfold DomainManager.godaddy_base_url.
  destruct (_ && _); [apply quiet_ret | apply quiet_raise]; auto.
Qed.

Ltac domain_steps :=
  repeat first [ quiet_step
               | apply quiet_bind, godaddy_base_url_quiet; intros [?base|?e]
               | progress cbv beta iota ].

Lemma check_domain_availability_quiet w self domain :
  quiet (DomainManager.check_domain_availability w self domain) (returns availability_ok).
Proof.
  unfold DomainManager.check_domain_availability.
  domain_steps; simpl; auto with shapes.
  left; split; [reflexivity | eexists; reflexivity].
Qed.

Lemma register_domain_quiet w self domain :
  quiet (DomainManager.register_domain w self domain) (returns reported).
Proof.
  unfold DomainManager.register_domain.
  domain_steps; simpl; auto with shapes. by left.
Qed.

Lemma configure_dns_quiet w self domain target_url :
  quiet (DomainManager.configure_dns w self domain target_url) (returns reported).
Proof.
  unfold DomainManager.configure_dns, VercelDeployment.as_str_for_replace.
  domain_steps; simpl; auto with shapes. all: by left.
Qed.

Lemma setup_domain_quiet w self domain target_url :
  quiet (DomainManager.setup_domain w self domain target_url) (returns reported).
Proof.
  unfold DomainManager.setup_domain.
  apply quiet_try_except.
  destruct (negb _); [apply quiet_ret; simpl; auto with shapes|].
  eapply quiet_bind_returns; [apply check_domain_availability_quiet|].
  intros availability Hav.
  apply quiet_bind, quiet_field.
  destruct Hav as [[Hs [a Ha]]|[m ->]].
  - rewrite Hs. simpl. apply quiet_bind, quiet_field. rewrite Ha.
    destruct (truthy a).
    + eapply quiet_bind_returns; [apply register_domain_quiet|].
      intros registration Hreg.
      apply quiet_bind, quiet_field.
      destruct Hreg as [Hs'|[m ->]].
      * rewrite Hs'. simpl.
        eapply quiet_conseq; [apply configure_dns_quiet|]. by intros [d|e].
      * simpl. apply quiet_ret. simpl. auto with shapes.
    + eapply quiet_conseq; [apply configure_dns_quiet|]. by intros [d|e].
  - simpl. apply quiet_ret. simpl. auto with shapes.
Qed.

(** *** Email *)

Lemma _setup_sendgrid_notifications_quiet w self app_url repo_name :
  quiet (EmailService._setup_sendgrid_notifications w self app_url repo_name)
        (returns reported).
Proof.
  unfold EmailService._setup_sendgrid_notifications, EmailService.sendgrid_base_url,
    EmailService.missing_attribute.
  quiet_steps; simpl; auto with shapes. by left.
Qed.

Lemma _setup_mailgun_notifications_quiet w self app_url repo_name :
  quiet (EmailService._setup_mailgun_notifications w self app_url repo_name)
        (returns reported).
Proof.
  unfold EmailService._setup_mailgun_notifications, EmailService.mailgun_base_url,
    EmailService.missing_attribute.
  quiet_steps; simpl; auto with shapes. by left.
Qed.

Lemma _setup_mailchimp_notifications_quiet w self app_url repo_name :
  quiet (EmailService._setup_mailchimp_notifications w self app_url repo_name)
        (returns reported).
Proof.
  unfold EmailService._setup_mailchimp_notifications, EmailService.mailchimp_base_url,
    EmailService.missing_attribute.
  quiet_steps; simpl; auto with shapes. by left.
Qed.

Lemma setup_notifications_quiet w self app_url repo_name :
  quiet (EmailService.setup_notifications w self app_url repo_name) (returns reported).
Proof.
  unfold EmailService.setup_notifications. apply quiet_try_except.
  repeat match goal with |- quiet (if ?b then _ else _) _ => destruct b end.
  - eapply quiet_conseq; [apply _setup_mailchimp_notifications_quiet|]. by intros [d|e].
  - eapply quiet_conseq; [apply _setup_sendgrid_notifications_quiet|]. by intros [d|e].
  - eapply quiet_conseq; [apply _setup_mailgun_notifications_quiet|]. by intros [d|e].
  - apply quiet_ret. simpl. auto with shapes.
Qed.

(** *** Monitoring *)

Lemma _setup_sentry_monitoring_quiet self app_url repo_name :
  quiet (MonitoringSetup._setup_sentry_monitoring self app_url repo_name)
        (returns (fun _ => True)).
Proof. unfold MonitoringSetup._setup_sentry_monitoring. quiet_steps; simpl; auto. Qed.

Lemma _setup_datadog_monitoring_quiet w self app_url repo_name :
  quiet (MonitoringSetup._setup_datadog_monitoring w self app_url repo_name)
        (returns (fun _ => True)).
Proof.
  unfold MonitoringSetup._setup_datadog_monitoring, MonitoringSetup.datadog_base_url.
  quiet_steps; simpl; auto.
Qed.

Lemma _setup_health_check_monitoring_quiet w app_url repo_name :
  quiet (MonitoringSetup._setup_health_check_monitoring w app_url repo_name)
        (returns (fun _ => True)).
Proof. unfold MonitoringSetup._setup_health_check_monitoring. quiet_steps; simpl; auto. Qed.

Lemma _setup_uptime_monitoring_quiet w app_url repo_name :
  quiet (MonitoringSetup._setup_uptime_monitoring w app_url repo_name)
        (returns (fun _ => True)).
Proof. unfold MonitoringSetup._setup_uptime_monitoring. quiet_steps; simpl; auto. Qed.

(** The dictionary that [setup_monitoring] returns always has a Boolean
    [success] and never has an [error] entry. *)
Lemma setup_monitoring_quiet w self app_url repo_name :
  quiet (MonitoringSetup.setup_monitoring w self app_url repo_name) (returns tallied).
Proof.
  unfold MonitoringSetup.setup_monitoring.
  repeat first
    [ eapply quiet_bind_returns;
      [ first [ apply _setup_sentry_monitoring_quiet
              | apply _setup_datadog_monitoring_quiet
              | apply _setup_health_check_monitoring_quiet
              | apply _setup_uptime_monitoring_quiet ]
      | intros ?d _ ]
    | quiet_step
    | progress cbv beta iota ];
    (split; [eexists; reflexivity | reflexivity]).
Qed.

(** *** CI/CD *)

Lemma _create_github_actions_workflow_quiet w self repo_name platform :
  quiet (CICDPipeline._create_github_actions_workflow w self repo_name platform)
        (returns reported).
Proof.
  unfold CICDPipeline._create_github_actions_workflow, CICDPipeline.github_base_url.
  quiet_steps; simpl; auto with shapes. by left.
Qed.

Lemma _setup_branch_protection_quiet w self repo_name :
  quiet (CICDPipeline._setup_branch_protection w self repo_name) (returns reported).
Proof.
  unfold CICDPipeline._setup_branch_protection, CICDPipeline.github_base_url.
  quiet_steps; simpl; auto with shapes. by left.
Qed.

Lemma create_environments_quiet w self repo_name envs created
      (Q : Outcome (list string) -> Prop) :
  (forall o, Q o) -> quiet (CICDPipeline.create_environments w self repo_name envs created) Q.
Proof.
  intros HQ. revert created. induction envs as [|env rest IH]; intros created; simpl.
  - apply quiet_ret; auto.
  - unfold CICDPipeline.github_base_url.
    destruct (opt_truthy _).
    + apply quiet_bind, quiet_ret. apply quiet_bind, quiet_request; [|intros; apply HQ].
      intros r. apply IH.
    + apply quiet_bind, quiet_raise. apply HQ.
Qed.

Lemma _create_deployment_environments_quiet w self repo_name platform :
  quiet (CICDPipeline._create_deployment_environments w self repo_name platform)
        (returns (fun d => exists b, dict_get "success" d = Some (VBool b))).
Proof.
  unfold CICDPipeline._create_deployment_environments.
  apply quiet_try_except, quiet_bind, create_environments_quiet.
  intros [created|e]; apply quiet_ret; simpl; eexists; reflexivity.
Qed.

Lemma setup_pipeline_quiet w self repo_name platform :
  quiet (CICDPipeline.setup_pipeline w self repo_name platform) (returns reported).
Proof.
  unfold CICDPipeline.setup_pipeline. apply quiet_try_except.
  destruct (negb _); [apply quiet_ret; simpl; auto with shapes|].
  eapply quiet_bind_returns; [apply _create_github_actions_workflow_quiet|].
  intros workflow_result [Hw|[m ->]]; apply quiet_bind, quiet_field.
  - rewrite Hw. simpl.
    eapply quiet_bind_returns; [apply _setup_branch_protection_quiet|].
    intros protection_result Hp.
    eapply quiet_bind_returns; [apply _create_deployment_environments_quiet|].
    intros env_result [b He].
    apply quiet_bind, quiet_field. rewrite Hw.
    apply quiet_bind, quiet_field.
    assert (exists v, dict_get "success" protection_result = Some v) as [v ->]
      by (destruct Hp as [->|[m ->]]; eexists; reflexivity).
    apply quiet_bind, quiet_field. rewrite He.
    apply quiet_ret. by left.
  - simpl. apply quiet_ret. simpl. auto with shapes.
Qed.

(** *** Business operations *)

(** [setup_operations] cannot fail: its legal, support, analytics and
    marketing steps always succeed. *)
Lemma setup_operations_quiet self app_url repo_name :
  quiet (BusinessOperations.setup_operations self app_url repo_name)
        (returns (fun d => dict_get "success" d = Some (VBool true))).
Proof.
  intros s. exists (fst (BusinessOperations.setup_operations self app_url repo_name s)), [].
  rewrite after_nil.
  unfold BusinessOperations.setup_operations, BusinessOperations._setup_legal_compliance,
    BusinessOperations._setup_customer_support, BusinessOperations._setup_analytics_tracking,
    BusinessOperations._setup_billing_management,
    BusinessOperations._setup_automated_marketing, try_except, bind, ret.
  destruct (negb (opt_truthy (BusinessOperations.stripe_secret_key self)));
    split; reflexivity.
Qed.

(** ** Runs with their states *)

Lemma wp_elim {A} (m : M A) s Phi :
  wp m s Phi -> exists o s', m s = (o, s') /\ Phi o s'.
Proof. unfold wp. intros H. exists (fst (m s)), (snd (m s)). by destruct (m s). Qed.

Lemma wp_intro {A} (m : M A) s o s' (Phi : Outcome A -> St -> Prop) :
  m s = (o, s') -> Phi o s' -> wp m s Phi.
Proof. unfold wp. by intros ->. Qed.

Lemma wp_conseq {A} (m : M A) s (Phi Psi : Outcome A -> St -> Prop) :
  wp m s Phi -> (forall o s', Phi o s' -> Psi o s') -> wp m s Psi.
Proof. unfold wp. auto. Qed.

Lemma wp_ret {A} (a : A) s (Phi : Outcome A -> St -> Prop) : Phi (Val a) s -> wp (ret a) s Phi.
Proof. auto. Qed.

Lemma wp_raise {A} e s (Phi : Outcome A -> St -> Prop) :
  Phi (Raise e) s -> wp (raise e) s Phi.
Proof. auto. Qed.

Lemma wp_bind {A B} (m : M A) (k : A -> M B) s (Phi : Outcome B -> St -> Prop) :
  wp m s (fun o s' => match o with
                      | Val a => wp (k a) s' Phi
                      | Raise e => Phi (Raise e) s'
                      end) ->
  wp (bind m k) s Phi.
Proof. unfold wp, bind. by destruct (m s) as [[a|e] s']. Qed.

Lemma wp_try_except {A} (body : M A) handler s (Phi : Outcome A -> St -> Prop) :
  wp body s (fun o s' => match o with
                         | Val a => Phi (Val a) s'
                         | Raise e => wp (handler e) s' Phi
                         end) ->
  wp (try_except body handler) s Phi.
Proof. unfold wp, try_except. by destruct (body s) as [[a|e] s']. Qed.

Lemma wp_try_finally {A} (body : M A) fin s (Phi : Outcome A -> St -> Prop) :
  wp body s (fun o s' =>
               wp fin s' (fun o' s'' => match o' with
                                        | Val _ => Phi o s''
                                        | Raise e => Phi (Raise e) s''
                                        end)) ->
  wp (try_finally body fin) s Phi.
Proof.
  unfold wp, try_finally. destruct (body s) as [o s']. simpl.
  by destruct (fin s') as [[u|e] s''].
Qed.

Lemma wp_log_append line s (Phi : Outcome unit -> St -> Prop) :
  Phi (Val tt) (logged s line) -> wp (log_append line) s Phi.
Proof. auto. Qed.

Lemma wp_int_time w s (Phi : Outcome Z -> St -> Prop) :
  Phi (Val (second_at w s)) s -> wp (int_time w) s Phi.
Proof. auto. Qed.

Lemma wp_field d k s (Phi : Outcome pyval -> St -> Prop) :
  match dict_get k d with
  | Some v => Phi (Val v) s
  | None => Phi (Raise (KeyError (VStr k))) s
  end ->
  wp (field d k) s Phi.
Proof. unfold wp, field, getitem. by destruct (dict_get k d). Qed.

Lemma wp_quiet {A} (m : M A) Q s (Phi : Outcome A -> St -> Prop) :
  quiet m Q -> (forall o evs, Q o -> Phi o (after s evs)) -> wp m s Phi.
Proof.
  intros H HP. destruct (H s) as (o & evs & E & HQ). eapply wp_intro; eauto.
Qed.

Lemma wp_returns {A} (m : M A) R s (Phi : Outcome A -> St -> Prop) :
  quiet m (returns R) -> (forall a evs, R a -> Phi (Val a) (after s evs)) -> wp m s Phi.
Proof.
  intros H HP. eapply wp_quiet; [exact H|]. intros [a|e] evs; simpl; [auto | tauto].
Qed.

(** ** The file-system side of a push *)

Lemma grown_refl s : grown s s.
Proof. repeat split; [set_solver | exists []; by rewrite app_nil_r]. Qed.

Lemma grown_trans s1 s2 s3 : grown s1 s2 -> grown s2 s3 -> grown s1 s3.
Proof.
  intros (L1 & C1 & D1 & e1 & T1) (L2 & C2 & D2 & e2 & T2).
  repeat split; [congruence | congruence | set_solver |].
  exists (e1 ++ e2)%list. by rewrite T2, T1, app_assoc.
Qed.

Lemma grown_after s evs : grown s (after s evs).
Proof. repeat split; [set_solver | by exists evs]. Qed.

Lemma tame_ret {A} (a : A) : tame (ret a).
Proof. intros s. exists (Val a), s. split; [reflexivity | apply grown_refl]. Qed.

Lemma tame_bind {A B} (m : M A) (k : A -> M B) :
  tame m -> (forall a, tame (k a)) -> tame (bind m k).
Proof.
  intros Hm Hk s. destruct (Hm s) as (o & s1 & E & G). unfold bind. rewrite E.
  destruct o as [a|e]; [| eauto].
  destruct (Hk a s1) as (o' & s2 & E' & G'). rewrite E'.
  eauto using grown_trans.
Qed.

Lemma tame_subprocess_run w argv : tame (subprocess_run w argv).
Proof.
  intros s. unfold subprocess_run. destruct (argv_strings argv) as [e|args].
  - exists (Raise e), s. split; [reflexivity | apply grown_refl].
  - destruct (run_reply w (trace s) args); eexists _, _;
      (split; [reflexivity | apply (grown_after s [EvRun args])]).
Qed.

Lemma tame_fs_action w ev : tame (fs_action w ev).
Proof.
  intros s. unfold fs_action.
  destruct (fs_error w (trace s) ev); eexists _, _;
    (split; [reflexivity | apply (grown_after s [ev])]).
Qed.

Lemma tame_glob w pattern : tame (glob w pattern).
Proof.
  intros s. eexists _, _. split; [reflexivity | apply (grown_after s [EvGlob pattern])].
Qed.

Lemma tame_isdir path : tame (isdir path).
Proof. intros s. eexists _, _. split; [reflexivity | apply grown_refl]. Qed.

Lemma tame_add_dir (path : string) :
  tame (fun s => (Val tt, {| trace := trace s; cwd := cwd s;
                             dirs := {[ path ]} ∪ dirs s; log := log s |})).
Proof.
  intros s. eexists _, _. split; [reflexivity|].
  repeat split; simpl; [set_solver | exists []; by rewrite app_nil_r].
Qed.

Lemma tame_copytree w src dst : tame (copytree w src dst).
Proof. apply tame_bind; [apply tame_fs_action | intros _; apply tame_add_dir]. Qed.

Lemma tame_copy_items w temp_dir items : tame (copy_items w temp_dir items).
Proof.
  induction items as [|item rest IH]; simpl; [apply tame_ret|].
  apply tame_bind; [apply tame_isdir|]. intros is_dir.
  apply tame_bind; [| intros _; exact IH].
  destruct is_dir; [apply tame_copytree | apply tame_fs_action].
Qed.

Lemma tame_git_steps w : tame (git_steps w).
Proof.
  unfold git_steps.
  repeat (apply tame_bind; [apply tame_subprocess_run | intros _]).
  apply tame_subprocess_run.
Qed.

(** When the three commands succeed, the push is among the new events. *)
Lemma git_steps_pushed w s s' :
  git_steps w s = (Val tt, s') -> exists evs, trace s' = (trace s ++ evs)%list /\ In git_push evs.
Proof.
  unfold git_steps, bind, subprocess_run. simpl.
  destruct (run_reply w (trace s) _); [| discriminate..].
  cbn [trace with_trace].
  destruct (run_reply w _ _); [| discriminate..].
  cbn [trace with_trace].
  destruct (run_reply w _ _); [| discriminate..].
  intros [= <-]. cbn [trace with_trace].
  eexists [_; _; _]. rewrite <- !app_assoc. split; [reflexivity|].
  right; right; left; reflexivity.
Qed.

Lemma wp_tame {A} (m : M A) s (Phi : Outcome A -> St -> Prop) :
  tame m -> (forall o s', m s = (o, s') -> grown s s' -> Phi o s') -> wp m s Phi.
Proof. intros H HP. destruct (H s) as (o & s' & E & G). eapply wp_intro; eauto. Qed.

(** A push that fails after the workspace was made. *)
Lemma pushed_failure w s temp s' m :
  fs_error w (trace s) (EvMakedirs temp) = None ->
  grown (made s temp) s' -> pushed w s temp (failure m) s'.
Proof.
  intros _ (L & C & D & evs & T). simpl in *.
  repeat split; [done | done | set_solver | | right; eauto | intros _; set_solver].
  exists evs. split; [by rewrite T, <- app_assoc | discriminate].
Qed.

Lemma push_handler_pushed w s temp s' e :
  fs_error w (trace s) (EvMakedirs temp) = None ->
  grown (made s temp) s' ->
  wp (match e with
      | CalledProcessError _ => ret (failure ("Git operation failed: " ++ exn_str e))
      | _ => ret (failure (exn_str e))
      end) s'
     (fun o s'' => exists d, o = Val d /\ pushed w s temp d s'').
Proof.
  intros Hfs G. destruct e; apply wp_ret; eexists; (split; [reflexivity|]);
    by apply pushed_failure.
Qed.

Lemma wp_makedirs w path s (Phi : Outcome unit -> St -> Prop) :
  match fs_error w (trace s) (EvMakedirs path) with
  | Some msg => Phi (Raise (OSError msg)) (after s [EvMakedirs path])
  | None => Phi (Val tt) (made s path)
  end ->
  wp (makedirs w path) s Phi.
Proof.
  unfold wp, makedirs, fs_action, bind.
  by destruct (fs_error w (trace s) (EvMakedirs path)).
Qed.

Lemma wp_getcwd s (Phi : Outcome string -> St -> Prop) :
  (cwd s ∈ dirs s -> Phi (Val (cwd s)) s) ->
  (forall msg, Phi (Raise (OSError msg)) s) ->
  wp getcwd s Phi.
Proof.
  intros Hin Hout. unfold wp, getcwd. case_bool_decide; simpl; auto.
Qed.

Lemma wp_chdir_existing path s (Phi : Outcome unit -> St -> Prop) :
  path ∈ dirs s -> Phi (Val tt) (entered s path) -> wp (chdir path) s Phi.
Proof.
  intros Hin H. unfold wp, chdir. by case_bool_decide.
Qed.

(** Every push ends: it returns a dictionary, leaves the log and the
    working directory as they were, starts by making its workspace, and
    leaves the workspace in place. *)
Lemma push_run w mvp_path clone_url s :
  exists d s', _push_mvp_files w mvp_path clone_url s = (Val d, s')
               /\ pushed w s (temp_dir_at (second_at w s)) d s'.
Proof.
  set (temp := temp_dir_at (second_at w s)).
  cut (wp (_push_mvp_files w mvp_path clone_url) s
          (fun o s' => exists d, o = Val d /\ pushed w s temp d s')).
  { intros H. apply wp_elim in H as (o & s' & E & d & -> & P). eauto. }
  unfold _push_mvp_files.
  apply wp_try_except, wp_bind, wp_int_time. fold temp.
  apply wp_bind, wp_makedirs.
  destruct (fs_error w (trace s) (EvMakedirs temp)) as [msg|] eqn:Hfs.
  { (* the workspace could not be made *)
    apply wp_ret. eexists; split; [reflexivity|].
    repeat split; simpl; [set_solver | | right; eauto | congruence].
    exists []. split; [reflexivity | intros [=]]. }
  (* git clone *)
  apply wp_bind, wp_tame; [apply tame_subprocess_run|].
  intros [[]|e] s1 _ G1; [| by apply push_handler_pushed].
  (* glob *)
  apply wp_bind, wp_tame; [apply tame_glob|].
  intros [items|e] s2 _ G2; [| apply push_handler_pushed; eauto using grown_trans].
  pose proof (grown_trans _ _ _ G1 G2) as G12.
  (* the copies *)
  apply wp_bind, wp_tame; [apply tame_copy_items|].
  intros [[]|e] s3 _ G3; [| apply push_handler_pushed; eauto using grown_trans].
  pose proof (grown_trans _ _ _ G12 G3) as G13.
  (* os.getcwd() *)
  apply wp_bind, wp_getcwd;
    [| intros msg; apply wp_ret; eexists; split; [reflexivity | by apply pushed_failure]].
  intros Hcwd.
  (* os.chdir(temp_dir) *)
  assert (temp ∈ dirs s3) as Htemp.
  { destruct G13 as (_ & _ & D & _). simpl in D. set_solver. }
  apply wp_bind, wp_chdir_existing; [exact Htemp|].
  (* the three commands, and the way back *)
  apply wp_bind, wp_try_finally.
  change (subprocess_run w [VStr "git"; VStr "add"; VStr "."] ;;; _)%py
    with (git_steps w).
  apply wp_tame; [apply tame_git_steps|].
  intros o s4 E4 (L4 & C4 & D4 & evs4 & T4). simpl in L4, C4, D4, T4.
  apply wp_chdir_existing; [set_solver|].
  destruct G13 as (L & C & D & evs & T). simpl in L, C, D, T.
  destruct o as [[]|e].
  - (* pushed *)
    apply wp_ret. eexists; split; [reflexivity|].
    apply git_steps_pushed in E4 as (evs' & T' & Hin). simpl in T'.
    repeat split; simpl;
      [congruence | congruence | set_solver | | by left
      | intros _; clear -D4 Htemp; set_solver].
    exists (evs ++ [EvChdir temp] ++ evs' ++ [EvChdir (cwd s3)])%list. split.
    + rewrite T', T. rewrite <- !app_assoc. reflexivity.
    + intros _. rewrite !in_app_iff. tauto.
  - (* a command failed *)
    assert (forall m, pushed w s temp (failure m) (entered s4 (cwd s3))) as P.
    { intros m. repeat split; simpl;
        [congruence | congruence | set_solver | | right; eauto
        | intros _; clear -D4 Htemp; set_solver].
      exists (evs ++ [EvChdir temp] ++ evs4 ++ [EvChdir (cwd s3)])%list.
      split; [rewrite T4, T, <- !app_assoc; reflexivity | intros [=]]. }
    destruct e; apply wp_ret; eexists; (split; [reflexivity | apply P]).
Qed.

Lemma wp_request w m url t s (Phi : Outcome Response -> St -> Prop) :
  match http_reply w (trace s) m url t with
  | HttpRaise msg => Phi (Raise (RequestException msg)) (after s [EvHttp m url t])
  | HttpResponse r => Phi (Val r) (after s [EvHttp m url t])
  end ->
  wp (request w m url t) s Phi.
Proof. unfold wp, request. by destruct (http_reply w (trace s) m url t). Qed.

(** ** The verifier, request by request *)

Lemma verify_run w app_url s :
  _verify_deployment w app_url s =
  match http_reply w (trace s) GET (py_str app_url ++ "/api/health") (Some 30) with
  | HttpRaise msg => (Val (verification_error msg), after s [health_probe app_url])
  | HttpResponse r1 =>
      match http_reply w (trace s ++ [health_probe app_url]) GET (py_str app_url) (Some 30) with
      | HttpRaise msg =>
          (Val (verification_error msg), after s [health_probe app_url; root_probe app_url])
      | HttpResponse r2 =>
          (Val [("health_check", VBool (status_code r1 =? 200));
                ("main_page", VBool (status_code r2 =? 200));
                ("overall_status",
                 VBool ((status_code r1 =? 200) && (status_code r2 =? 200)))],
           after s [health_probe app_url; root_probe app_url])
      end
  end.
Proof.
  unfold _verify_deployment, try_except, bind, request, ret, health_probe, root_probe.
  destruct (http_reply w (trace s) GET _ (Some 30)) as [msg|r1]; [reflexivity|].
  cbn [trace with_trace].
  destruct (http_reply w _ GET (py_str app_url) (Some 30)) as [msg|r2];
    unfold after, with_trace; cbn [trace cwd dirs log]; rewrite <- app_assoc; reflexivity.
Qed.

Lemma _verify_deployment_quiet w app_url :
  quiet (_verify_deployment w app_url) (returns (fun _ => True)).
Proof. unfold _verify_deployment. quiet_steps; simpl; auto. Qed.

(** ** The email configurator, request by request *)

Lemma setup_notifications_run w self app_url repo_name s :
  exists d, EmailService.setup_notifications w self app_url repo_name s
            = (Val d, after s (spec_email_attempt self))
            /\ reported d.
Proof.
  unfold EmailService.setup_notifications, spec_email_attempt, try_except.
  destruct (opt_truthy (EmailService.mailchimp_api_key self)) eqn:H1.
  { unfold EmailService._setup_mailchimp_notifications, EmailService.mailchimp_base_url,
      try_except, bind, request, ret. rewrite H1.
    change (with_trace (trace s ++ [?e]) s) with (after s [e]).
    destruct (http_reply w (trace s) POST _ None) as [msg|r];
      [eexists; split; [reflexivity | right; eauto]|].
    destruct (_ || _); eexists; (split; [reflexivity|]); [by left | right; eauto]. }
  destruct (opt_truthy (EmailService.sendgrid_api_key self)) eqn:H2.
  { unfold EmailService._setup_sendgrid_notifications, EmailService.sendgrid_base_url,
      try_except, bind, request, ret. rewrite H2.
    change (with_trace (trace s ++ [?e]) s) with (after s [e]).
    change ("https://api.sendgrid.com/v3" ++ "/templates")
      with "https://api.sendgrid.com/v3/templates".
    destruct (http_reply w (trace s) POST _ None) as [msg|r];
      [eexists; split; [reflexivity | right; eauto]|].
    destruct (_ =? _); [| eexists; split; [reflexivity | right; eauto]].
    unfold json. destruct (json_doc r) as [v|];
      [| eexists; split; [reflexivity | right; eauto]].
    unfold ret, getitem.
    destruct v as [| | | | |d]; try (eexists; split; [reflexivity | right; eauto]).
    destruct (dict_get "id" d); eexists; (split; [reflexivity|]); [by left | right; eauto]. }
  destruct (opt_truthy (EmailService.mailgun_api_key self)) eqn:H3.
  { unfold EmailService._setup_mailgun_notifications, EmailService.mailgun_base_url,
      try_except, bind, request, ret. rewrite H3.
    change (with_trace (trace s ++ [?e]) s) with (after s [e]).
    destruct (http_reply w (trace s) GET _ None) as [msg|r];
      [eexists; split; [reflexivity | right; eauto]|].
    destruct (_ =? _); eexists; (split; [reflexivity|]); [by left | right; eauto]. }
  rewrite after_nil. eexists; split; [reflexivity | right; eauto].
Qed.

(** ** The pipeline, block by block *)

Lemma wp_failed {A} msg s (Phi : Outcome (step A) -> St -> Prop) :
  Phi (Val (Return (Failed msg (log s)))) s -> wp (failed msg) s Phi.
Proof. auto. Qed.

Lemma dict_get_failure_success m : dict_get "success" (failure m) = Some (VBool false).
Proof. reflexivity. Qed.

Lemma dict_get_failure_error m : dict_get "error" (failure m) = Some (VStr m).
Proof. reflexivity. Qed.

Ltac wp_step :=
  lazymatch goal with
  | |- wp (bind (log_append _) _) _ _ => apply wp_bind, wp_log_append
  | |- wp (bind (int_time _) _) _ _ => apply wp_bind, wp_int_time
  | |- wp (bind (field _ _) _) _ _ => apply wp_bind, wp_field
  | |- wp (bind (ret _) _) _ _ => apply wp_bind, wp_ret
  | |- wp (log_append _) _ _ => apply wp_log_append
  | |- wp (ret _) _ _ => apply wp_ret
  | |- wp (failed _) _ _ => apply wp_failed
  | |- wp (let _ := _ in _) _ _ => cbv zeta
  end.

Ltac wp_steps := repeat first [ wp_step | progress cbv beta iota ].

(** The stages before platform selection never raise.  They either
    return a failure of the repository creation or of the push, or they
    fall through with the repository created and the sources pushed. *)
Lemma to_selection_run w self mvp_path s :
  exists x s1,
    to_selection w self mvp_path s = (Val x, s1) /\ at_selection w self s x s1.
Proof.
  cut (wp (to_selection w self mvp_path) s
          (fun o s1 => exists x, o = Val x /\ at_selection w self s x s1)).
  { intros H. apply wp_elim in H as (o & s1 & E & x & -> & H). eauto. }
  unfold to_selection. wp_steps.
  change (second_at w (logged s _)) with (second_at w s).
  apply wp_bind.
  destruct (create_repository_run w
              ("ai-content-optimizer-" ++ str_of_Z (second_at w s))
              "AI-Powered Content Optimizer MVP - Autonomous SaaS Factory" false
              (logged s "🐙 Creating GitHub repository...")) as (d & E & Hd).
  eapply wp_intro; [exact E|]. wp_steps.
  destruct Hd as [[Hs (u & c & Hu & Hc)] | [m ->]].
  2: { (* the repository could not be created *)
       rewrite dict_get_failure_success. cbn [truthy negb]. wp_steps.
       rewrite dict_get_failure_error. wp_steps.
       eexists; split; [reflexivity|]. split; [reflexivity|].
       left. exists m. split; reflexivity. }
  rewrite Hs. cbn [truthy negb]. wp_steps. rewrite Hu. wp_steps. rewrite Hc. wp_steps.
  apply wp_bind.
  match goal with |- wp (_push_mvp_files w mvp_path c) ?s0 _ =>
    destruct (push_run w mvp_path c s0) as (pd & s2 & Ep & (L & C & D & (evs & T & Hin) & Hok & _))
  end.
  eapply wp_intro; [exact Ep|]. wp_steps.
  cbn [log cwd trace logged after with_trace] in L, C, T.
  destruct Hok as [-> | [m ->]].
  2: { (* the push failed *)
       rewrite dict_get_failure_success. cbn [truthy negb]. wp_steps.
       rewrite dict_get_failure_error. wp_steps.
       eexists; split; [reflexivity|]. split; [exact C|].
       right. eexists m, u, _.
       split.
       - rewrite L. rewrite <- !app_assoc. reflexivity.
       - rewrite T. rewrite <- !app_assoc. reflexivity. }
  change (dict_get "success" [("success", VBool true)]) with (Some (VBool true)).
  cbn [truthy negb]. wp_steps.
  apply wp_bind.
  eapply wp_returns; [apply setup_environment_variables_quiet|].
  intros b evs' _. wp_steps.
  eexists; split; [reflexivity|]. split; [exact C|].
  eexists b, _.
  cbn [log trace logged after with_trace repo_url repo_name env_vars].
  repeat split.
  - rewrite L. unfold lines_to_selection. rewrite <- !app_assoc. destruct b; reflexivity.
  - rewrite T. rewrite <- !app_assoc. reflexivity.
  - right. rewrite in_app_iff. left. by apply Hin.
Qed.

(** *** The outermost boundary *)

Lemma deploy_mvp_unfold w self mvp_path platform custom_domain s :
  deploy_mvp w self mvp_path platform custom_domain s
  = try_except (deploy_body w self mvp_path platform custom_domain) on_exception (fresh s).
Proof. reflexivity. Qed.

Lemma on_exception_run e s :
  on_exception e s
  = (Val (Failed (exn_str e) (log s ++ ["❌ Deployment failed: " ++ exn_str e])),
     logged s ("❌ Deployment failed: " ++ exn_str e)).
Proof. reflexivity. Qed.

(** A successful result of the guarded body is the result of the body. *)
Lemma guarded_success (m : M DeployResult) s r s' :
  try_except m on_exception s = (Val r, s') -> success r = true -> m s = (Val r, s').
Proof.
  unfold try_except. destruct (m s) as [[r0|e] s0]; [done|].
  rewrite on_exception_run. intros [= <- <-]. discriminate.
Qed.

Lemma bind_val_inv {A B} (m : M A) (k : A -> M B) s b s' :
  bind m k s = (Val b, s') -> exists a s1, m s = (Val a, s1) /\ k a s1 = (Val b, s').
Proof. unfold bind. destruct (m s) as [[a|e] s1]; [eauto | discriminate]. Qed.

(** *** Substrings *)

Lemma is_prefix_app p s : is_prefix p (p ++ s) = true.
Proof.
  induction p as [|c p IH]; simpl; [by destruct s|].
  by rewrite Ascii.eqb_refl, IH.
Qed.

Lemma is_substring_prefix p s : is_prefix p s = true -> is_substring p s = true.
Proof. intros H. destruct s; simpl; by rewrite H. Qed.

Lemma is_substring_app a p s : is_substring p (a ++ p ++ s) = true.
Proof.
  induction a as [|c a IH].
  - apply is_substring_prefix. exact (is_prefix_app p s).
  - change (is_prefix p (String c a ++ p ++ s) || is_substring p (a ++ p ++ s) = true).
    rewrite IH. apply orb_true_r.
Qed.

(** *** From the start of the run to platform selection *)

(** A platform that is not registered ends the run at selection. *)
Lemma deploy_unregistered w self mvp_path platform custom_domain s c s1 :
  lookup_platform platform (platforms self) = None ->
  to_selection w self mvp_path (fresh s) = (Val (Next c), s1) ->
  deploy_mvp w self mvp_path platform custom_domain s
  = (Val (Failed (not_available self platform)
                 (log s1 ++ ["🚀 Deploying to " ++ title platform ++ "..."])),
     logged s1 ("🚀 Deploying to " ++ title platform ++ "...")).
Proof.
  intros Hreg Hsel. rewrite deploy_mvp_unfold.
  unfold try_except, deploy_body, to_provisioned, bind. rewrite Hsel.
  unfold select_and_provision, bind, log_append. rewrite Hreg. reflexivity.
Qed.

(** A run that returns before platform selection. *)
Lemma deploy_returned_early w self mvp_path platform custom_domain s r s1 :
  to_selection w self mvp_path (fresh s) = (Val (Return r), s1) ->
  deploy_mvp w self mvp_path platform custom_domain s = (Val r, s1).
Proof.
  intros Hsel. rewrite deploy_mvp_unfold.
  unfold try_except, deploy_body, to_provisioned, bind. by rewrite Hsel.
Qed.

(** * The claims *)

(** C3.  [deploy_mvp] never raises: whatever the world answers, it returns
    a result.  When the body of its [try] raises [e] with the log [l]
    accumulated so far, the result is [{success: False, error: str(e)}]
    and carries [l], followed by the line that reports the exception. *)
Theorem deploy_mvp_never_raises w self mvp_path platform custom_domain s :
  exists r s',
    deploy_mvp w self mvp_path platform custom_domain s = (Val r, s')
    /\ (forall e s1,
          deploy_body w self mvp_path platform custom_domain (fresh s) = (Raise e, s1) ->
          r = Failed (exn_str e) (log s1 ++ ["❌ Deployment failed: " ++ exn_str e])
          /\ success r = false
          /\ trace s' = trace s1)
    /\ (forall r0 s1,
          deploy_body w self mvp_path platform custom_domain (fresh s) = (Val r0, s1) ->
          r = r0 /\ s' = s1).
Proof.
  rewrite deploy_mvp_unfold. unfold try_except.
  destruct (deploy_body w self mvp_path platform custom_domain (fresh s)) as [[r0|e0] s0].
  - exists r0, s0. split; [reflexivity|]. split; [intros e s1 [=] | by intros r1 s1 [= <- <-]].
  - rewrite on_exception_run. eexists _, _. split; [reflexivity|].
    split; [| intros r1 s1 [=]].
    intros e s1 [= <- <-]. repeat split.
Qed.

Lemma wp_eq {A} (m : M A) s x : wp m s (fun o s' => (o, s') = x) -> m s = x.
Proof. unfold wp. by destruct (m s). Qed.

(** The run when the repository cannot be created. *)
Lemma to_selection_repo_failure w self mvp_path s m s1 :
  GitHubAutomation.create_repository w (repo_name_at w s)
    "AI-Powered Content Optimizer MVP - Autonomous SaaS Factory" false
    (logged (fresh s) "🐙 Creating GitHub repository...") = (Val (failure m), s1) ->
  to_selection w self mvp_path (fresh s)
  = (Val (Return (Failed ("GitHub repository creation failed: " ++ m)
                         ["🐙 Creating GitHub repository..."])),
     s1).
Proof.
  intros E. apply wp_eq. unfold to_selection. wp_steps.
  apply wp_bind. eapply wp_intro; [exact E|]. wp_steps.
  rewrite dict_get_failure_success. cbn [truthy negb]. wp_steps.
  rewrite dict_get_failure_error. wp_steps.
  assert (log s1 = ["🐙 Creating GitHub repository..."]) as ->; [|reflexivity].
  destruct (create_repository_run w (repo_name_at w s)
              "AI-Powered Content Optimizer MVP - Autonomous SaaS Factory" false
              (logged (fresh s) "🐙 Creating GitHub repository...")) as (d' & E' & _).
  rewrite E' in E. by injection E as _ <-.
Qed.

(** C4.  When the creation of the repository fails, [deploy_mvp] returns
    [success = False] with an error that contains "repository creation
    failed", the log holds one line, and the request that tried to create
    the repository is the only effect of the run: nothing is pushed, no
    secret is set, no platform is called. *)
Theorem repo_creation_failure_halts w self mvp_path platform custom_domain s d v :
  fst (repo_attempt w s) = Val d ->
  dict_get "success" d = Some v ->
  truthy v = false ->
  exists r s',
    deploy_mvp w self mvp_path platform custom_domain s = (Val r, s')
    /\ success r = false
    /\ (exists err, result_error r = Some err
                    /\ is_substring "repository creation failed" err = true)
    /\ result_log r = ["🐙 Creating GitHub repository..."]
    /\ List.length (result_log r) = 1%nat
    /\ trace s' = (trace s ++ [create_repo_request])%list.
Proof.
  intros Hd Hv Ht.
  destruct (create_repository_run w (repo_name_at w s)
              "AI-Powered Content Optimizer MVP - Autonomous SaaS Factory" false
              (logged (fresh s) "🐙 Creating GitHub repository...")) as (d' & E & Hd').
  unfold repo_attempt in Hd. rewrite E in Hd. injection Hd as ->.
  destruct (reported_falsy d v) as [m ->]; [| exact Hv | exact Ht |].
  { destruct Hd' as [[H _]|H]; [by left | by right]. }
  rewrite (deploy_returned_early w self mvp_path platform custom_domain s _ _
             (to_selection_repo_failure w self mvp_path s m _ E)).
  eexists _, _. split; [reflexivity|]. repeat split.
  exists ("GitHub repository creation failed: " ++ m). split; [reflexivity|].
  exact (is_substring_app "GitHub " "repository creation failed" (": " ++ m)).
Qed.

Lemma repo_creation_failure_halts_witness :
  (fst (repo_attempt outage home) = Val (failure "GitHub API error: 503 - body")
   /\ dict_get "success" (failure "GitHub API error: 503 - body") = Some (VBool false)
   /\ truthy (VBool false) = false)
  /\ exists r s',
       deploy_mvp outage on_railway "/app" "railway" None home = (Val r, s')
       /\ success r = false
       /\ (exists err, result_error r = Some err
                       /\ is_substring "repository creation failed" err = true)
       /\ result_log r = ["🐙 Creating GitHub repository..."]
       /\ List.length (result_log r) = 1%nat
       /\ trace s' = (trace home ++ [create_repo_request])%list.
Proof.
  split.
  - repeat split; vm_compute; reflexivity.
  - apply (repo_creation_failure_halts outage on_railway "/app" "railway" None home
             (failure "GitHub API error: 503 - body") (VBool false));
      vm_compute; reflexivity.
Defined.

(** C1, as the code has it.  A platform that is not registered makes the
    run fail, but the check comes at platform selection, after the
    repository, the push and the secrets: every such run returns
    [success = False]; when it reaches platform selection the error is
    "Platform Y not available. Available: " followed by the Python list of
    the registered names, and by then the repository has been created and
    the sources pushed. *)
Theorem unregistered_platform_fails_at_selection w self mvp_path platform custom_domain s :
  lookup_platform platform (platforms self) = None ->
  exists r s',
    deploy_mvp w self mvp_path platform custom_domain s = (Val r, s')
    /\ success r = false
    /\ forall c s1,
         to_selection w self mvp_path (fresh s) = (Val (Next c), s1) ->
         result_error r = Some (not_available self platform)
         /\ List.length (result_log r) = 7%nat
         /\ exists evs, trace s' = (trace s ++ evs)%list
                        /\ In create_repo_request evs /\ In git_push evs.
Proof.
  intros Hreg.
  destruct (to_selection_run w self mvp_path (fresh s)) as ([r|c] & s1 & E & _ & Hx).
  - rewrite (deploy_returned_early _ _ _ platform custom_domain _ _ _ E).
    exists r, s1. split; [reflexivity|]. split.
    + destruct Hx as [(m & -> & _) | (m & u & evs & -> & _)]; reflexivity.
    + intros c s1'. rewrite E. intros [=].
  - rewrite (deploy_unregistered _ _ _ _ custom_domain _ _ _ Hreg E).
    eexists _, _. split; [reflexivity|]. split; [reflexivity|].
    intros c' s1'. rewrite E. intros [= <- <-]. split; [reflexivity|].
    destruct Hx as (b & evs & L & T & Hin & _). split.
    { simpl. rewrite L. by destruct b. }
    exists (create_repo_request :: evs). split; [exact T|].
    split; [by left | by right].
Qed.

Lemma unregistered_platform_fails_at_selection_witness :
  lookup_platform "vercel" (platforms on_railway) = None
  /\ exists r s',
       deploy_mvp app_not_up on_railway "/app" "vercel" None home = (Val r, s')
       /\ success r = false
       /\ forall c s1,
            to_selection app_not_up on_railway "/app" (fresh home) = (Val (Next c), s1) ->
            result_error r = Some (not_available on_railway "vercel")
            /\ List.length (result_log r) = 7%nat
            /\ exists evs, trace s' = (trace home ++ evs)%list
                           /\ In create_repo_request evs /\ In git_push evs.
Proof.
  split.
  - reflexivity.
  - apply (unregistered_platform_fails_at_selection app_not_up on_railway "/app" "vercel"
             None home).
    reflexivity.
Defined.

Lemma unregistered_platform_counterexample :
  lookup_platform "vercel" (platforms on_railway) = None
  /\ fst (deploy_mvp app_not_up on_railway "/app" "vercel" None home)
     = Val (Failed "Platform vercel not available. Available: ['railway']"
                   ["🐙 Creating GitHub repository...";
                    "✅ Repository created: https://github.com/acme/app";
                    "📁 Pushing MVP files to repository...";
                    "✅ MVP files pushed successfully";
                    "🔐 Setting up environment variables...";
                    "⚠️ Environment variable setup had issues";
                    "🚀 Deploying to Vercel..."])
  /\ In create_repo_request (trace (snd (deploy_mvp app_not_up on_railway "/app" "vercel" None home)))
  /\ In git_push (trace (snd (deploy_mvp app_not_up on_railway "/app" "vercel" None home))).
Proof.
  split; [reflexivity|]. split; [vm_compute; reflexivity|].
  split; vm_compute; tauto.
Qed.

(** C2, as the code has it.  When the platform is not registered and the
    run reaches platform selection (the repository was created and the
    sources pushed), [deploy_mvp] returns [success = False], the error
    lists the registered platform names, the log holds the lines of the
    repository, push and secrets stages followed by one line, which
    announces the deployment, and nothing happens after selection.  The
    announcement carries the name of the platform in title case; it is
    stated in full for the names that are ASCII text. *)
Theorem unregistered_platform_log w self mvp_path platform custom_domain s c s1 :
  lookup_platform platform (platforms self) = None ->
  to_selection w self mvp_path (fresh s) = (Val (Next c), s1) ->
  exists b announcement r s',
    deploy_mvp w self mvp_path platform custom_domain s = (Val r, s')
    /\ success r = false
    /\ result_error r
       = Some ("Platform " ++ platform ++ " not available. Available: "
               ++ py_repr (VList (List.map (fun ka => VStr (fst ka)) (platforms self))))
    /\ result_log r = (lines_to_selection (repo_url c) b ++ [announcement])%list
    /\ is_prefix "🚀 Deploying to " announcement = true
    /\ (is_ascii platform = true ->
        announcement = "🚀 Deploying to " ++ title platform ++ "...")
    /\ trace s' = trace s1.
Proof.
  intros Hreg E.
  rewrite (deploy_unregistered _ _ _ _ custom_domain _ _ _ Hreg E).
  destruct (to_selection_run w self mvp_path (fresh s)) as (x & s1' & E' & _ & Hx).
  rewrite E in E'. injection E' as <- <-.
  destruct Hx as (b & evs & L & _).
  exists b, ("🚀 Deploying to " ++ title platform ++ "..."). eexists _, _.
  split; [reflexivity|]. split; [reflexivity|]. split; [reflexivity|].
  split; [simpl; by rewrite L|]. split; [apply is_prefix_app|].
  split; [intros _; reflexivity | reflexivity].
Qed.

Lemma unregistered_platform_log_witness :
  (lookup_platform "vercel" (platforms on_railway) = None
   /\ to_selection app_not_up on_railway "/app" (fresh home)
      = (Val (Next {| repo_name := "ai-content-optimizer-1753843786";
                      repo_url := VStr "https://github.com/acme/app";
                      env_vars := _prepare_environment_variables on_railway |}),
         snd (to_selection app_not_up on_railway "/app" (fresh home))))
  /\ exists b announcement r s',
       deploy_mvp app_not_up on_railway "/app" "vercel" None home = (Val r, s')
       /\ success r = false
       /\ result_error r
          = Some ("Platform " ++ "vercel" ++ " not available. Available: "
                  ++ py_repr (VList (List.map (fun ka => VStr (fst ka)) (platforms on_railway))))
       /\ result_log r
          = (lines_to_selection (VStr "https://github.com/acme/app") b
             ++ [announcement])%list
       /\ is_prefix "🚀 Deploying to " announcement = true
       /\ (is_ascii "vercel" = true -> announcement = "🚀 Deploying to " ++ title "vercel" ++ "...")
       /\ trace s' = trace (snd (to_selection app_not_up on_railway "/app" (fresh home))).
Proof.
  assert (to_selection app_not_up on_railway "/app" (fresh home)
          = (Val (Next {| repo_name := "ai-content-optimizer-1753843786";
                          repo_url := VStr "https://github.com/acme/app";
                          env_vars := _prepare_environment_variables on_railway |}),
             snd (to_selection app_not_up on_railway "/app" (fresh home)))) as E
    by (vm_compute; reflexivity).
  split.
  - split; [reflexivity | exact E].
  - exact (unregistered_platform_log app_not_up on_railway "/app" "vercel" None home _ _
             eq_refl E).
Defined.

Lemma unregistered_platform_log_counterexample :
  lookup_platform "vercel" (platforms on_railway) = None
  /\ fst (deploy_mvp outage on_railway "/app" "vercel" None home)
     = Val (Failed "GitHub repository creation failed: GitHub API error: 503 - body"
                   ["🐙 Creating GitHub repository..."])
  /\ is_substring "railway"
       "GitHub repository creation failed: GitHub API error: 503 - body" = false.
Proof. repeat split; vm_compute; reflexivity. Qed.

(** C6, as the code has it.  The verifier probes the health path under
    the URL and, only when that request got a response, the URL itself,
    each with a timeout of 30; it never raises.  [overall_status] is true
    exactly when both requests got a response with status 200.  When
    either request times out or fails, all three flags are false and
    [error] holds the message.  Whatever the verifier returns, the result
    of the deployment carries it and has [success = True]. *)
Theorem verification_probes w app_url s :
  let reply1 := http_reply w (trace s) GET (py_str app_url ++ "/api/health") (Some 30) in
  let reply2 := http_reply w (trace s ++ [health_probe app_url]) GET (py_str app_url) (Some 30) in
  exists d evs,
    _verify_deployment w app_url s = (Val d, after s evs)
    /\ evs = match reply1 with
             | HttpRaise _ => [health_probe app_url]
             | HttpResponse _ => [health_probe app_url; root_probe app_url]
             end
    /\ (dict_get "overall_status" d = Some (VBool true) <->
        exists r1 r2, reply1 = HttpResponse r1 /\ reply2 = HttpResponse r2
                      /\ status_code r1 = 200 /\ status_code r2 = 200)
    /\ (forall msg,
          reply1 = HttpRaise msg
          \/ (exists r1, reply1 = HttpResponse r1 /\ reply2 = HttpRaise msg) ->
          d = verification_error msg)
    /\ forall repo_url platform deploy_result s0,
         exists r v s1,
           verify_block w app_url repo_url platform deploy_result s0 = (Val r, s1)
           /\ fst (_verify_deployment w app_url
                     (logged s0 "🔍 Running final verification...")) = Val v
           /\ result_verification r = Some v
           /\ success r = true.
Proof.
  intros reply1 reply2. rewrite verify_run. fold reply1 reply2.
  assert (forall repo_url platform deploy_result s0,
             exists r v s1,
               verify_block w app_url repo_url platform deploy_result s0 = (Val r, s1)
               /\ fst (_verify_deployment w app_url
                         (logged s0 "🔍 Running final verification...")) = Val v
               /\ result_verification r = Some v
               /\ success r = true) as Hblock.
  { intros repo_url platform deploy_result s0.
    destruct (_verify_deployment_quiet w app_url
                (logged s0 "🔍 Running final verification...")) as ([v|e] & evs & E & H);
      [| destruct H].
    unfold verify_block, bind, log_append. fold (logged s0 "🔍 Running final verification...").
    rewrite E. eexists _, v, _. split; [reflexivity|]. repeat split. }
  destruct reply1 as [msg1|r1] eqn:E1.
  { eexists _, _. split; [reflexivity|]. split; [reflexivity|]. split; [|split; [|exact Hblock]].
    - split; [intros [=] | intros (r1 & r2 & [=] & _)].
    - intros msg [[= ->] | (r1 & [=] & _)]. reflexivity. }
  destruct reply2 as [msg2|r2] eqn:E2.
  { eexists _, _. split; [reflexivity|]. split; [reflexivity|]. split; [|split; [|exact Hblock]].
    - split; [intros [=] | intros (r1' & r2 & _ & [=] & _)].
    - intros msg [[=] | (r1' & _ & [= ->])]. reflexivity. }
  eexists _, _. split; [reflexivity|]. split; [reflexivity|]. split; [|split; [|exact Hblock]].
  - change (dict_get "overall_status" _)
      with (Some (VBool ((status_code r1 =? 200) && (status_code r2 =? 200)))).
    split.
    + intros [= H]. apply andb_true_iff in H as [H1 H2].
      exists r1, r2. repeat split; by apply Z.eqb_eq.
    + intros (r1' & r2' & [= <-] & [= <-] & -> & ->). reflexivity.
  - intros msg [[=] | (r1' & _ & [=])].
Qed.

Lemma verification_probes_counterexample :
  trace (snd (_verify_deployment timing_out (VStr "https://app.example") home))
  = [health_probe (VStr "https://app.example")]
  /\ fst (_verify_deployment timing_out (VStr "https://app.example") home)
     = Val (verification_error "Read timed out. (read timeout=30)").
Proof. split; reflexivity. Qed.

(** C9.  For every credential map the email configurator makes at most
    one request, to the backend of the first credential present in the
    order Mailchimp, SendGrid, Mailgun, and never raises; with no email
    credential it makes no request and returns a failure.  A credential
    is present when it is a non-empty string, which is the test of the
    configurator itself. *)
Theorem email_backend_choice w credentials app_url repo_name s :
  let self := EmailService.init credentials in
  let present k := opt_truthy (cred_get credentials k) in
  exists d,
    EmailService.setup_notifications w self app_url repo_name s
    = (Val d, after s (spec_email_attempt self))
    /\ (List.length (spec_email_attempt self)
        = if present "MAILCHIMP_API_KEY" || present "SENDGRID_API_KEY"
             || present "MAILGUN_API_KEY" then 1%nat else 0%nat)
    /\ (present "MAILCHIMP_API_KEY" || present "SENDGRID_API_KEY"
        || present "MAILGUN_API_KEY" = false ->
        d = failure "No email service credentials available").
Proof.
  intros self present.
  destruct (setup_notifications_run w self app_url repo_name s) as (d & E & _).
  exists d. split; [exact E|].
  revert E. unfold EmailService.setup_notifications, spec_email_attempt, try_except.
  change (EmailService.mailchimp_api_key self) with (cred_get credentials "MAILCHIMP_API_KEY").
  change (EmailService.sendgrid_api_key self) with (cred_get credentials "SENDGRID_API_KEY").
  change (EmailService.mailgun_api_key self) with (cred_get credentials "MAILGUN_API_KEY").
  fold (present "MAILCHIMP_API_KEY") (present "SENDGRID_API_KEY") (present "MAILGUN_API_KEY").
  destruct (present "MAILCHIMP_API_KEY"); [intros _; split; [reflexivity | intros [=]]|].
  destruct (present "SENDGRID_API_KEY"); [intros _; split; [reflexivity | intros [=]]|].
  destruct (present "MAILGUN_API_KEY"); [intros _; split; [reflexivity | intros [=]]|].
  unfold ret. intros [= <- _]. split; reflexivity.
Qed.



(** *** From the deployed application on *)

(** Once the application is deployed, what is left of the run is the
    domain step and the stages after it, under the outermost [try]. *)
Lemma deploy_from_provisioned w self mvp_path platform custom_domain s c dr u s1 :
  to_provisioned w self mvp_path platform (fresh s) = (Val (Next (c, dr, u)), s1) ->
  deploy_mvp w self mvp_path platform custom_domain s
  = try_except
      (bind (domain_block w self custom_domain u)
            (fun app_url => after_domain w self app_url (repo_url c) (repo_name c) platform dr))
      on_exception s1.
Proof.
  intros H. rewrite deploy_mvp_unfold. unfold try_except, deploy_body.
  unfold bind at 1. rewrite H. reflexivity.
Qed.

(** What a collaborator returned, in any run, is what its description says. *)
Lemma quiet_val {A} (m : M A) R s a s' :
  quiet m (returns R) -> m s = (Val a, s') -> R a /\ exists evs, s' = after s evs.
Proof.
  intros H E. destruct (H s) as (o & evs & E' & Ho).
  rewrite E in E'. injection E' as <- ->. split; [exact Ho | eauto].
Qed.

(** A failure of [setup_monitoring] is answered with a dictionary that
    has no [error] entry, and reading that entry raises [KeyError]. *)
Lemma failed_monitoring_raises w self app_url repo_name s d s' :
  MonitoringSetup.setup_monitoring w (monitoring self) app_url repo_name
    (logged s "📊 Setting up monitoring...") = (Val d, s') ->
  dict_get "success" d = Some (VBool false) ->
  monitoring_block w self app_url repo_name s = (Raise (KeyError (VStr "error")), s').
Proof.
  intros E Hs.
  destruct (quiet_val _ _ _ _ _ (setup_monitoring_quiet w _ app_url repo_name) E)
    as [[_ Herr] _].
  unfold monitoring_block, bind, log_append.
  fold (logged s "📊 Setting up monitoring..."). rewrite E.
  unfold field, getitem, ret, raise. rewrite Hs. cbn [truthy]. by rewrite Herr.
Qed.

(** C5, where the code departs from the claim.  When the monitoring set-up
    fails, which it reports with a dictionary that has no [error] entry,
    the line that would log the failure as a warning raises [KeyError]:
    the run that had deployed the application ends with
    [success = False] and the error ['error'], and no later stage runs. *)
Theorem monitoring_failure_is_fatal
        w self mvp_path platform custom_domain s c dr u s1 u' s2 d s3 :
  to_provisioned w self mvp_path platform (fresh s) = (Val (Next (c, dr, u)), s1) ->
  domain_block w self custom_domain u s1 = (Val u', s2) ->
  MonitoringSetup.setup_monitoring w (monitoring self) u' (repo_name c)
    (logged s2 "📊 Setting up monitoring...") = (Val d, s3) ->
  dict_get "success" d = Some (VBool false) ->
  deploy_mvp w self mvp_path platform custom_domain s
  = (Val (Failed "'error'"
                 (log s2 ++ ["📊 Setting up monitoring...";
                             "❌ Deployment failed: 'error'"])),
     logged s3 "❌ Deployment failed: 'error'").
Proof.
  intros Hp Hd Hm Hs.
  rewrite (deploy_from_provisioned _ _ _ _ _ _ _ _ _ _ Hp).
  unfold try_except. unfold bind at 1. rewrite Hd.
  unfold after_domain. unfold bind at 1.
  rewrite (failed_monitoring_raises _ _ _ _ _ _ _ Hm Hs).
  rewrite on_exception_run.
  destruct (quiet_val _ _ _ _ _ (setup_monitoring_quiet w _ u' (repo_name c)) Hm)
    as [_ [evs ->]].
  change (exn_str (KeyError (VStr "error"))) with "'error'".
  cbn [log logged after with_trace]. rewrite <- app_assoc. reflexivity.
Qed.

Lemma monitoring_failure_is_fatal_witness :
  fst (deploy_mvp app_not_up on_railway "/app" "railway" (Some "example.com") home)
  = Val (Failed "'error'"
           ["🐙 Creating GitHub repository...";
            "✅ Repository created: https://github.com/acme/app";
            "📁 Pushing MVP files to repository...";
            "✅ MVP files pushed successfully";
            "🔐 Setting up environment variables...";
            "⚠️ Environment variable setup had issues";
            "🚀 Deploying to Railway...";
            "✅ Deployed successfully to: https://ai-content-optimizer-1753843786.up.railway.app";
            "🌐 Setting up custom domain: example.com";
            "⚠️ Domain setup failed: GoDaddy credentials not available";
            "📊 Setting up monitoring...";
            "❌ Deployment failed: 'error'"]).
Proof.
  eapply eq_trans.
  - apply (f_equal fst).
    eapply (monitoring_failure_is_fatal app_not_up on_railway "/app" "railway"
              (Some "example.com") home);
      [ vm_compute; reflexivity | vm_compute; reflexivity
      | vm_compute; reflexivity | reflexivity ].
  - vm_compute. reflexivity.
Defined.

(** ** The domain configurator, request by request *)







(** *** The domain step and what follows it *)

Lemma nonempty_eqb domain : domain <> "" -> String.eqb domain "" = false.
Proof. intros H. by apply String.eqb_neq. Qed.

Lemma domain_block_configured w self domain u s d s2 v :
  domain <> "" ->
  DomainManager.setup_domain w (domain_manager self) domain u
    (logged s ("🌐 Setting up custom domain: " ++ domain)) = (Val d, s2) ->
  dict_get "success" d = Some v -> truthy v = true ->
  domain_block w self (Some domain) u s
  = (Val (VStr ("https://" ++ domain)),
     logged s2 ("✅ Custom domain configured: https://" ++ domain)).
Proof.
  intros Hne E Hs Ht. unfold domain_block. rewrite (nonempty_eqb _ Hne). cbn [negb].
  unfold bind at 1, log_append at 1.
  fold (logged s ("🌐 Setting up custom domain: " ++ domain)).
  unfold bind at 1. rewrite E.
  unfold bind at 1, field, getitem, ret. rewrite Hs, Ht. reflexivity.
Qed.


(** A run of the stages after the domain step that returns a result has
    verified the URL it was given and returns that URL. *)
Lemma after_domain_result w self app_url repo_url repo_name platform dr s r s' :
  after_domain w self app_url repo_url repo_name platform dr s = (Val r, s') ->
  success r = true
  /\ result_app_url r = Some app_url
  /\ exists pre, trace s' = (pre ++ [health_probe app_url])%list
                 \/ trace s' = (pre ++ [health_probe app_url; root_probe app_url])%list.
Proof.
  unfold after_domain. intros H.
  apply bind_val_inv in H as (? & sa & _ & H).
  apply bind_val_inv in H as (? & sb & _ & H).
  apply bind_val_inv in H as (? & sc & _ & H).
  apply bind_val_inv in H as (? & sd & _ & H).
  unfold verify_block in H.
  apply bind_val_inv in H as (? & se & El & H). injection El as _ <-.
  apply bind_val_inv in H as (v & sf & Ev & H).
  apply bind_val_inv in H as (now & sg & Et & H). injection Et as _ <-.
  injection H as <- <-. split; [reflexivity|]. split; [reflexivity|].
  rewrite verify_run in Ev. exists (trace sd).
  destruct (http_reply w _ GET _ (Some 30)); [injection Ev as _ <-; by left|].
  destruct (http_reply w _ GET _ (Some 30)); injection Ev as _ <-; by right.
Qed.

(** A stage that logs its outcome never raises when its collaborator
    does not. *)
Lemma wp_stage (m : M pydict) (first good bad : string) s
      (Phi : Outcome unit -> St -> Prop) :
  quiet m (returns reported) ->
  (forall s', Phi (Val tt) s') ->
  wp (log_append first ;;;
      result <- m ;;
      ok <- field result "success" ;;
      if truthy ok then log_append good
      else err <- field result "error" ;; log_append (bad ++ py_str err))%py s Phi.
Proof.
  intros Hq HP. wp_steps. apply wp_bind. eapply wp_returns; [exact Hq|].
  intros d evs [Hs | [msg ->]]; wp_steps.
  - rewrite Hs. wp_steps. cbn [truthy]. wp_steps. apply HP.
  - rewrite dict_get_failure_success. wp_steps. cbn [truthy]. wp_steps.
    rewrite dict_get_failure_error. wp_steps. apply HP.
Qed.

(** Such a stage adds two lines to the log. *)
Lemma stage_log (m : M pydict) R (first good : string) (bad : string) s s' :
  quiet m (returns R) ->
  (log_append first ;;;
   result <- m ;;
   ok <- field result "success" ;;
   if truthy ok then log_append good
   else err <- field result "error" ;; log_append (bad ++ py_str err))%py s = (Val tt, s') ->
  exists line, log s' = (log s ++ [first; line])%list.
Proof.
  intros Hq H.
  apply bind_val_inv in H as ([] & s0 & E0 & H). injection E0 as <-.
  apply bind_val_inv in H as (d & s1 & E1 & H).
  apply (quiet_val _ _ _ _ _ Hq) in E1 as [_ [evs ->]].
  apply bind_val_inv in H as (ok & sk & Ek & H).
  unfold field, getitem in Ek. destruct (dict_get "success" d); [|discriminate].
  injection Ek as <- <-.
  destruct (truthy p).
  - injection H as <-. eexists. cbn [log logged after with_trace].
    by rewrite <- app_assoc.
  - apply bind_val_inv in H as (err & se & Ee & H).
    unfold field, getitem in Ee. destruct (dict_get "error" d); [|discriminate].
    injection Ee as <- <-. injection H as <-. eexists.
    cbn [log logged after with_trace]. by rewrite <- app_assoc.
Qed.

(** A run of the stages after the domain step that returns a result
    has added nine lines to the log. *)
Lemma after_domain_log w self app_url repo_url repo_name platform dr s r s' :
  after_domain w self app_url repo_url repo_name platform dr s = (Val r, s') ->
  exists lines,
    result_log r = (log s ++ lines ++ ["🔍 Running final verification..."])%list
    /\ List.length lines = 8%nat.
Proof.
  unfold after_domain. intros H.
  apply bind_val_inv in H as ([] & sa & Ea & H).
  apply (stage_log _ _ _ _ _ _ _ (setup_monitoring_quiet w _ app_url repo_name)) in Ea
    as [l1 La].
  apply bind_val_inv in H as ([] & sb & Eb & H).
  apply (stage_log _ _ _ _ _ _ _ (setup_pipeline_quiet w _ repo_name platform)) in Eb
    as [l2 Lb].
  apply bind_val_inv in H as ([] & sc & Ec & H).
  apply (stage_log _ _ _ _ _ _ _ (setup_notifications_quiet w _ app_url repo_name)) in Ec
    as [l3 Lc].
  apply bind_val_inv in H as ([] & sd & Ed & H).
  apply (stage_log _ _ _ _ _ _ _ (setup_operations_quiet _ app_url repo_name)) in Ed
    as [l4 Ld].
  unfold verify_block in H.
  apply bind_val_inv in H as ([] & se & El & H). injection El as <-.
  apply bind_val_inv in H as (v & sf & Ev & H).
  apply (quiet_val _ _ _ _ _ (_verify_deployment_quiet w app_url)) in Ev as [_ [evs ->]].
  apply bind_val_inv in H as (now & sg & Et & H). injection Et as _ <-.
  injection H as <- <-.
  eexists [_; _; _; _; _; _; _; _]. split; [|reflexivity].
  cbn [result_log log logged after with_trace].
  rewrite Ld, Lc, Lb, La. by rewrite <- !app_assoc.
Qed.






(** C10, where the code departs from the claim.  When the domain
    configurator succeeds, the stages that follow are run with
    ["https://" + custom_domain]: monitoring, email, business operations
    and verification get that URL, and a run that completes returns it as
    [app_url], after probing it.  But when the monitoring set-up then
    fails, the [KeyError] of line 136 ends the run, and the result has
    [success = False] and no [app_url] at all. *)
Theorem custom_domain_lost_when_monitoring_fails
        w self mvp_path platform domain s c dr u s1 d s2 v :
  domain <> "" ->
  to_provisioned w self mvp_path platform (fresh s) = (Val (Next (c, dr, u)), s1) ->
  DomainManager.setup_domain w (domain_manager self) domain u
    (logged s1 ("🌐 Setting up custom domain: " ++ domain)) = (Val d, s2) ->
  dict_get "success" d = Some v ->
  truthy v = true ->
  let custom := VStr ("https://" ++ domain) in
  let configured := logged s2 ("✅ Custom domain configured: https://" ++ domain) in
  deploy_mvp w self mvp_path platform (Some domain) s
  = try_except
      (monitoring_block w self custom (repo_name c) ;;;
       cicd_block w self (repo_name c) platform ;;;
       email_block w self custom (repo_name c) ;;;
       business_block self custom (repo_name c) ;;;
       verify_block w custom (repo_url c) platform dr)%py
      on_exception configured
  /\ (forall r s',
         deploy_mvp w self mvp_path platform (Some domain) s = (Val r, s') ->
         success r = true ->
         result_app_url r = Some custom
         /\ exists pre, trace s' = (pre ++ [health_probe custom])%list
                        \/ trace s' = (pre ++ [health_probe custom; root_probe custom])%list)
  /\ (forall dm s3,
         MonitoringSetup.setup_monitoring w (monitoring self) custom (repo_name c)
           (logged configured "📊 Setting up monitoring...") = (Val dm, s3) ->
         dict_get "success" dm = Some (VBool false) ->
         exists r s',
           deploy_mvp w self mvp_path platform (Some domain) s = (Val r, s')
           /\ success r = false
           /\ result_error r = Some "'error'"
           /\ result_app_url r = None).
Proof.
  intros Hne Hp Hd Hs Ht custom configured.
  pose proof (domain_block_configured _ _ _ _ _ _ _ _ Hne Hd Hs Ht) as Eb.
  assert (deploy_mvp w self mvp_path platform (Some domain) s
          = try_except (after_domain w self custom (repo_url c) (repo_name c) platform dr)
              on_exception configured) as E.
  { rewrite (deploy_from_provisioned _ _ _ _ _ _ _ _ _ _ Hp).
    unfold try_except. unfold bind at 1. by rewrite Eb. }
  split; [exact E|]. split.
  - intros r s'. rewrite E. intros Hr Hok.
    apply guarded_success in Hr; [| exact Hok].
    by apply after_domain_result in Hr as (_ & H1 & H2).
  - intros dm s3 Hm Hf. rewrite E.
    unfold try_except, after_domain. unfold bind at 1.
    rewrite (failed_monitoring_raises _ _ _ _ _ _ _ Hm Hf).
    rewrite on_exception_run. eexists _, _. split; [reflexivity|]. repeat split.
Qed.

Lemma custom_domain_lost_when_monitoring_fails_witness :
  exists r s',
    deploy_mvp domain_ready_app_down with_domain "/app" "railway" (Some "example.com") home
    = (Val r, s')
    /\ success r = false
    /\ result_error r = Some "'error'"
    /\ result_app_url r = None.
Proof.
  edestruct (custom_domain_lost_when_monitoring_fails domain_ready_app_down with_domain
               "/app" "railway" "example.com" home) as (_ & _ & H);
    [ discriminate | vm_compute; reflexivity | vm_compute; reflexivity
    | reflexivity | reflexivity |].
  eapply H; [vm_compute; reflexivity | reflexivity].
Defined.

(** ** Runs of the examples *)

(** A run in which the domain is configured and the failure of the
    monitoring set-up then ends the pipeline. *)
Example custom_domain_run_fails :
  fst (deploy_mvp domain_ready_app_down with_domain "/app" "railway"
         (Some "example.com") home)
  = Val (Failed "'error'"
           ["🐙 Creating GitHub repository...";
            "✅ Repository created: https://github.com/acme/app";
            "📁 Pushing MVP files to repository...";
            "✅ MVP files pushed successfully";
            "🔐 Setting up environment variables...";
            "⚠️ Environment variable setup had issues";
            "🚀 Deploying to Railway...";
            "✅ Deployed successfully to: https://ai-content-optimizer-1753843786.up.railway.app";
            "🌐 Setting up custom domain: example.com";
            "✅ Custom domain configured: https://example.com";
            "📊 Setting up monitoring...";
            "❌ Deployment failed: 'error'"]).
Proof. vm_compute. reflexivity. Qed.

(** With every service up the run completes and returns the custom URL. *)
Example custom_domain_run_completes :
  exists repo_url deployment_id verification log timestamp,
    fst (deploy_mvp all_up full_deployer "/app" "railway" (Some "example.com") home)
    = Val (Deployed (VStr "https://example.com") repo_url "railway" deployment_id
             verification log timestamp)
    /\ dict_get "overall_status" verification = Some (VBool true)
    /\ List.length log = 19%nat.
Proof. eexists _, _, _, _, _. split; [vm_compute; reflexivity|]. split; reflexivity. Qed.

(** A free domain is bought before its records are set; a taken one is
    not, and with the registrar down the attempt ends at the check. *)
Example domain_bought_when_free :
  DomainManager.setup_domain domain_free (domain_manager with_domain) "example.com"
    (VStr "https://app.example") home
  = (Val [("success", VBool true); ("message", VStr "DNS configured successfully")],
     after home [availability_check "example.com"; registration; dns_update "example.com"])
  /\ spec_domain_attempt domain_free home "example.com"
     = ([availability_check "example.com"; registration; dns_update "example.com"], true)
  /\ spec_domain_attempt all_up home "example.com"
     = ([availability_check "example.com"; dns_update "example.com"], true)
  /\ spec_domain_attempt registrar_down home "example.com"
     = ([availability_check "example.com"], false).
Proof. repeat split; vm_compute; reflexivity. Qed.

Example title_railway : title "railway" = "Railway".
Proof. reflexivity. Qed.

Example title_words : title "my-hOST 2x" = "My-Host 2X".
Proof. reflexivity. Qed.

Example repr_keys :
  py_repr (VList [VStr "render"; VStr "railway"]) = "['render', 'railway']".
Proof. reflexivity. Qed.

Example repr_quote : repr_str "it's" = String dquote ("it's" ++ String dquote "").
Proof. reflexivity. Qed.

(** * Further properties

    Properties of the deployer, of its collaborators, of the credential
    manager and of the script that runs a deployment. *)

(** ** Infrastructure *)

Lemma wp_still {A} (m : M A) s (Phi : Outcome A -> St -> Prop) :
  still m -> (forall o, Phi o s) -> wp m s Phi.
Proof. intros H HP. unfold wp. rewrite H. apply HP. Qed.

Lemma still_json r : still (json r).
Proof. intros s. unfold json. by destruct (json_doc r). Qed.

Lemma still_getitem v k : still (getitem v k).
Proof. intros s. unfold getitem. destruct v; try reflexivity. by destruct (dict_get k d). Qed.

Lemma still_getitem0 v : still (getitem0 v).
Proof. intros s. unfold getitem0. destruct v as [| | |[|]|[|]|]; reflexivity. Qed.

Lemma still_contains k v : still (contains k v).
Proof. intros s. by destruct v. Qed.

Lemma still_get_method v k d : still (get_method v k d).
Proof. intros s. by destruct v. Qed.

Ltac still_step :=
  lazymatch goal with
  | |- wp (bind (json _) _) _ _ => apply wp_bind, wp_still; [apply still_json | intros [?v|?e]]
  | |- wp (bind (getitem _ _) _) _ _ =>
      apply wp_bind, wp_still; [apply still_getitem | intros [?v|?e]]
  | |- wp (bind (getitem0 _) _) _ _ =>
      apply wp_bind, wp_still; [apply still_getitem0 | intros [?v|?e]]
  | |- wp (bind (contains _ _) _) _ _ =>
      apply wp_bind, wp_still; [apply still_contains | intros [?b|?e]]
  | |- wp (bind (get_method _ _ _) _) _ _ =>
      apply wp_bind, wp_still; [apply still_get_method | intros [?v|?e]]
  | |- wp (bind (if ?b then _ else _) _) _ _ => destruct b eqn:?
  | |- wp (if ?b then _ else _) _ _ => destruct b eqn:?
  | |- wp (bind (bind _ _) _) _ _ => apply wp_bind
  end.

Lemma quiet_state {A} (m : M A) Q s o s' :
  quiet m Q -> m s = (o, s') -> exists evs, s' = after s evs.
Proof.
  intros H E. destruct (H s) as (o' & evs & E' & _). rewrite E in E'.
  injection E' as _ ->. eauto.
Qed.

Lemma append_nil_r (s : string) : s ++ "" = s.
Proof. induction s as [|c s IH]; [reflexivity | exact (f_equal (String c) IH)]. Qed.

Lemma append_assoc (a b c : string) : (a ++ b) ++ c = a ++ b ++ c.
Proof. induction a as [|x a IH]; [reflexivity | exact (f_equal (String x) IH)]. Qed.

Lemma requests_to_app prefix a b :
  requests_to prefix (a ++ b) = (requests_to prefix a ++ requests_to prefix b)%list.
Proof. unfold requests_to. apply List.filter_app. Qed.

Lemma offline_ret {A} (a : A) : offline (ret a).
Proof. by intros s. Qed.

Lemma offline_bind {A B} (m : M A) (k : A -> M B) :
  offline m -> (forall a, offline (k a)) -> offline (bind m k).
Proof.
  intros Hm Hk s. unfold bind. specialize (Hm s).
  destruct (m s) as [[a|e] s1]; simpl in *; [| exact Hm].
  by rewrite Hk.
Qed.

Lemma offline_try_except {A} (m : M A) handler :
  offline m -> (forall e, offline (handler e)) -> offline (try_except m handler).
Proof.
  intros Hm Hh s. unfold try_except. specialize (Hm s).
  destruct (m s) as [[a|e] s1]; simpl in *; [exact Hm|].
  by rewrite Hh.
Qed.

Lemma offline_try_finally {A} (m : M A) fin :
  offline m -> offline fin -> offline (try_finally m fin).
Proof.
  intros Hm Hf s. unfold try_finally. specialize (Hm s).
  destruct (m s) as [o s1]. simpl in Hm. specialize (Hf s1).
  destruct (fin s1) as [[u|e] s2]; simpl in *; congruence.
Qed.

Lemma offline_event {A} (m : M A) ev :
  (forall s, trace (snd (m s)) = (trace s ++ [ev])%list \/ trace (snd (m s)) = trace s) ->
  match ev with EvHttp _ _ _ => False | _ => True end ->
  offline m.
Proof.
  intros H Hev s. destruct (H s) as [-> | ->]; [|reflexivity].
  rewrite requests_to_app. destruct ev; try destruct Hev; simpl; by rewrite app_nil_r.
Qed.

Lemma offline_subprocess_run w argv : offline (subprocess_run w argv).
Proof.
  unfold subprocess_run. destruct (argv_strings argv) as [e|args]; [by intros s|].
  apply (offline_event _ (EvRun args)); [|exact I].
  intros s. left. by destruct (run_reply w (trace s) args).
Qed.

Lemma offline_fs_action w ev :
  match ev with EvHttp _ _ _ => False | _ => True end -> offline (fs_action w ev).
Proof.
  intros Hev. apply (offline_event _ ev); [|exact Hev].
  intros s. left. unfold fs_action. by destruct (fs_error w (trace s) ev).
Qed.

Lemma offline_makedirs w path : offline (makedirs w path).
Proof.
  apply offline_bind; [by apply offline_fs_action | by intros _ s].
Qed.

Lemma offline_copy_items w temp_dir items : offline (copy_items w temp_dir items).
Proof.
  induction items as [|item rest IH]; simpl; [apply offline_ret|].
  apply offline_bind; [by intros s|]. intros is_dir.
  apply offline_bind; [| intros _; exact IH].
  destruct is_dir; [| by apply offline_fs_action].
  apply offline_bind; [by apply offline_fs_action | by intros _ s].
Qed.

Lemma offline_chdir path : offline (chdir path).
Proof.
  apply (offline_event _ (EvChdir path)); [|exact I].
  intros s. left. unfold chdir. by case_bool_decide.
Qed.

Lemma offline_getcwd : offline getcwd.
Proof. intros s. unfold getcwd. by case_bool_decide. Qed.

Lemma offline_push w mvp_path clone_url : offline (_push_mvp_files w mvp_path clone_url).
Proof.
  unfold _push_mvp_files.
  apply offline_try_except; [| intros []; apply offline_ret].
  apply offline_bind; [by intros s|]. intros now.
  apply offline_bind; [apply offline_makedirs|]. intros _.
  apply offline_bind; [apply offline_subprocess_run|]. intros _.
  apply offline_bind; [apply (offline_event _ (EvGlob (path_join mvp_path "*")));
                       [intros s; by left | exact I]|].
  intros items.
  apply offline_bind; [apply offline_copy_items|]. intros _.
  apply offline_bind; [apply offline_getcwd|]. intros original_cwd.
  apply offline_bind; [apply offline_chdir|]. intros _.
  apply offline_bind; [| intros _; apply offline_ret].
  apply offline_try_finally; [| apply offline_chdir].
  repeat (apply offline_bind; [apply offline_subprocess_run | intros _]).
  apply offline_subprocess_run.
Qed.

(** ** The deployer *)

Lemma init_platforms given resolved :
  platforms (AutonomousDeployer.init given resolved)
  = ((if opt_truthy (cred_get (credentials (AutonomousDeployer.init given resolved))
                       "RENDER_API_KEY")
      then [("render", RenderAdapter)] else [])
     ++ (if opt_truthy (cred_get (credentials (AutonomousDeployer.init given resolved))
                          "RAILWAY_TOKEN")
         then [("railway", RailwayAdapter)] else [])
     ++ (if opt_truthy (cred_get (credentials (AutonomousDeployer.init given resolved))
                          "VERCEL_TOKEN")
         then [("vercel", VercelAdapter)] else []))%list.
Proof.
  unfold AutonomousDeployer.init. cbn [platforms AutonomousDeployer.credentials].
  repeat match goal with |- context [if ?b then _ else _] =>
    lazymatch b with opt_truthy _ => destruct b end end; reflexivity.
Qed.

Lemma registered_provision w given resolved platform a repo_url env_vars :
  lookup_platform platform (platforms (AutonomousDeployer.init given resolved)) = Some a ->
  quiet (provision w a platform repo_url env_vars) (returns provisioned_ok).
Proof.
  rewrite init_platforms.
  destruct (opt_truthy _), (opt_truthy _), (opt_truthy _); simpl;
    repeat match goal with
           | |- context [String.eqb platform ?k] =>
               destruct (String.eqb_spec platform k) as [->|?]
           end;
    simpl; intros [= <-];
    first [apply create_service_quiet | apply deploy_project_quiet
          | apply create_deployment_quiet].
Qed.

(** X1.  The registry that [__init__] builds holds a platform exactly
    under its own name and with its own adapter, and only when the
    credential of the platform is a non-empty string: the call that
    [deploy_mvp] makes through the registry is the method of that
    adapter, which never raises. *)
Theorem registered_adapter_has_method w given resolved platform a repo_url env_vars :
  let self := AutonomousDeployer.init given resolved in
  let present k := opt_truthy (cred_get (credentials self) k) in
  lookup_platform platform (platforms self) = Some a ->
  ((platform = "render" /\ a = RenderAdapter /\ present "RENDER_API_KEY" = true
    /\ provision w a platform repo_url env_vars
       = RenderDeployment.create_service w repo_url env_vars)
   \/ (platform = "railway" /\ a = RailwayAdapter /\ present "RAILWAY_TOKEN" = true
       /\ provision w a platform repo_url env_vars
          = RailwayDeployment.deploy_project w repo_url env_vars)
   \/ (platform = "vercel" /\ a = VercelAdapter /\ present "VERCEL_TOKEN" = true
       /\ provision w a platform repo_url env_vars
          = VercelDeployment.create_deployment w repo_url env_vars))
  /\ quiet (provision w a platform repo_url env_vars) (returns provisioned_ok).
Proof.
  intros self present Hreg.
  assert ((platform = "render" /\ a = RenderAdapter /\ present "RENDER_API_KEY" = true)
          \/ (platform = "railway" /\ a = RailwayAdapter /\ present "RAILWAY_TOKEN" = true)
          \/ (platform = "vercel" /\ a = VercelAdapter /\ present "VERCEL_TOKEN" = true)) as H.
  { revert Hreg. unfold self. rewrite init_platforms. fold self.
    fold (present "RENDER_API_KEY") (present "RAILWAY_TOKEN") (present "VERCEL_TOKEN").
    destruct (present "RENDER_API_KEY"), (present "RAILWAY_TOKEN"), (present "VERCEL_TOKEN");
      simpl;
      repeat match goal with
             | |- context [String.eqb platform ?k] =>
                 destruct (String.eqb_spec platform k) as [->|?]
             end;
      simpl; intros [= <-]; auto. }
  destruct H as [(-> & -> & Hp) | [(-> & -> & Hp) | (-> & -> & Hp)]].
  - split; [left; repeat split; exact Hp | apply create_service_quiet].
  - split; [right; left; repeat split; exact Hp | apply deploy_project_quiet].
  - split; [right; right; repeat split; exact Hp | apply create_deployment_quiet].
Qed.

Lemma registered_adapter_has_method_witness :
  quiet (provision all_up RailwayAdapter "railway" (VStr "https://github.com/acme/app")
           (_prepare_environment_variables on_railway))
        (returns provisioned_ok).
Proof.
  apply (registered_adapter_has_method all_up (Some railway_only) ∅ "railway" RailwayAdapter).
  reflexivity.
Defined.

(** X2.  When the repository has been created and the push of the
    sources fails, [deploy_mvp] returns [success = False] with the error
    of the push after "File push failed: ", the log holds three lines,
    the creation of the repository is the only request of the run, and
    the working directory is the one of the caller. *)
Theorem push_failure_halts
        w self mvp_path platform custom_domain s d s1 u c pd s2 v :
  repo_attempt w s = (Val d, s1) ->
  dict_get "success" d = Some (VBool true) ->
  dict_get "repo_url" d = Some u ->
  dict_get "clone_url" d = Some c ->
  _push_mvp_files w mvp_path c
    (logged (logged s1 ("✅ Repository created: " ++ py_str u))
            "📁 Pushing MVP files to repository...") = (Val pd, s2) ->
  dict_get "success" pd = Some v ->
  truthy v = false ->
  exists m,
    dict_get "error" pd = Some (VStr m)
    /\ deploy_mvp w self mvp_path platform custom_domain s
       = (Val (Failed ("File push failed: " ++ m)
                      ["🐙 Creating GitHub repository...";
                       "✅ Repository created: " ++ py_str u;
                       "📁 Pushing MVP files to repository..."]),
          s2)
    /\ requests_to "" (trace s2) = (requests_to "" (trace s) ++ [create_repo_request])%list
    /\ cwd s2 = cwd s.
Proof.
  intros Hrepo Hok Hu Hc Hpush Hv Ht.
  destruct (create_repository_run w (repo_name_at w s)
              "AI-Powered Content Optimizer MVP - Autonomous SaaS Factory" false
              (logged (fresh s) "🐙 Creating GitHub repository...")) as (d' & E & _).
  unfold repo_attempt in Hrepo. rewrite E in Hrepo. injection Hrepo as <- <-.
  destruct (push_run w mvp_path c
              (logged (logged (after (logged (fresh s) "🐙 Creating GitHub repository...")
                                 [create_repo_request])
                         ("✅ Repository created: " ++ py_str u))
                      "📁 Pushing MVP files to repository..."))
    as (pd' & s2' & Ep & (L & C & _ & _ & Hpd & _)).
  rewrite Hpush in Ep. injection Ep as <- <-.
  destruct Hpd as [-> | [m ->]].
  { simpl in Hv. injection Hv as <-. discriminate. }
  exists m. split; [reflexivity|].
  assert (to_selection w self mvp_path (fresh s)
          = (Val (Return (Failed ("File push failed: " ++ m)
                            ["🐙 Creating GitHub repository...";
                             "✅ Repository created: " ++ py_str u;
                             "📁 Pushing MVP files to repository..."])), s2)) as Hsel.
  { apply wp_eq. unfold to_selection. wp_steps.
    apply wp_bind. eapply wp_intro; [exact E|]. wp_steps.
    rewrite Hok. cbn [truthy negb]. wp_steps. rewrite Hu. wp_steps. rewrite Hc. wp_steps.
    apply wp_bind. eapply wp_intro; [exact Hpush|]. wp_steps.
    rewrite dict_get_failure_success. cbn [truthy negb]. wp_steps.
    rewrite dict_get_failure_error. wp_steps.
    by rewrite L. }
  split; [exact (deploy_returned_early w self mvp_path platform custom_domain s _ _ Hsel)|].
  split; [| exact C].
  rewrite <- (app_nil_r (requests_to "" (trace s) ++ [create_repo_request])).
  match type of Hpush with
  | _ ?s0 = _ => pose proof (offline_push w mvp_path c s0) as Hoff
  end.
  rewrite Hpush in Hoff.
  cbn [snd] in Hoff. rewrite Hoff. cbn [trace logged after with_trace fresh].
  rewrite requests_to_app. by rewrite app_nil_r.
Qed.

Lemma push_failure_halts_witness :
  exists m,
    dict_get "error"
      (failure "Git operation failed: Command '['git', 'clone']' returned non-zero exit status 128.")
    = Some (VStr m)
    /\ deploy_mvp git_down on_railway "/app" "railway" None home
       = (Val (Failed ("File push failed: " ++ m)
                      ["🐙 Creating GitHub repository...";
                       "✅ Repository created: " ++ py_str (VStr "https://github.com/acme/app");
                       "📁 Pushing MVP files to repository..."]),
          snd (deploy_mvp git_down on_railway "/app" "railway" None home))
    /\ requests_to "" (trace (snd (deploy_mvp git_down on_railway "/app" "railway" None home)))
       = (requests_to "" (trace home) ++ [create_repo_request])%list
    /\ cwd (snd (deploy_mvp git_down on_railway "/app" "railway" None home)) = cwd home.
Proof.
  eapply (push_failure_halts git_down on_railway "/app" "railway" None home);
    [ vm_compute; reflexivity | reflexivity | reflexivity | reflexivity
    | vm_compute; reflexivity | reflexivity | reflexivity ].
Defined.

(** X3.  For a deployer built by [__init__], the body of the [try] of
    [deploy_mvp] raises in one way only: the monitoring set-up has
    reported a failure, its dictionary has no [error] entry, and reading
    that entry raises [KeyError('error')].  No other stage can reach the
    [except] clause. *)
Theorem only_monitoring_can_raise w given resolved mvp_path platform custom_domain s e s' :
  let self := AutonomousDeployer.init given resolved in
  deploy_body w self mvp_path platform custom_domain s = (Raise e, s') ->
  e = KeyError (VStr "error")
  /\ exists d s0 app_url repo_name,
       MonitoringSetup.setup_monitoring w (monitoring self) app_url repo_name s0 = (Val d, s')
       /\ dict_get "success" d = Some (VBool false)
       /\ dict_get "error" d = None.
Proof.
  intros self E.
  cut (wp (deploy_body w self mvp_path platform custom_domain) s
         (fun o s' =>
            match o with
            | Val _ => True
            | Raise e =>
                e = KeyError (VStr "error")
                /\ exists d s0 app_url repo_name,
                     MonitoringSetup.setup_monitoring w (monitoring self) app_url repo_name s0
                     = (Val d, s')
                     /\ dict_get "success" d = Some (VBool false)
                     /\ dict_get "error" d = None
            end)).
  { unfold wp. by rewrite E. }
  clear E. unfold deploy_body. apply wp_bind.
  (* up to the deployed application *)
  unfold to_provisioned. apply wp_bind.
  destruct (to_selection_run w self mvp_path s) as ([r|c] & s1 & Es & _).
  { eapply wp_intro; [exact Es|]. by wp_steps. }
  eapply wp_intro; [exact Es|]. cbv beta iota.
  apply wp_bind. unfold select_and_provision. wp_steps.
  destruct (lookup_platform platform (platforms self)) as [a|] eqn:Hreg; [| by wp_steps].
  apply wp_bind.
  eapply wp_returns; [exact (registered_provision w given resolved platform a _ _ Hreg)|].
  intros dr evs Hdr. wp_steps.
  destruct Hdr as [[Hs [u Hu]] | [msg ->]].
  2: { rewrite dict_get_failure_success. wp_steps. cbn [truthy negb]. wp_steps.
       rewrite dict_get_failure_error. by wp_steps. }
  rewrite Hs. wp_steps. cbn [truthy negb]. wp_steps. rewrite Hu. wp_steps.
  (* the domain *)
  apply wp_bind. unfold domain_block.
  assert (forall (Phi : Outcome pyval -> St -> Prop) s0,
             (forall v s', Phi (Val v) s') ->
             wp (match custom_domain with
                 | Some domain =>
                     if negb (String.eqb domain "") then
                       log_append ("🌐 Setting up custom domain: " ++ domain) ;;;
                       domain_result <- DomainManager.setup_domain w (domain_manager self)
                                          domain u ;;
                       ok <- field domain_result "success" ;;
                       if truthy ok then
                         log_append ("✅ Custom domain configured: https://" ++ domain) ;;;
                         ret (VStr ("https://" ++ domain))
                       else
                         err <- field domain_result "error" ;;
                         log_append ("⚠️ Domain setup failed: " ++ py_str err) ;;;
                         ret u
                     else ret u
                 | None => ret u
                 end)%py s0 Phi) as Hdomain.
  { intros Phi s0 HP. destruct custom_domain as [domain|]; [| apply wp_ret, HP].
    destruct (negb _); [| apply wp_ret, HP]. wp_steps.
    apply wp_bind. eapply wp_returns; [apply setup_domain_quiet|].
    intros d evs' [Hd | [msg ->]]; wp_steps.
    - rewrite Hd. wp_steps. cbn [truthy]. wp_steps. apply HP.
    - rewrite dict_get_failure_success. wp_steps. cbn [truthy]. wp_steps.
      rewrite dict_get_failure_error. wp_steps. apply HP. }
  apply Hdomain. intros app_url s2. cbv beta iota.
  (* the stages after it *)
  unfold after_domain. apply wp_bind.
  unfold monitoring_block. wp_steps. apply wp_bind.
  match goal with
  | |- wp (MonitoringSetup.setup_monitoring ?w0 ?m ?a ?n) ?s0 _ =>
      destruct (setup_monitoring_quiet w0 m a n s0) as ([d|e0] & evs' & Em & Hm);
        [| destruct Hm]
  end.
  eapply wp_intro; [exact Em|]. wp_steps.
  destruct Hm as [[b Hb] Herr]. rewrite Hb. wp_steps. cbn [truthy].
  destruct b.
  2: { wp_steps. rewrite Herr. split; [reflexivity|].
       eexists d, _, app_url, _. split; [exact Em|]. by split. }
  wp_steps.
  apply wp_bind. unfold cicd_block.
  apply (wp_stage _ _ _ _ _ _ (setup_pipeline_quiet w _ _ platform)). intros s3.
  apply wp_bind. unfold email_block.
  apply (wp_stage _ _ _ _ _ _ (setup_notifications_quiet w _ app_url _)). intros s4.
  apply wp_bind. unfold business_block. wp_steps. apply wp_bind.
  eapply wp_returns; [apply setup_operations_quiet|].
  intros bd evs5 Hbd. wp_steps. rewrite Hbd. wp_steps. cbn [truthy]. wp_steps.
  unfold verify_block. wp_steps. apply wp_bind.
  eapply wp_returns; [apply _verify_deployment_quiet|].
  intros v evs6 _. by wp_steps.
Qed.

Lemma only_monitoring_can_raise_witness :
  exists e s',
    deploy_body app_not_up on_railway "/app" "railway" None (fresh home) = (Raise e, s')
    /\ e = KeyError (VStr "error").
Proof.
  eexists _, _. split; [vm_compute; reflexivity|].
  eapply (only_monitoring_can_raise app_not_up (Some railway_only) ∅ "/app" "railway" None
            (fresh home)).
  vm_compute. reflexivity.
Defined.

Lemma provision_quiet w a platform repo_url env_vars :
  quiet (provision w a platform repo_url env_vars) (fun _ => True).
Proof.
  unfold provision, no_method.
  destruct (String.eqb platform "render"); [|destruct (String.eqb platform "railway")];
    destruct a; try (by apply quiet_raise);
    (eapply quiet_conseq;
     [first [apply create_service_quiet | apply deploy_project_quiet
            | apply create_deployment_quiet] | done]).
Qed.

(** The log when the application has been deployed. *)
Lemma to_provisioned_log w self mvp_path platform s x s1 :
  to_provisioned w self mvp_path platform s = (Val x, s1) ->
  match x with
  | Return r => success r = false
  | Next (c, dr, u) =>
      exists b, log s1 = (log s ++ lines_to_selection (repo_url c) b
                          ++ [("🚀 Deploying to " ++ title platform ++ "...")%string;
                              ("✅ Deployed successfully to: " ++ py_str u)%string])%list
  end.
Proof.
  unfold to_provisioned. intros H.
  apply bind_val_inv in H as (x0 & s0 & E0 & H).
  destruct (to_selection_run w self mvp_path s) as (x0' & s0' & E0' & _ & Hx).
  rewrite E0 in E0'. injection E0' as <- <-.
  destruct x0 as [r|c].
  { injection H as <- <-.
    destruct Hx as [(m & -> & _) | (m & u & evs & -> & _)]; reflexivity. }
  destruct Hx as (b & evs & L & _).
  apply bind_val_inv in H as (y & sy & Ey & H).
  unfold select_and_provision in Ey.
  apply bind_val_inv in Ey as ([] & sl & El & Ey). injection El as <-.
  destruct (lookup_platform platform (platforms self)) as [a|].
  2: { injection Ey as <- <-. by injection H as <- <-. }
  apply bind_val_inv in Ey as (dr & sp & Ep & Ey).
  apply (quiet_state _ _ _ _ _ (provision_quiet w a platform (repo_url c) (env_vars c)))
    in Ep as [evs' ->].
  apply bind_val_inv in Ey as (ok & sk & Ek & Ey).
  unfold field, getitem in Ek. destruct (dict_get "success" dr); [|discriminate].
  injection Ek as <- <-.
  destruct (negb (truthy p)).
  { apply bind_val_inv in Ey as (err & se & Ee & Ey).
    unfold field, getitem in Ee. destruct (dict_get "error" dr); [|discriminate].
    injection Ee as <- <-. injection Ey as <- <-. by injection H as <- <-. }
  injection Ey as <- <-.
  apply bind_val_inv in H as (u & su & Eu & H).
  unfold field, getitem in Eu. destruct (dict_get "url" dr); [|discriminate].
  injection Eu as <- <-.
  injection H as <- <-. exists b.
  cbn [log logged after with_trace]. rewrite L. by rewrite <- !app_assoc.
Qed.

Lemma domain_block_log w self custom_domain u s u' s' :
  domain_block w self custom_domain u s = (Val u', s') ->
  exists lines,
    log s' = (log s ++ lines)%list
    /\ List.length lines
       = match custom_domain with
         | Some domain => if String.eqb domain "" then 0%nat else 2%nat
         | None => 0%nat
         end.
Proof.
  unfold domain_block. destruct custom_domain as [domain|].
  2: { intros [= <- <-]. exists []. by rewrite app_nil_r. }
  destruct (String.eqb domain ""); cbn [negb].
  { intros [= <- <-]. exists []. by rewrite app_nil_r. }
  intros H. apply bind_val_inv in H as ([] & s0 & E0 & H). injection E0 as <-.
  apply bind_val_inv in H as (d & s1 & E1 & H).
  apply (quiet_val _ _ _ _ _ (setup_domain_quiet w _ domain u)) in E1 as [_ [evs ->]].
  apply bind_val_inv in H as (ok & sk & Ek & H).
  unfold field, getitem in Ek. destruct (dict_get "success" d); [|discriminate].
  injection Ek as <- <-.
  destruct (truthy p).
  - apply bind_val_inv in H as ([] & s2 & E2 & H). injection E2 as <-.
    injection H as <- <-. eexists [_; _]. split; [|reflexivity].
    cbn [log logged after with_trace]. by rewrite <- app_assoc.
  - apply bind_val_inv in H as (err & se & Ee & H).
    unfold field, getitem in Ee. destruct (dict_get "error" d); [|discriminate].
    injection Ee as <- <-.
    apply bind_val_inv in H as ([] & s2 & E2 & H). injection E2 as <-.
    injection H as <- <-. eexists [_; _]. split; [|reflexivity].
    cbn [log logged after with_trace]. by rewrite <- app_assoc.
Qed.

(** X4.  The log of a run that returns [success = True] has seventeen
    lines, or nineteen when a custom domain that is not empty was asked
    for; it starts with the creation of the repository and ends with the
    final verification. *)
Theorem successful_run_log w self mvp_path platform custom_domain s r s' :
  deploy_mvp w self mvp_path platform custom_domain s = (Val r, s') ->
  success r = true ->
  List.length (result_log r)
  = match custom_domain with
    | Some domain => if String.eqb domain "" then 17%nat else 19%nat
    | None => 17%nat
    end
  /\ List.hd "" (result_log r) = "🐙 Creating GitHub repository..."
  /\ List.last (result_log r) "" = "🔍 Running final verification...".
Proof.
  intros E Hok. rewrite deploy_mvp_unfold in E.
  apply guarded_success in E; [|exact Hok].
  unfold deploy_body in E.
  apply bind_val_inv in E as (x & s1 & Ep & E).
  apply to_provisioned_log in Ep.
  destruct x as [r0 | [[c dr] u]].
  { injection E as <- <-. congruence. }
  destruct Ep as (b & L1).
  apply bind_val_inv in E as (u' & s2 & Ed & E).
  apply domain_block_log in Ed as (dl & L2 & Hdl).
  apply after_domain_log in E as (al & L3 & Hal).
  rewrite L3, L2, L1. cbn [log fresh app]. split; [|split].
  - unfold lines_to_selection. rewrite !length_app. cbn [List.length]. rewrite Hdl, Hal.
    destruct custom_domain as [domain|]; [destruct (String.eqb domain "")|]; reflexivity.
  - reflexivity.
  - rewrite !app_assoc. apply last_last.
Qed.

Lemma successful_run_log_witness :
  exists r s',
    deploy_mvp all_up full_deployer "/app" "railway" (Some "example.com") home = (Val r, s')
    /\ success r = true
    /\ List.length (result_log r) = 19%nat
    /\ List.hd "" (result_log r) = "🐙 Creating GitHub repository..."
    /\ List.last (result_log r) "" = "🔍 Running final verification...".
Proof.
  eexists _, _. split; [vm_compute; reflexivity|]. split; [reflexivity|].
  eapply (successful_run_log all_up full_deployer "/app" "railway" (Some "example.com") home);
    [vm_compute; reflexivity | reflexivity].
Defined.

(** ** The status report *)

Lemma truthy_entry (c : creds) k :
  opt_truthy (cred_get c k) = true ->
  exists v, In (k, v) (List.filter (fun kv => opt_truthy (snd kv)) (map_to_list c)).
Proof.
  unfold cred_get. destruct (c !! k) as [v|] eqn:E; [|discriminate].
  intros Ht. exists v. apply filter_In. split; [|exact Ht].
  apply list_elem_of_In. by apply elem_of_map_to_list.
Qed.

(** X5.  In the report of [get_deployment_status] the number of
    platforms is at most the number of credentials that are loaded, which
    is at most the number of credentials. *)
Theorem status_counts given resolved :
  let self := AutonomousDeployer.init given resolved in
  let status := get_deployment_status self in
  exists available loaded total,
    dict_get "platforms_available" status = Some (VList available)
    /\ dict_get "credentials_loaded" status = Some (VInt loaded)
    /\ dict_get "total_credentials" status = Some (VInt total)
    /\ Z.of_nat (List.length available) <= loaded <= total.
Proof.
  intros self status.
  set (c := AutonomousDeployer.credentials self).
  set (loaded_entries := List.filter (fun kv => opt_truthy (snd kv)) (map_to_list c)).
  eexists _, _, _. split; [reflexivity|]. split; [reflexivity|]. split; [reflexivity|].
  fold c loaded_entries. unfold MonitoringSetup.len. split.
  - rewrite length_map.
    assert (exists keyed : list (string * option string),
               List.length (platforms self) = List.length keyed
               /\ List.NoDup (List.map fst keyed) /\ incl keyed loaded_entries) as (keyed & -> & Hnd & Hincl).
    { unfold self. rewrite init_platforms. cbv zeta. fold self c.
      assert (forall k, opt_truthy (cred_get c k) = true ->
                        exists v, In (k, v) loaded_entries) as Hentry
        by (intros k; apply truthy_entry).
      destruct (opt_truthy (cred_get c "RENDER_API_KEY")) eqn:H1;
        destruct (opt_truthy (cred_get c "RAILWAY_TOKEN")) eqn:H2;
        destruct (opt_truthy (cred_get c "VERCEL_TOKEN")) eqn:H3;
        repeat match goal with
               | H : opt_truthy (cred_get c ?k) = true |- _ =>
                   apply Hentry in H as [?v ?H]
               end.
      all: match goal with
           | H1 : In ("RENDER_API_KEY", ?a) _, H2 : In ("RAILWAY_TOKEN", ?b) _,
             H3 : In ("VERCEL_TOKEN", ?d) _ |- _ =>
               exists [("RENDER_API_KEY", a); ("RAILWAY_TOKEN", b); ("VERCEL_TOKEN", d)]
           | H1 : In ("RENDER_API_KEY", ?a) _, H2 : In ("RAILWAY_TOKEN", ?b) _ |- _ =>
               exists [("RENDER_API_KEY", a); ("RAILWAY_TOKEN", b)]
           | H1 : In ("RENDER_API_KEY", ?a) _, H3 : In ("VERCEL_TOKEN", ?d) _ |- _ =>
               exists [("RENDER_API_KEY", a); ("VERCEL_TOKEN", d)]
           | H2 : In ("RAILWAY_TOKEN", ?b) _, H3 : In ("VERCEL_TOKEN", ?d) _ |- _ =>
               exists [("RAILWAY_TOKEN", b); ("VERCEL_TOKEN", d)]
           | H1 : In ("RENDER_API_KEY", ?a) _ |- _ => exists [("RENDER_API_KEY", a)]
           | H2 : In ("RAILWAY_TOKEN", ?b) _ |- _ => exists [("RAILWAY_TOKEN", b)]
           | H3 : In ("VERCEL_TOKEN", ?d) _ |- _ => exists [("VERCEL_TOKEN", d)]
           | |- _ => exists []
           end.
      all: split; [reflexivity|]; split;
        [ apply NoDup_ListNoDup, (bool_decide_unpack _); vm_compute; exact I
        | intros x Hx; simpl in Hx; intuition (subst; assumption) ]. }
    apply inj_le. apply NoDup_incl_length; [|exact Hincl].
    eapply NoDup_map_inv. exact Hnd.
  - apply inj_le. unfold loaded_entries.
    clear. induction (map_to_list c) as [|kv l IH]; simpl; [lia|].
    destruct (opt_truthy (snd kv)); simpl; lia.
Qed.

(** ** The domain manager *)

(** X6.  With the API key of the registrar and without its secret, the
    status report says that domain management is ready, and no request
    is ever made: [setup_domain] and [get_domain_info] fail on the
    attribute that [__init__] did not set, and only [test_connection]
    says that the credentials are not available. *)
Theorem api_key_without_secret w given resolved domain target_url s :
  let self := AutonomousDeployer.init given resolved in
  let missing := "'DomainManager' object has no attribute 'godaddy_base_url'" in
  opt_truthy (cred_get (credentials self) "GODADDY_API_KEY") = true ->
  opt_truthy (cred_get (credentials self) "GODADDY_SECRET") = false ->
  dict_get "domain_management" (get_deployment_status self) = Some (VBool true)
  /\ DomainManager.setup_domain w (domain_manager self) domain target_url s
     = (Val (failure ("Availability check failed: " ++ missing)), s)
  /\ DomainManager.get_domain_info w (domain_manager self) domain s
     = (Val (failure ("Domain info failed: " ++ missing)), s)
  /\ DomainManager.test_connection w (domain_manager self) s
     = (Val (failure "GoDaddy credentials not available"), s).
Proof.
  intros self missing Hkey Hsecret.
  assert (opt_truthy (DomainManager.godaddy_api_key (domain_manager self)) = true) as Hk
    by exact Hkey.
  assert (opt_truthy (DomainManager.godaddy_secret (domain_manager self)) = false) as Hs
    by exact Hsecret.
  split; [| split; [| split]].
  - unfold get_deployment_status. cbn [dict_get String.eqb Ascii.eqb Bool.eqb].
    by rewrite Hkey.
  - unfold DomainManager.setup_domain, DomainManager.check_domain_availability,
      DomainManager.godaddy_base_url, try_except, bind, raise, ret, field, getitem.
    rewrite Hk, Hs. reflexivity.
  - unfold DomainManager.get_domain_info, DomainManager.godaddy_base_url,
      try_except, bind, raise, ret.
    rewrite Hk, Hs. reflexivity.
  - unfold DomainManager.test_connection, try_except.
    rewrite Hk, Hs. reflexivity.
Qed.

Lemma api_key_without_secret_witness :
  DomainManager.setup_domain all_up
    (domain_manager (AutonomousDeployer.init (Some key_without_secret) ∅)) "example.com"
    (VStr "https://app.example") home
  = (Val (failure ("Availability check failed: "
                   ++ "'DomainManager' object has no attribute 'godaddy_base_url'")), home).
Proof.
  apply (api_key_without_secret all_up (Some key_without_secret) ∅ "example.com"
           (VStr "https://app.example") home); reflexivity.
Defined.

(** ** Email *)

(** X7.  The status report reads the SendGrid key only: with a Mailchimp
    key and no SendGrid key it says that email services are not ready,
    and [setup_notifications] sets up Mailchimp all the same. *)
Theorem email_flag_ignores_mailchimp w given resolved app_url repo_name s :
  let self := AutonomousDeployer.init given resolved in
  opt_truthy (cred_get (credentials self) "MAILCHIMP_API_KEY") = true ->
  opt_truthy (cred_get (credentials self) "SENDGRID_API_KEY") = false ->
  dict_get "email_services" (get_deployment_status self) = Some (VBool false)
  /\ exists d,
       EmailService.setup_notifications w (email_service self) app_url repo_name s
       = (Val d,
          after s [EvHttp POST
                     (("https://"
                       ++ py_str (of_opt (EmailService.mailchimp_server (email_service self)))
                       ++ ".api.mailchimp.com/3.0") ++ "/campaigns") None])
       /\ reported d.
Proof.
  intros self Hchimp Hgrid. split.
  - unfold get_deployment_status. cbn [dict_get String.eqb Ascii.eqb Bool.eqb].
    by rewrite Hgrid.
  - destruct (setup_notifications_run w (email_service self) app_url repo_name s)
      as (d & E & Hd).
    exists d. split; [|exact Hd]. rewrite E. unfold spec_email_attempt.
    change (EmailService.mailchimp_api_key (email_service self))
      with (cred_get (credentials self) "MAILCHIMP_API_KEY").
    by rewrite Hchimp.
Qed.

Lemma email_flag_ignores_mailchimp_witness :
  dict_get "email_services" (get_deployment_status (construct bare_environment None))
  = Some (VBool false)
  /\ exists d,
       EmailService.setup_notifications all_up
         (email_service (construct bare_environment None)) (VStr "https://app.example")
         "app" home
       = (Val d, after home [EvHttp POST "https://us19.api.mailchimp.com/3.0/campaigns" None])
       /\ reported d.
Proof.
  apply (email_flag_ignores_mailchimp all_up None
           (CredentialManager.get_all_credentials (CredentialManager.init bare_environment))
           (VStr "https://app.example") "app" home);
    vm_compute; reflexivity.
Defined.

(** X8.  [send_deployment_notification] makes at most one request, by
    the first key present in the order Mailchimp, SendGrid, Mailgun, and
    never raises.  With a Mailchimp key it sends no mail: its one request
    is the [ping] that [test_connection] makes, and it succeeds exactly
    when the ping is answered with 200. *)
Theorem mailchimp_notification_is_a_ping w self recipient_email app_url repo_name s :
  let ping_url := ("https://" ++ py_str (of_opt (EmailService.mailchimp_server self))
                   ++ ".api.mailchimp.com/3.0") ++ "/ping" in
  exists d,
    EmailService.send_deployment_notification w self recipient_email app_url repo_name s
    = (Val d, after s (notification_attempt self))
    /\ reported d
    /\ (opt_truthy (EmailService.mailchimp_api_key self) = true ->
        notification_attempt self = [EvHttp GET ping_url None]
        /\ (dict_get "success" d = Some (VBool true) <->
            exists r, http_reply w (trace s) GET ping_url None = HttpResponse r
                      /\ status_code r = 200)
        /\ exists d',
             EmailService.test_connection w self s = (Val d', after s [EvHttp GET ping_url None])
             /\ (dict_get "success" d' = Some (VBool true)
                 <-> dict_get "success" d = Some (VBool true)))
    /\ (notification_attempt self = [] -> d = failure "No email service available").
Proof.
  intros ping_url.
  unfold EmailService.send_deployment_notification, EmailService.test_connection,
    notification_attempt, try_except.
  destruct (opt_truthy (EmailService.mailchimp_api_key self)) eqn:H1.
  { unfold EmailService._send_mailchimp_email, EmailService.mailchimp_base_url,
      try_except, bind, request, ret. rewrite H1. fold ping_url.
    change (with_trace (trace s ++ [?e]) s) with (after s [e]).
    destruct (http_reply w (trace s) GET ping_url None) as [msg|r] eqn:Er.
    { eexists; split; [reflexivity|]. split; [right; eauto|]. split; [|intros [=]].
      intros _. split; [reflexivity|]. split.
      - split; [intros [=] | intros (r & [=] & _)].
      - eexists; split; [reflexivity|]. split; intros [=]. }
    destruct (status_code r =? 200) eqn:Ec.
    - apply Z.eqb_eq in Ec.
      eexists; split; [reflexivity|]. split; [by left|]. split; [|intros [=]].
      intros _. split; [reflexivity|]. split.
      + split; [intros _; eauto | reflexivity].
      + eexists; split; [reflexivity|]. split; reflexivity.
    - apply Z.eqb_neq in Ec.
      eexists; split; [reflexivity|]. split; [right; eauto|]. split; [|intros [=]].
      intros _. split; [reflexivity|]. split.
      + split; [intros [=] | intros (r' & [= <-] & Hc); contradiction].
      + eexists; split; [reflexivity|]. split; intros [=]. }
  destruct (opt_truthy (EmailService.sendgrid_api_key self)) eqn:H2.
  { unfold EmailService._send_sendgrid_email, EmailService.sendgrid_base_url,
      try_except, bind, request, ret. rewrite H2.
    change (with_trace (trace s ++ [?e]) s) with (after s [e]).
    change ("https://api.sendgrid.com/v3" ++ "/mail/send")
      with "https://api.sendgrid.com/v3/mail/send".
    destruct (http_reply w (trace s) POST _ None) as [msg|r];
      [eexists; split; [reflexivity|]; split; [right; eauto|]; split; intros [=]|].
    destruct (_ =? _); eexists; (split; [reflexivity|]);
      (split; [first [by left | right; eauto]|]); split; intros [=]. }
  destruct (opt_truthy (EmailService.mailgun_api_key self)) eqn:H3.
  { unfold EmailService._send_mailgun_email, EmailService.mailgun_base_url,
      try_except, bind, request, ret. rewrite H3.
    change (with_trace (trace s ++ [?e]) s) with (after s [e]).
    destruct (http_reply w (trace s) POST _ None) as [msg|r];
      [eexists; split; [reflexivity|]; split; [right; eauto|]; split; intros [=]|].
    destruct (_ =? _); eexists; (split; [reflexivity|]);
      (split; [first [by left | right; eauto]|]); split; intros [=]. }
  rewrite after_nil. eexists; split; [reflexivity|]. split; [right; eauto|].
  split; [intros [=] | reflexivity].
Qed.

(** ** GitHub *)

Lemma still_find_repo repo_name repos : still (GitHubAutomation.find_repo repo_name repos).
Proof.
  intros s. induction repos as [|repo rest IH]; simpl; [reflexivity|].
  unfold bind. pose proof (still_getitem repo "name" s) as H.
  destruct (getitem repo "name" s) as [[name|e] s1]; simpl in H; subst s1; [|reflexivity].
  destruct (eq_str name repo_name); [reflexivity | exact IH].
Qed.

Lemma put_secrets_run w full_name env_vars s :
  (forall tr key, In key (List.map fst env_vars) ->
                  exists r, http_reply w tr PUT (secret_url full_name key) None
                            = HttpResponse r) ->
  GitHubAutomation.put_secrets w
    ("https://api.github.com/repos/" ++ py_str full_name ++ "/actions/secrets") env_vars s
  = (Val tt, after s (secret_puts full_name env_vars)).
Proof.
  revert s. induction env_vars as [|[key value] rest IH]; intros s Hput; simpl.
  - by rewrite after_nil.
  - unfold bind, request. fold (secret_url full_name key).
    destruct (Hput (trace s) key) as [r ->]; [by left|].
    change (with_trace (trace s ++ [?e]) s) with (after s [e]).
    rewrite IH by (intros tr k Hk; apply Hput; by right).
    by rewrite after_after.
Qed.

(** X9.  [setup_environment_variables] looks the repository up in the
    listing of the user's repositories.  When it is not there, nothing
    is set and the answer is [False].  When it is there, one [PUT] is
    made for every variable, in order, and the answer is [True] whatever
    GitHub answers to them: their status is never read. *)
Theorem secrets_reported_whatever_github_answers w repo_name env_vars s r repos target :
  http_reply w (trace s) GET "https://api.github.com/user/repos" None = HttpResponse r ->
  status_code r = 200 ->
  json_doc r = Some (VList repos) ->
  fst (GitHubAutomation.find_repo repo_name repos (after s [repos_listing])) = Val target ->
  (truthy target = false ->
   GitHubAutomation.setup_environment_variables w repo_name env_vars s
   = (Val false, after s [repos_listing]))
  /\ (forall repo full_name,
        target = VDict repo -> repo <> [] -> dict_get "full_name" repo = Some full_name ->
        (forall tr key, In key (List.map fst env_vars) ->
                        exists r', http_reply w tr PUT (secret_url full_name key) None
                                   = HttpResponse r') ->
        GitHubAutomation.setup_environment_variables w repo_name env_vars s
        = (Val true, after s (repos_listing :: secret_puts full_name env_vars))).
Proof.
  intros Er Ec Ej Hfind.
  assert (GitHubAutomation.find_repo repo_name repos (after s [repos_listing])
          = (Val target, after s [repos_listing])) as Ef.
  { pose proof (still_find_repo repo_name repos (after s [repos_listing])) as H.
    destruct (GitHubAutomation.find_repo _ _ _) as [o s1]. simpl in *. congruence. }
  assert (forall x,
             wp (if negb (truthy target) then ret false
                 else
                   full_name <- getitem target "full_name" ;;
                   let secrets_url :=
                     GitHubAutomation.base_url ++ "/repos/" ++ py_str full_name
                     ++ "/actions/secrets" in
                   GitHubAutomation.put_secrets w secrets_url env_vars ;;;
                   ret true)%py
                (after s [repos_listing])
                (fun o s' => match o with
                             | Val a => (Val a, s') = x
                             | Raise e => False
                             end) ->
             GitHubAutomation.setup_environment_variables w repo_name env_vars s = x) as Hrest.
  { intros x H. apply wp_eq.
    unfold GitHubAutomation.setup_environment_variables.
    apply wp_try_except, wp_bind, wp_request.
    change (GitHubAutomation.base_url ++ "/user/repos")
      with "https://api.github.com/user/repos".
    rewrite Er. fold repos_listing. rewrite Ec. cbn [Z.eqb Pos.eqb negb].
    apply wp_bind. apply (wp_intro _ _ (Val (VList repos)) (after s [repos_listing]));
      [unfold json; by rewrite Ej|].
    cbv beta iota. apply wp_bind, wp_ret. apply wp_bind. eapply wp_intro; [exact Ef|].
    cbv beta iota.
    unfold wp in *.
    match type of H with
    | match fst (?m ?s0) with _ => _ end =>
        destruct (m s0) as [[a|e] s']; [exact H | destruct H]
    end. }
  split.
  - intros Ht. apply Hrest. rewrite Ht. by apply wp_ret.
  - intros repo full_name -> Hne Hfn Hput. apply Hrest.
    assert (truthy (VDict repo) = true) as -> by (by destruct repo).
    cbn [negb]. apply wp_bind.
    apply (wp_intro _ _ (Val full_name) (after s [repos_listing]));
      [unfold getitem; by rewrite Hfn|].
    cbv beta iota zeta.
    change (GitHubAutomation.base_url ++ "/repos/" ++ py_str full_name ++ "/actions/secrets")
      with ("https://api.github.com/repos/" ++ py_str full_name ++ "/actions/secrets").
    apply wp_bind. eapply wp_intro; [exact (put_secrets_run w full_name env_vars _ Hput)|].
    apply wp_ret. by rewrite after_after.
Qed.

Lemma secrets_reported_whatever_github_answers_witness :
  GitHubAutomation.setup_environment_variables secrets_refused "app"
    (_prepare_environment_variables on_railway) home
  = (Val true,
     after home (repos_listing
                 :: secret_puts (VStr "acme/app") (_prepare_environment_variables on_railway))).
Proof.
  eapply (secrets_reported_whatever_github_answers secrets_refused "app"
            (_prepare_environment_variables on_railway) home);
    [reflexivity | reflexivity | reflexivity | reflexivity | reflexivity | discriminate
    | reflexivity | intros tr key _; eexists; reflexivity].
Defined.

(** X10.  [create_webhook] makes one request and never raises.  It
    succeeds exactly when the answer has status 201 and a JSON object
    with an [id] and a [config] that has a [url], and then returns the
    URL that GitHub reports; every failure is reported after "Webhook
    creation failed: ". *)
Theorem create_webhook_run w repo_name webhook_url events s :
  exists d,
    GitHubAutomation.create_webhook w repo_name webhook_url events s
    = (Val d, after s [hook_request repo_name])
    /\ (dict_get "success" d = Some (VBool true) <->
        exists r doc config id url,
          http_reply w (trace s) POST ("https://api.github.com/repos/" ++ repo_name ++ "/hooks")
            None = HttpResponse r
          /\ status_code r = 201
          /\ json_doc r = Some (VDict doc)
          /\ dict_get "id" doc = Some id
          /\ dict_get "config" doc = Some (VDict config)
          /\ dict_get "url" config = Some url
          /\ d = [("success", VBool true); ("webhook_id", id); ("webhook_url", url)])
    /\ (dict_get "success" d = Some (VBool true)
        \/ exists m, d = failure ("Webhook creation failed: " ++ m)).
Proof.
  unfold GitHubAutomation.create_webhook, try_except, bind, request.
  change (GitHubAutomation.base_url ++ "/repos/" ++ repo_name ++ "/hooks")
    with ("https://api.github.com/repos/" ++ repo_name ++ "/hooks").
  change (with_trace (trace s ++ [?e]) s) with (after s [e]).
  fold (hook_request repo_name).
  destruct (http_reply w (trace s) POST _ None) as [msg|r] eqn:Er.
  { eexists; split; [reflexivity|]. split; [|right; eauto].
    split; [intros [=] | intros (r & doc & config & id & url & [=] & _)]. }
  destruct (status_code r =? 201) eqn:Ec.
  2: { eexists; split; [reflexivity|]. split; [|right; eauto].
       split; [intros [=] | intros (r' & doc & config & id & url & [= <-] & Hc & _)].
       apply Z.eqb_neq in Ec. contradiction. }
  apply Z.eqb_eq in Ec.
  unfold json. destruct (json_doc r) as [v|] eqn:Ej.
  2: { eexists; split; [reflexivity|]. split; [|right; eauto].
       split; [intros [=] | intros (r' & doc & config & id & url & [= <-] & _ & Hj & _)].
       congruence. }
  unfold getitem, ret, raise; cbv beta iota.
  destruct v as [| | | | |doc];
    try solve [eexists; split; [reflexivity|]; split; [|right; eauto];
               split; [intros [=]
                      | intros (r' & doc' & config & id & url & [= <-] & _ & Hj & _);
                        congruence]].
  destruct (dict_get "id" doc) as [id|] eqn:Eid; cbv beta iota.
  2: { eexists; split; [reflexivity|]. split; [|right; eauto].
       split; [intros [=]
              | intros (r' & doc' & config & id & url & [= <-] & _ & Hj & Hid & _)].
       congruence. }
  destruct (dict_get "config" doc) as [config|] eqn:Ecf; cbv beta iota.
  2: { eexists; split; [reflexivity|]. split; [|right; eauto].
       split; [intros [=]
              | intros (r' & doc' & config & id' & url & [= <-] & _ & Hj & _ & Hcf & _)].
       congruence. }
  destruct config as [| | | | |cfg]; cbv beta iota;
    try solve [eexists; split; [reflexivity|]; split; [|right; eauto];
               split; [intros [=]
                      | intros (r' & doc' & config & id' & url & [= <-] & _ & Hj & _ & Hcf & _);
                        congruence]].
  destruct (dict_get "url" cfg) as [url|] eqn:Eu.
  2: { eexists; split; [reflexivity|]. split; [|right; eauto].
       split; [intros [=]
              | intros (r' & doc' & config & id' & url & [= <-] & _ & Hj & _ & Hcf & Hu & _)].
       congruence. }
  eexists; split; [reflexivity|]. split; [|by left].
  split; [intros _ | reflexivity].
  exists r, doc, cfg, id, url. repeat split; assumption.
Qed.

(** ** The platform adapters *)

(** X11.  [create_service] asks Render who the user is before anything
    else, and never raises.  Unless that request is answered with 200
    and a JSON object that has an [id], no service is created: the
    request for the user is the only one. *)
Theorem render_asks_for_the_owner_first w repo_url env_vars s :
  let owner_known :=
    exists r doc id,
      http_reply w (trace s) GET "https://api.render.com/v1/users/me" None = HttpResponse r
      /\ status_code r = 200 /\ json_doc r = Some (VDict doc)
      /\ dict_get "id" doc = Some id in
  exists d evs,
    RenderDeployment.create_service w repo_url env_vars s
    = (Val d, after s (render_user_request :: evs))
    /\ provisioned_ok d
    /\ (owner_known -> evs = [render_service_request])
    /\ (~ owner_known -> evs = [] /\ exists m, d = failure m).
Proof.
  intros owner_known.
  cut (wp (RenderDeployment.create_service w repo_url env_vars) s
         (fun o s' =>
            exists d evs, o = Val d /\ s' = after s (render_user_request :: evs)
              /\ provisioned_ok d
              /\ (owner_known -> evs = [render_service_request])
              /\ (~ owner_known -> evs = [] /\ exists m, d = failure m))).
  { intros H. apply wp_elim in H as (o & s' & E & d & evs & -> & -> & H). eauto. }
  assert (~ owner_known ->
          forall m, exists d evs,
            Val (failure m) = Val d
            /\ after s [render_user_request] = after s (render_user_request :: evs)
            /\ provisioned_ok d
            /\ (owner_known -> evs = [render_service_request])
            /\ (~ owner_known -> evs = [] /\ exists m, d = failure m)) as Hno.
  { intros Hn m. exists (failure m), []. split; [reflexivity|]. split; [reflexivity|].
    split; [right; eauto|]. split; [intros H; contradiction | eauto]. }
  assert (owner_known ->
          forall m, exists d evs,
            Val (failure m) = Val d
            /\ after s [render_user_request; render_service_request]
               = after s (render_user_request :: evs)
            /\ provisioned_ok d
            /\ (owner_known -> evs = [render_service_request])
            /\ (~ owner_known -> evs = [] /\ exists m, d = failure m)) as Hfail.
  { intros Hy m. exists (failure m), [render_service_request].
    split; [reflexivity|]. split; [reflexivity|]. split; [right; eauto|].
    split; [reflexivity | intros H; contradiction]. }
  unfold RenderDeployment.create_service.
  apply wp_try_except, wp_bind, wp_request.
  change (RenderDeployment.base_url ++ "/users/me") with "https://api.render.com/v1/users/me".
  fold render_user_request.
  destruct (http_reply w (trace s) GET _ None) as [msg|r] eqn:Er.
  { apply wp_ret, Hno. intros (r & doc & id & [=] & _). }
  destruct (status_code r =? 200) eqn:Ec; cbn [negb].
  2: { apply wp_ret, Hno. intros (r' & doc & id & [= <-] & Hc & _).
       apply Z.eqb_neq in Ec. contradiction. }
  apply Z.eqb_eq in Ec.
  apply wp_bind. unfold json at 1. destruct (json_doc r) as [v|] eqn:Ej.
  2: { apply wp_raise, wp_ret, Hno. intros (r' & doc & id & [= <-] & _ & Hj & _). congruence. }
  apply wp_ret, wp_bind. unfold getitem at 1.
  destruct v as [| | | | |doc];
    try solve [apply wp_raise, wp_ret, Hno;
               intros (r' & doc' & id & [= <-] & _ & Hj & _); congruence].
  destruct (dict_get "id" doc) as [id|] eqn:Eid.
  2: { apply wp_raise, wp_ret, Hno. intros (r' & doc' & id & [= <-] & _ & Hj & Hid).
       congruence. }
  assert owner_known as Hyes by (exists r, doc, id; auto).
  apply wp_ret, wp_bind, wp_request. rewrite after_after.
  change (RenderDeployment.base_url ++ "/services") with "https://api.render.com/v1/services".
  fold render_service_request.
  change ([render_user_request] ++ [render_service_request])%list
    with [render_user_request; render_service_request].
  destruct (http_reply w _ POST _ None) as [msg2|r2]; [by apply wp_ret, Hfail|].
  destruct (status_code r2 =? 201); [| by apply wp_ret, Hfail].
  repeat first [ still_step | by apply wp_ret, Hfail ].
  apply wp_ret. eexists _, [render_service_request].
  split; [reflexivity|]. split; [reflexivity|].
  split; [left; split; [reflexivity | eexists; reflexivity]|].
  split; [reflexivity | intros H; contradiction].
Qed.

Lemma post_each_run w env s :
  exists o k, post_each w RailwayDeployment.base_url env s
              = (o, after s (List.repeat graphql_post k))
              /\ (o = Val tt -> k = List.length env).
Proof.
  revert s. induction env as [|kv env IH]; intros s; simpl.
  - exists (Val tt), O. rewrite after_nil. split; reflexivity.
  - unfold bind, request. fold graphql_post.
    change (with_trace (trace s ++ [graphql_post]) s) with (after s [graphql_post]).
    destruct (http_reply w (trace s) POST _ None) as [msg|r].
    + eexists _, 1%nat. split; [reflexivity | intros [=]].
    + destruct (IH (after s [graphql_post])) as (o & k & E & Hk).
      rewrite E, after_after. exists o, (S k). split; [reflexivity|].
      intros H. by rewrite (Hk H).
Qed.

(** X12.  The URL that a successful [deploy_project] returns is built
    from the clock of the machine at the start of the call, not from
    anything that Railway answered; a successful call has posted to the
    GraphQL endpoint twice and once more for every variable. *)
Theorem railway_url_comes_from_the_clock w repo_url env_vars s d s' :
  RailwayDeployment.deploy_project w repo_url env_vars s = (Val d, s') ->
  dict_get "success" d = Some (VBool true) ->
  dict_get "url" d
  = Some (VStr ("https://ai-content-optimizer-" ++ str_of_Z (second_at w s)
                ++ ".up.railway.app"))
  /\ s' = after s (List.repeat graphql_post (2 + List.length env_vars)).
Proof.
  intros E Hs.
  cut (wp (RailwayDeployment.deploy_project w repo_url env_vars) s
         (fun o s' =>
            match o with
            | Val d =>
                dict_get "success" d = Some (VBool true) ->
                dict_get "url" d
                = Some (VStr ("https://ai-content-optimizer-" ++ str_of_Z (second_at w s)
                              ++ ".up.railway.app"))
                /\ s' = after s (List.repeat graphql_post (2 + List.length env_vars))
            | Raise _ => True
            end)).
  { unfold wp. rewrite E. simpl. auto. }
  clear E Hs. unfold RailwayDeployment.deploy_project.
  apply wp_try_except, wp_bind, wp_int_time. cbv zeta.
  apply wp_bind, wp_request. fold graphql_post.
  destruct (http_reply w (trace s) POST _ None) as [msg|r]; [by apply wp_ret|].
  destruct (status_code r =? 200); [| by apply wp_ret].
  repeat first [ still_step | by apply wp_ret | apply wp_ret ].
  all: try (apply wp_bind, wp_ret).
  all: repeat first [ still_step | by apply wp_ret ].
  all: try (apply wp_bind, wp_request; fold graphql_post;
            destruct (http_reply w _ POST _ None) as [msg|r2]; [by apply wp_ret|];
            rewrite after_after).
  all: repeat first [ still_step | by apply wp_ret ].
  all: try (apply wp_bind, wp_ret).
  all: repeat first [ still_step | by apply wp_ret ].
  all: apply wp_bind;
    match goal with |- wp (post_each ?w0 _ ?env) ?s0 _ =>
      destruct (post_each_run w0 env s0) as (o & k & Ep & Hk)
    end;
    eapply wp_intro; [exact Ep|]; rewrite after_after;
    (destruct o as [[]|e]; [| by apply wp_ret]);
    apply wp_ret; intros _; rewrite (Hk eq_refl); split; reflexivity.
Qed.

Lemma railway_url_comes_from_the_clock_witness :
  exists d s',
    RailwayDeployment.deploy_project app_not_up (VStr "https://github.com/acme/app")
      (_prepare_environment_variables on_railway) home = (Val d, s')
    /\ dict_get "url" d
       = Some (VStr "https://ai-content-optimizer-1753843786.up.railway.app")
    /\ List.length (trace s') = 9%nat.
Proof.
  eexists _, _. split; [vm_compute; reflexivity|].
  edestruct (railway_url_comes_from_the_clock app_not_up (VStr "https://github.com/acme/app")
               (_prepare_environment_variables on_railway) home) as [Hurl Hstate];
    [vm_compute; reflexivity | reflexivity |].
  split; [exact Hurl | reflexivity].
Defined.

Lemma split_on_without sep cur s :
  contains_char sep s = false -> split_on sep cur s = [cur ++ s].
Proof.
  revert cur. induction s as [|c s IH]; intros cur H; simpl in *.
  - by rewrite append_nil_r.
  - apply orb_false_iff in H as [Hc Hs]. rewrite Ascii.eqb_sym, Hc.
    rewrite IH by exact Hs. by rewrite append_assoc.
Qed.

(** X13.  [create_deployment] needs a repository URL with an owner and
    a name: when nothing is left after a slash once the prefix of GitHub
    is removed, or when the URL is not a string, it fails before any
    request is made. *)
Theorem vercel_needs_owner_and_name w repo_url env_vars s :
  (forall url, repo_url = VStr url ->
               contains_char "/"%char (replace "https://github.com/" "" url) = false) ->
  exists m,
    VercelDeployment.create_deployment w repo_url env_vars s
    = (Val (failure ("Vercel deployment failed: " ++ m)), s)
    /\ (m = "list index out of range"
        \/ m = "'" ++ type_name repo_url ++ "' object has no attribute 'replace'").
Proof.
  intros H.
  unfold VercelDeployment.create_deployment, VercelDeployment.as_str_for_replace,
    try_except, bind, ret, raise.
  destruct repo_url as [| | |url| |]; try (eexists; split; [reflexivity | by right]).
  unfold split. rewrite split_on_without by (by apply H).
  eexists; split; [reflexivity | by left].
Qed.

Lemma vercel_needs_owner_and_name_witness :
  exists m,
    VercelDeployment.create_deployment all_up (VStr "https://github.com/acme")
      (_prepare_environment_variables on_railway) home
    = (Val (failure ("Vercel deployment failed: " ++ m)), home)
    /\ (m = "list index out of range"
        \/ m = "'" ++ type_name (VStr "https://github.com/acme")
               ++ "' object has no attribute 'replace'").
Proof.
  apply (vercel_needs_owner_and_name all_up (VStr "https://github.com/acme")).
  intros url [= <-]. reflexivity.
Defined.

(** ** Monitoring *)

Lemma health_check_run w app_url repo_name s :
  exists d, MonitoringSetup._setup_health_check_monitoring w app_url repo_name s
            = (Val d, after s [health_probe app_url]) /\ flagged d.
Proof.
  unfold MonitoringSetup._setup_health_check_monitoring, try_except, bind, request, ret.
  fold (health_probe app_url).
  change (with_trace (trace s ++ [?e]) s) with (after s [e]).
  destruct (http_reply w (trace s) GET _ (Some 30)) as [msg|r];
    [eexists; split; [reflexivity | eexists; reflexivity]|].
  destruct (_ =? _); eexists; (split; [reflexivity | eexists; reflexivity]).
Qed.

Lemma uptime_run w app_url repo_name s :
  exists d, MonitoringSetup._setup_uptime_monitoring w app_url repo_name s
            = (Val d, after s [root_probe app_url]) /\ flagged d.
Proof.
  unfold MonitoringSetup._setup_uptime_monitoring, try_except, bind, request, ret.
  fold (root_probe app_url).
  change (with_trace (trace s ++ [?e]) s) with (after s [e]).
  destruct (http_reply w (trace s) GET _ (Some 30)) as [msg|r];
    [eexists; split; [reflexivity | eexists; reflexivity]|].
  destruct (_ =? _); eexists; (split; [reflexivity | eexists; reflexivity]).
Qed.

Lemma datadog_run w self app_url repo_name s :
  opt_truthy (MonitoringSetup.datadog_api_key self) = true ->
  exists d, MonitoringSetup._setup_datadog_monitoring w self app_url repo_name s
            = (Val d, after s [dashboard_request]) /\ flagged d.
Proof.
  intros Hk.
  unfold MonitoringSetup._setup_datadog_monitoring, MonitoringSetup.datadog_base_url,
    try_except, bind, request, ret. rewrite Hk.
  change ("https://api.datadoghq.com/api/v1" ++ "/dashboard")
    with "https://api.datadoghq.com/api/v1/dashboard".
  fold dashboard_request.
  change (with_trace (trace s ++ [?e]) s) with (after s [e]).
  destruct (http_reply w (trace s) POST _ None) as [msg|r];
    [eexists; split; [reflexivity | eexists; reflexivity]|].
  destruct (_ || _); [| eexists; split; [reflexivity | eexists; reflexivity]].
  unfold json. destruct (json_doc r) as [v|];
    [| eexists; split; [reflexivity | eexists; reflexivity]].
  unfold get_method, ret, raise.
  destruct v; eexists; (split; [reflexivity | eexists; reflexivity]).
Qed.

Lemma successful_cons_true d rest :
  dict_get "success" d = Some (VBool true) ->
  MonitoringSetup.successful (d :: rest) = d :: MonitoringSetup.successful rest.
Proof.
  intros H. unfold MonitoringSetup.successful, dict_get_default. simpl. by rewrite H.
Qed.

(** X14.  [setup_monitoring] never raises and always probes the health
    path and the root of the application, in this order and whatever the
    first probe gave, after the dashboard request when there is a
    DataDog key.  It counts two services and one more for each of the
    Sentry and DataDog credentials, and with a Sentry DSN it always
    reports success. *)
Theorem monitoring_probes_both w self app_url repo_name s :
  let with_sentry := opt_truthy (MonitoringSetup.sentry_dsn self) in
  let with_datadog := opt_truthy (MonitoringSetup.datadog_api_key self) in
  exists d,
    MonitoringSetup.setup_monitoring w self app_url repo_name s
    = (Val d, after s ((if with_datadog then [dashboard_request] else [])
                       ++ [health_probe app_url; root_probe app_url]))
    /\ tallied d
    /\ dict_get "total_services" d
       = Some (VInt (2 + (if with_sentry then 1 else 0) + (if with_datadog then 1 else 0)))
    /\ (with_sentry = true -> dict_get "success" d = Some (VBool true)).
Proof.
  intros with_sentry with_datadog.
  cut (wp (MonitoringSetup.setup_monitoring w self app_url repo_name) s
         (fun o s' =>
            exists d, o = Val d
              /\ s' = after s ((if with_datadog then [dashboard_request] else [])
                               ++ [health_probe app_url; root_probe app_url])
              /\ tallied d
              /\ dict_get "total_services" d
                 = Some (VInt (2 + (if with_sentry then 1 else 0)
                               + (if with_datadog then 1 else 0)))
              /\ (with_sentry = true -> dict_get "success" d = Some (VBool true)))).
  { intros H. apply wp_elim in H as (o & s' & E & d & -> & -> & H). eauto. }
  unfold MonitoringSetup.setup_monitoring. apply wp_try_except. cbv zeta.
  fold with_sentry with_datadog.
  apply wp_bind.
  set (sentry := [("success", VBool true); ("service", VStr "sentry");
                  ("dsn", of_opt (MonitoringSetup.sentry_dsn self));
                  ("message", VStr "Sentry error tracking configured")]).
  apply (wp_intro _ s (Val (if with_sentry then [sentry] else [])) s).
  { by destruct with_sentry. }
  apply wp_bind.
  destruct with_datadog eqn:Hd.
  - destruct (datadog_run w self app_url repo_name s Hd) as (dd & Ed & Hdd).
    apply wp_bind. eapply wp_intro; [exact Ed|]. apply wp_ret.
    destruct (health_check_run w app_url repo_name (after s [dashboard_request]))
      as (dh & Eh & Hdh).
    apply wp_bind. eapply wp_intro; [exact Eh|]. rewrite after_after.
    destruct (uptime_run w app_url repo_name
                (after s ([dashboard_request] ++ [health_probe app_url])))
      as (du & Eu & Hdu).
    apply wp_bind. eapply wp_intro; [exact Eu|]. rewrite after_after.
    apply wp_ret. eexists. split; [reflexivity|]. split; [reflexivity|].
    split; [split; [eexists; reflexivity | reflexivity]|].
    split; [by destruct with_sentry|].
    intros ->. cbn [app]. rewrite successful_cons_true by reflexivity. reflexivity.
  - apply wp_ret.
    destruct (health_check_run w app_url repo_name s) as (dh & Eh & Hdh).
    apply wp_bind. eapply wp_intro; [exact Eh|].
    destruct (uptime_run w app_url repo_name (after s [health_probe app_url]))
      as (du & Eu & Hdu).
    apply wp_bind. eapply wp_intro; [exact Eu|]. rewrite after_after.
    apply wp_ret. eexists. split; [reflexivity|]. split; [reflexivity|].
    split; [split; [eexists; reflexivity | reflexivity]|].
    split; [by destruct with_sentry|].
    intros ->. cbn [app]. rewrite successful_cons_true by reflexivity. reflexivity.
Qed.

(** X15.  [test_monitoring_connection] always returns [success = True]
    with an entry for Sentry and one for DataDog, also when DataDog
    cannot be reached; it makes one request, with a timeout of 10, when
    there is a DataDog key, and none otherwise. *)
Theorem monitoring_test_always_succeeds w self s :
  let validate := EvHttp GET "https://api.datadoghq.com/api/v1/validate" (Some 10) in
  let configured := opt_truthy (MonitoringSetup.sentry_dsn self) in
  let keyed := opt_truthy (MonitoringSetup.datadog_api_key self) in
  exists valid,
    MonitoringSetup.test_monitoring_connection w self s
    = (Val [("success", VBool true);
            ("services",
             VDict [("sentry", VDict [("available", VBool configured);
                                      ("dsn_configured", VBool configured)]);
                    ("datadog", VDict [("available", VBool valid);
                                       ("api_key_valid", VBool valid)])])],
       after s (if keyed then [validate] else []))
    /\ (valid = true <->
        keyed = true
        /\ exists r, http_reply w (trace s) GET "https://api.datadoghq.com/api/v1/validate"
                       (Some 10) = HttpResponse r
                     /\ status_code r = 200).
Proof.
  intros validate configured keyed.
  unfold MonitoringSetup.test_monitoring_connection, MonitoringSetup.datadog_base_url,
    try_except, bind, ret, request.
  fold configured keyed.
  change ("https://api.datadoghq.com/api/v1" ++ "/validate")
    with "https://api.datadoghq.com/api/v1/validate".
  destruct keyed eqn:Hk.
  - change (with_trace (trace s ++ [?e]) s) with (after s [e]). fold validate.
    destruct (http_reply w (trace s) GET _ (Some 10)) as [msg|r] eqn:Er.
    + exists false. split; [by destruct configured|].
      split; [intros [=] | intros (_ & r & [=] & _)].
    + exists (status_code r =? 200). split; [by destruct configured|].
      split.
      * intros H. apply Z.eqb_eq in H. eauto.
      * intros (_ & r' & [= <-] & Hc). by apply Z.eqb_eq.
  - rewrite after_nil. exists false. split; [by destruct configured|].
    split; [intros [=] | intros ([=] & _)].
Qed.

(** ** CI/CD *)

Lemma workflow_run w self repo_name platform s :
  opt_truthy (CICDPipeline.github_token self) = true ->
  exists d,
    CICDPipeline._create_github_actions_workflow w self repo_name platform s
    = (Val d, after s [EvHttp PUT (workflow_url repo_name) None])
    /\ reported d
    /\ (dict_get "success" d = Some (VBool true) <->
        exists r, http_reply w (trace s) PUT (workflow_url repo_name) None = HttpResponse r
                  /\ (status_code r = 200 \/ status_code r = 201)).
Proof.
  intros Ht.
  unfold CICDPipeline._create_github_actions_workflow, CICDPipeline.github_base_url,
    try_except, bind, request, ret. rewrite Ht.
  change ("https://api.github.com" ++ "/repos/" ++ repo_name
          ++ "/.github/workflows/deploy.yml") with (workflow_url repo_name).
  change (with_trace (trace s ++ [?e]) s) with (after s [e]).
  destruct (http_reply w (trace s) PUT _ None) as [msg|r] eqn:Er.
  { eexists; split; [reflexivity|]. split; [right; eauto|].
    split; [intros [=] | intros (r & [=] & _)]. }
  destruct (_ || _) eqn:Ec; eexists; (split; [reflexivity|]).
  - split; [by left|]. split; [intros _ | reflexivity].
    exists r. split; [reflexivity|].
    apply orb_true_iff in Ec as [H|H]; apply Z.eqb_eq in H; auto.
  - split; [right; eauto|]. split; [intros [=]|].
    intros (r' & [= <-] & Hc). apply orb_false_iff in Ec as [H1 H2].
    apply Z.eqb_neq in H1, H2. tauto.
Qed.

(** X16.  Without a GitHub token [setup_pipeline] makes no request.
    With one, it reports success exactly when the request that writes
    the workflow file is answered with 200 or 201: the results of the
    branch protection and of the environments do not enter, and when the
    workflow cannot be written nothing else is attempted. *)
Theorem pipeline_success_is_the_workflow w self repo_name platform s :
  (opt_truthy (CICDPipeline.github_token self) = false ->
   CICDPipeline.setup_pipeline w self repo_name platform s
   = (Val (failure "GitHub token not available"), s))
  /\ (opt_truthy (CICDPipeline.github_token self) = true ->
      exists d evs,
        CICDPipeline.setup_pipeline w self repo_name platform s
        = (Val d, after s (EvHttp PUT (workflow_url repo_name) None :: evs))
        /\ reported d
        /\ (dict_get "success" d = Some (VBool true) <->
            exists r, http_reply w (trace s) PUT (workflow_url repo_name) None
                      = HttpResponse r
                      /\ (status_code r = 200 \/ status_code r = 201))
        /\ (dict_get "success" d <> Some (VBool true) -> evs = [])).
Proof.
  split.
  { intros Ht. unfold CICDPipeline.setup_pipeline, try_except. by rewrite Ht. }
  intros Ht.
  destruct (workflow_run w self repo_name platform s Ht) as (wd & Ew & Hwd & Hiff).
  cut (wp (CICDPipeline.setup_pipeline w self repo_name platform) s
         (fun o s' =>
            exists d evs, o = Val d
              /\ s' = after s (EvHttp PUT (workflow_url repo_name) None :: evs)
              /\ reported d
              /\ (dict_get "success" d = Some (VBool true)
                  <-> dict_get "success" wd = Some (VBool true))
              /\ (dict_get "success" d <> Some (VBool true) -> evs = []))).
  { intros H. apply wp_elim in H as (o & s' & E & d & evs & -> & -> & Hd & Hs & He).
    exists d, evs. split; [exact E|]. split; [exact Hd|]. split; [|exact He].
    by rewrite Hs. }
  unfold CICDPipeline.setup_pipeline. apply wp_try_except. rewrite Ht. cbn [negb].
  apply wp_bind. eapply wp_intro; [exact Ew|]. wp_steps.
  destruct Hwd as [Hs | [m ->]].
  - rewrite Hs. cbn [truthy].
    apply wp_bind. eapply wp_returns; [apply _setup_branch_protection_quiet|].
    intros pd evs1 Hpd. rewrite after_after.
    apply wp_bind. eapply wp_returns; [apply _create_deployment_environments_quiet|].
    intros ed evs2 [b Hed]. rewrite after_after. wp_steps. rewrite Hs. wp_steps.
    assert (exists v, dict_get "success" pd = Some v) as [v ->]
      by (destruct Hpd as [->|[m ->]]; eexists; reflexivity).
    wp_steps. rewrite Hed. wp_steps.
    eexists _, _. split; [reflexivity|]. split; [reflexivity|].
    split; [by left|]. split; [split; reflexivity | intros H; by destruct H].
  - rewrite dict_get_failure_success. cbn [truthy]. wp_steps.
    eexists _, []. split; [reflexivity|]. split; [reflexivity|].
    split; [right; eauto|]. split; [split; intros [=] | reflexivity].
Qed.

Lemma put_deployment_secrets_quiet w self repo_name key secrets created :
  quiet (CICDPipeline.put_deployment_secrets w self repo_name key secrets created)
        (fun o => match o with
                  | Val l => exists more, l = (created ++ more)%list
                                          /\ sublist more (List.map fst secrets)
                  | Raise _ => secrets <> []
                  end).
Proof.
  revert created. induction secrets as [|[name value] rest IH]; intros created; simpl.
  - apply quiet_ret. exists []. split; [by rewrite app_nil_r | constructor].
  - apply quiet_bind, quiet_getitem. intros [v|e]; [|done].
    unfold CICDPipeline.github_base_url.
    destruct (opt_truthy _); [| by apply quiet_bind, quiet_raise].
    apply quiet_bind, quiet_ret. apply quiet_bind, quiet_request; [|done].
    intros r. eapply quiet_conseq; [apply IH|].
    intros [l|e]; [|done].
    intros (more & -> & Hsub).
    destruct (_ || _).
    + exists (name :: more). split; [by rewrite <- app_assoc | by constructor].
    + exists more. split; [reflexivity | by constructor].
Qed.

(** X17.  [create_deployment_secrets] never raises.  What it reports as
    created are names of the given secrets, in their order; without a
    GitHub token it makes no request and fails on the attribute that
    [__init__] did not set; with no secret to create it never reports
    success. *)
Theorem deployment_secrets_report w self repo_name secrets s :
  exists d evs,
    CICDPipeline.create_deployment_secrets w self repo_name secrets s = (Val d, after s evs)
    /\ ((exists m, d = failure m)
        \/ exists created, d = secrets_report created
                           /\ sublist created (List.map fst secrets))
    /\ (opt_truthy (CICDPipeline.github_token self) = false ->
        evs = []
        /\ d = failure ("Secret creation failed: "
                        ++ "'CICDPipeline' object has no attribute 'github_base_url'"))
    /\ (secrets = [] -> dict_get "success" d = Some (VBool false)).
Proof.
  destruct (opt_truthy (CICDPipeline.github_token self)) eqn:Htoken.
  2: { exists (failure ("Secret creation failed: "
                        ++ "'CICDPipeline' object has no attribute 'github_base_url'")), [].
       rewrite after_nil. split.
       - unfold CICDPipeline.create_deployment_secrets, CICDPipeline.github_base_url,
           try_except, bind, raise. by rewrite Htoken.
       - split; [left; eauto|]. split; [done | reflexivity]. }
  cut (quiet (CICDPipeline.create_deployment_secrets w self repo_name secrets)
         (returns (fun d =>
            ((exists m, d = failure m)
             \/ exists created, d = secrets_report created
                                /\ sublist created (List.map fst secrets))
            /\ (secrets = [] -> dict_get "success" d = Some (VBool false))))).
  { intros H. destruct (H s) as ([d|e] & evs & E & Hd);
      [destruct Hd as [Hd Hempty] | destruct Hd].
    exists d, evs. split; [exact E|]. split; [exact Hd|]. split; [intros [=] | exact Hempty]. }
  unfold CICDPipeline.create_deployment_secrets, CICDPipeline.github_base_url.
  rewrite Htoken.
  apply quiet_try_except, quiet_bind, quiet_ret.
  apply quiet_bind, quiet_request.
  2: { intros msg. apply quiet_ret. simpl. split; [left; eauto | reflexivity]. }
  intros r. destruct (negb _).
  { apply quiet_ret. simpl. split; [left; eauto | reflexivity]. }
  apply quiet_bind, quiet_json. intros [key|e].
  2: { apply quiet_ret. simpl. split; [left; eauto | reflexivity]. }
  apply quiet_bind.
  eapply quiet_conseq; [apply put_deployment_secrets_quiet|].
  intros [l|e].
  - intros (more & -> & Hsub). apply quiet_ret. simpl. split.
    + right. exists more. split; [reflexivity | exact Hsub].
    + intros ->. apply sublist_nil_r in Hsub as ->. reflexivity.
  - intros Hne. apply quiet_ret. simpl. split; [left; eauto | done].
Qed.

(** ** The credential manager *)

Ltac by_environment env :=
  repeat match goal with
         | |- context [env ?k] => destruct (env k) as [?v|] eqn:?
         end.

Lemma default_credential env k :
  In k ["GITHUB_TOKEN"; "OPENAI_API_KEY"; "STRIPE_SECRET_KEY"; "TELEGRAM_BOT_TOKEN";
        "TELEGRAM_USER_ID"] ->
  cred_get (CredentialManager.credentials (CredentialManager.init env)) k = env k.
Proof.
  intros Hk. simpl in Hk.
  repeat (destruct Hk as [<-|Hk]; [vm_compute; reflexivity|]). destruct Hk.
Qed.

Lemma construct_credentials env :
  AutonomousDeployer.credentials (construct env None) = CredentialManager.credentials (CredentialManager.init env).
Proof. reflexivity. Qed.

(** X18.  Of the seven critical credentials the four that are written
    in the code are never missing: [get_missing_credentials] lists, in
    the order GitHub, OpenAI, Stripe, exactly those whose environment
    variable is not set. *)
Theorem missing_credentials_come_from_environment env :
  CredentialManager.get_missing_credentials (CredentialManager.init env)
  = List.filter (fun k => match env k with Some _ => false | None => true end)
      ["GITHUB_TOKEN"; "OPENAI_API_KEY"; "STRIPE_SECRET_KEY"].
Proof.
  unfold CredentialManager.get_missing_credentials, CredentialManager.critical_credentials, CredentialManager.has_credential.
  vm_compute. by_environment env; reflexivity.
Qed.

(** X19.  [validate_credentials] counts thirteen checks.  Seven pass
    whatever the environment is, those of SendGrid and Mailgun never
    pass, and each of the GitHub token, the OpenAI key, the Stripe key
    and the Telegram bot token passes when its variable is set: the
    percentage lies between 53.8 and 84.6 and is never 100. *)
Theorem readiness_is_never_complete env :
  let v := CredentialManager.validate_credentials (CredentialManager.init env) in
  let passed := 7 + set_in env "GITHUB_TOKEN" + set_in env "OPENAI_API_KEY"
                + set_in env "STRIPE_SECRET_KEY" + set_in env "TELEGRAM_BOT_TOKEN" in
  CredentialManager.readiness_score v = str_of_Z passed ++ "/13"
  /\ CredentialManager.percentage v = CredentialManager.percentage_tenths passed 13
  /\ 538 <= CredentialManager.percentage v <= 846.
Proof.
  unfold set_in. vm_compute. by_environment env; repeat split; discriminate.
Qed.

(** X20.  [export_for_deployment] exports strings: the five common keys
    are always there, a price is never empty, and the keys of the
    platform follow for [railway], [vercel] and [render] only. *)
Theorem export_for_deployment_shape env platform :
  let exported := CredentialManager.export_for_deployment (CredentialManager.init env) platform in
  (forall k, In k ["OPENAI_API_KEY"; "STRIPE_SECRET_KEY"; "SECRET_KEY"; "FLASK_ENV"; "PRICE_ID"] ->
             exists v, dict_get k exported = Some (VStr v))
  /\ (exists price, dict_get "PRICE_ID" exported = Some (VStr price) /\ price <> "")
  /\ List.map fst exported
     = (["OPENAI_API_KEY"; "STRIPE_SECRET_KEY"; "SECRET_KEY"; "FLASK_ENV"; "PRICE_ID"]
        ++ (if String.eqb platform "railway" then ["PORT"; "RAILWAY_ENVIRONMENT"]
            else if String.eqb platform "vercel" then ["VERCEL_ENV"]
            else if String.eqb platform "render" then ["RENDER_ENV"]
            else []))%list.
Proof.
  unfold CredentialManager.export_for_deployment, CredentialManager.get_credential.
  assert (cred_get (CredentialManager.credentials (CredentialManager.init env)) "OPENAI_API_KEY" = env "OPENAI_API_KEY") as -> by (vm_compute; reflexivity).
  assert (cred_get (CredentialManager.credentials (CredentialManager.init env)) "STRIPE_SECRET_KEY" = env "STRIPE_SECRET_KEY") as -> by (vm_compute; reflexivity).
  assert (cred_get (CredentialManager.credentials (CredentialManager.init env)) "PRICE_ID"
          = CredentialManager.getenv_default env "PRICE_ID" "price_1RcdcyEfbTvI2h4o4PVLTykg") as ->.
  { vm_compute. by_environment env; reflexivity. }
  set (price := or_else _ "price_1RcdcyEfbTvI2h4o4PVLTykg").
  assert (price <> "") as Hprice.
  { unfold price, or_else, CredentialManager.getenv_default. destruct (env "PRICE_ID") as [v|]; [|discriminate].
    destruct (String.eqb v "") eqn:E; [discriminate|]. by apply String.eqb_neq. }
  cbv zeta.
  destruct (String.eqb platform "railway"); [|destruct (String.eqb platform "vercel");
    [|destruct (String.eqb platform "render")]];
    (split; [intros k Hk; simpl in Hk;
             repeat (destruct Hk as [<-|Hk]; [eexists; reflexivity|]); destruct Hk
            | split; [exists price; split; [reflexivity | exact Hprice] | reflexivity]]).
Qed.

(** X21.  A secret whose variable is not set reaches the platform as
    [None] when the deployer is built from the credential manager, where
    [export_for_deployment] and a deployer built from given credentials
    pass the empty string. *)
Theorem unset_secret_is_passed_as_None env k platform :
  In k ["OPENAI_API_KEY"; "STRIPE_SECRET_KEY"] ->
  env k = None ->
  dict_get k (_prepare_environment_variables (construct env None)) = Some VNone
  /\ dict_get k (CredentialManager.export_for_deployment (CredentialManager.init env) platform) = Some (VStr "")
  /\ forall given : creds,
       given <> ∅ -> given !! k = None ->
       dict_get k (_prepare_environment_variables (AutonomousDeployer.init (Some given) ∅))
       = Some (VStr "").
Proof.
  intros Hk Hnone. simpl in Hk. split; [|split].
  - unfold _prepare_environment_variables. rewrite construct_credentials.
    unfold cred_get_default.
    destruct Hk as [<-|[<-|[]]].
    + assert (CredentialManager.credentials (CredentialManager.init env) !! "OPENAI_API_KEY" = Some (env "OPENAI_API_KEY")) as ->
        by (vm_compute; reflexivity).
      by rewrite Hnone.
    + assert (CredentialManager.credentials (CredentialManager.init env) !! "STRIPE_SECRET_KEY" = Some (env "STRIPE_SECRET_KEY")) as ->
        by (vm_compute; reflexivity).
      by rewrite Hnone.
  - unfold CredentialManager.export_for_deployment, CredentialManager.get_credential.
    rewrite !default_credential by (simpl; tauto).
    destruct Hk as [<-|[<-|[]]]; rewrite Hnone; cbv zeta;
      destruct (String.eqb platform "railway"); try reflexivity;
      destruct (String.eqb platform "vercel"); try reflexivity;
      destruct (String.eqb platform "render"); reflexivity.
  - intros given Hne Hk'.
    unfold _prepare_environment_variables, AutonomousDeployer.init.
    cbn [AutonomousDeployer.credentials]. rewrite bool_decide_eq_false_2 by exact Hne.
    unfold cred_get_default.
    destruct Hk as [<-|[<-|[]]]; cbn [dict_get String.eqb Ascii.eqb Bool.eqb]; by rewrite Hk'.
Qed.

Lemma unset_secret_is_passed_as_None_witness :
  dict_get "OPENAI_API_KEY"
    (_prepare_environment_variables (construct bare_environment None)) = Some VNone
  /\ dict_get "OPENAI_API_KEY"
       (CredentialManager.export_for_deployment (CredentialManager.init bare_environment)
          "railway") = Some (VStr "").
Proof.
  destruct (unset_secret_is_passed_as_None bare_environment "OPENAI_API_KEY" "railway")
    as (Hprepared & Hexported & _); [simpl; tauto | reflexivity |].
  split; [exact Hprepared | exact Hexported].
Defined.

(** X22.  A GitHub token set to the empty string counts as present for
    the credential manager and as absent everywhere else: it is not
    reported missing, the status report says that GitHub is not ready,
    and the pipeline refuses to run without a request. *)
Theorem empty_token_counts_as_present w env repo_name platform s :
  env "GITHUB_TOKEN" = Some "" ->
  CredentialManager.has_credential (CredentialManager.init env) "GITHUB_TOKEN" = true
  /\ ~ In "GITHUB_TOKEN" (CredentialManager.get_missing_credentials (CredentialManager.init env))
  /\ dict_get "github_ready" (get_deployment_status (construct env None)) = Some (VBool false)
  /\ CICDPipeline.setup_pipeline w (cicd (construct env None)) repo_name platform s
     = (Val (failure "GitHub token not available"), s).
Proof.
  intros Htoken.
  assert (cred_get (CredentialManager.credentials (CredentialManager.init env)) "GITHUB_TOKEN" = Some "") as Hc
    by (rewrite default_credential by (simpl; tauto); exact Htoken).
  split; [| split; [| split]].
  - unfold CredentialManager.has_credential. by rewrite Hc.
  - unfold CredentialManager.get_missing_credentials. rewrite filter_In. intros [_ H].
    unfold CredentialManager.has_credential in H. by rewrite Hc in H.
  - unfold get_deployment_status.
    change (AutonomousDeployer.credentials (construct env None)) with (CredentialManager.credentials (CredentialManager.init env)).
    cbn [dict_get String.eqb Ascii.eqb Bool.eqb]. by rewrite Hc.
  - unfold CICDPipeline.setup_pipeline, try_except.
    change (CICDPipeline.github_token (cicd (construct env None)))
      with (cred_get (CredentialManager.credentials (CredentialManager.init env)) "GITHUB_TOKEN").
    by rewrite Hc.
Qed.

Lemma empty_token_counts_as_present_witness :
  CredentialManager.has_credential (CredentialManager.init blank_token) "GITHUB_TOKEN" = true
  /\ dict_get "github_ready" (get_deployment_status (construct blank_token None))
     = Some (VBool false).
Proof.
  destruct (empty_token_counts_as_present all_up blank_token "app" "railway" home)
    as (Hpresent & _ & Hstatus & _); [reflexivity |].
  split; [exact Hpresent | exact Hstatus].
Defined.

(** ** The script *)

Lemma wp_print line s (Phi : Outcome unit -> St -> Prop) :
  Phi (Val tt) (after s [EvPrint line]) -> wp (print line) s Phi.
Proof. auto. Qed.

Lemma default_platforms env :
  platforms (construct env None)
  = [("render", RenderAdapter); ("railway", RailwayAdapter); ("vercel", VercelAdapter)].
Proof. vm_compute. reflexivity. Qed.

Lemma deploy_mvp_returns w self mvp_path platform custom_domain s :
  exists r s', deploy_mvp w self mvp_path platform custom_domain s = (Val r, s').
Proof.
  rewrite deploy_mvp_unfold. unfold try_except.
  destruct (deploy_body w self mvp_path platform custom_domain (fresh s)) as [[r|e] s0];
    [eauto|].
  rewrite on_exception_run. eauto.
Qed.

Lemma print_log_run entries s :
  DeployMvpToRailway.print_log entries s
  = (Val tt, after s (List.map (fun entry => EvPrint ("   " ++ entry)) entries)).
Proof.
  revert s. induction entries as [|entry rest IH]; intros s; simpl.
  - by rewrite after_nil.
  - unfold bind, print, emit.
    change (with_trace (trace s ++ [?e]) s) with (after s [e]).
    by rewrite IH, after_after.
Qed.

Ltac print_step :=
  lazymatch goal with
  | |- wp (bind (print _) _) _ _ => apply wp_bind, wp_print; rewrite ?after_after
  | |- wp (bind (field _ _) _) _ _ =>
      apply wp_bind, wp_field; cbn [dict_get String.eqb Ascii.eqb Bool.eqb andb]
  | |- wp (bind (ret _) _) _ _ => apply wp_bind, wp_ret
  | |- wp (bind (contains _ _) _) _ _ => apply wp_bind, wp_ret
  | |- wp (print _) _ _ => apply wp_print; rewrite ?after_after
  | |- wp (ret _) _ _ => apply wp_ret
  | |- wp (bind (bind _ _) _) _ _ => apply wp_bind
  | |- wp (bind (if ?b then _ else _) _) _ _ => apply wp_bind
  end.

Ltac print_steps := repeat first [ print_step | progress cbv beta iota zeta ].

(** X23.  [main] prints, runs one deployment of
    [/tmp/test_skill_output] to Railway without a custom domain with the
    credentials of the credential manager, prints again, and returns the
    [success] of that deployment.  It never raises, the branch for a
    missing Railway token is never taken, and outside the deployment it
    does nothing but print. *)
Theorem main_returns_deployment_success w env s :
  exists before r s1 afterwards,
    Forall is_print before
    /\ deploy_mvp w (construct env None) "/tmp/test_skill_output" "railway" None
         (after s before) = (Val r, s1)
    /\ DeployMvpToRailway.main w env s = (Val (success r), after s1 afterwards)
    /\ Forall is_print afterwards.
Proof.
  cut (wp (DeployMvpToRailway.main w env) s
         (fun o s' =>
            exists before r s1 afterwards,
              Forall is_print before
              /\ deploy_mvp w (construct env None) "/tmp/test_skill_output" "railway" None
                   (after s before) = (Val r, s1)
              /\ (o, s') = (Val (success r), after s1 afterwards)
              /\ Forall is_print afterwards)).
  { unfold wp. intros (before & r & s1 & afterwards & H1 & H2 & H3 & H4).
    exists before, r, s1, afterwards. repeat split; try assumption.
    by destruct (DeployMvpToRailway.main w env s). }
  assert (forall l : list string,
             Forall is_print (List.map (fun entry => EvPrint ("   " ++ entry)) l))
    as Hlog by (intros l; induction l; constructor; [exact I | assumption]).
  unfold DeployMvpToRailway.main, get_deployment_status. print_steps.
  rewrite default_platforms.
  cbn [platform_keys List.map fst existsb String.eqb Ascii.eqb Bool.eqb andb orb negb].
  print_steps.
  apply wp_bind.
  match goal with
  | |- wp (deploy_mvp ?w0 ?d ?p ?pl ?cd) ?s0 _ =>
      destruct (deploy_mvp_returns w0 d p pl cd s0) as (r & s1 & E)
  end.
  eapply wp_intro; [exact E|]. print_steps.
  apply wp_bind. eapply wp_intro; [apply print_log_run|]. rewrite ?after_after.
  assert (forall l1 l2 : list Event,
             Forall is_print l1 -> Forall is_print l2 -> Forall is_print (l1 ++ l2))
    as Happ by (intros l1 l2 H1 H2; apply List.Forall_app; by split).
  destruct r as [error log | app_url repo_url pl dep verification log ts];
    [| apply wp_bind;
       destruct (truthy (dict_get_default "overall_status" (VBool false) verification));
       [| unfold dict_has;
          destruct (dict_get "error" verification) as [err|] eqn:Herr;
          [print_steps; rewrite ?Herr|]]];
    print_steps;
    (match type of E with
     | _ (after _ ?before) = (Val ?r0, _) => exists before, r0, s1
     end);
    eexists; (split; [repeat constructor|]); (split; [exact E|]);
    (split; [reflexivity|]);
    repeat first [ apply Hlog | apply Happ | constructor; [exact I|] | constructor ].
Qed.
